(** * icepool / hdroller: pools, decks, keep-expressions, the pool
    evaluator and the weight-merging policies, embedded from the Python
    sources and checked against the specification's claims.

    Outcomes, weights, counts and sizes are Python [int]s: unbounded
    integers, here [Z].  A [dict] whose insertion order is observable is an
    association list with unique keys; tuples are lists; a generator that is
    drained into a tuple is the list of what it yields, or the exception it
    raises on the way. *)

From Stdlib Require Import ZArith Lia List Bool.
From stdpp Require Import base option list countable gmap.

Local Open Scope Z_scope.

(** ** Python exceptions and results *)

Inductive exn : Type :=
  | ValueError
  | TypeError
  | IndexError
  | RuntimeError
  | RecursionError.

Inductive result (A : Type) : Type :=
  | Ok (a : A)
  | Raise (e : exn).

Arguments Ok {A} a.
Arguments Raise {A} e.

Global Instance result_ret : MRet result := fun A a => Ok a.
Global Instance result_bind : MBind result := fun A B k r =>
  match r with
  | Ok a => k a
  | Raise e => Raise e
  end.

Global Instance result_fmap : FMap result := fun A B f r =>
  match r with
  | Ok a => Ok (f a)
  | Raise e => Raise e
  end.

Definition is_ok {A : Type} (r : result A) : bool :=
  match r with Ok _ => true | Raise _ => false end.

(** A loop body that may raise, run over a list, collecting the results. *)
Fixpoint mapM {A B : Type} (f : A -> result B) (l : list A) : result (list B) :=
  match l with
  | [] => Ok []
  | x :: l' => y ← f x; ys ← mapM f l'; Ok (y :: ys)
  end.

(** ** Python built-ins used by the sources *)

Module Py.

(** [len(l)] *)
Definition len {A : Type} (l : list A) : Z := Z.of_nat (length l).

(** [sum(l)] and [math.prod(l)] *)
Definition sum (l : list Z) : Z := fold_right Z.add 0 l.
Definition prod (l : list Z) : Z := fold_right Z.mul 1 l.

(** [any(l)] on ints: some entry is non-zero. *)
Definition any (l : list Z) : bool := existsb (fun x => negb (x =? 0)) l.

(** The clamping of a slice bound [i] against a sequence of length [n]:
    a negative bound counts from the end, and both ends saturate. *)
Definition clamp (n i : Z) : Z :=
  if i <? 0 then Z.max 0 (n + i) else Z.min i n.

(** [l[:i]] and [l[i:]] *)
Definition upto {A : Type} (i : Z) (l : list A) : list A :=
  firstn (Z.to_nat (clamp (len l) i)) l.
Definition from {A : Type} (i : Z) (l : list A) : list A :=
  skipn (Z.to_nat (clamp (len l) i)) l.

(** [l[i:j]] with step [None]; an absent bound is [None]. *)
Definition slice {A : Type} (i j : option Z) (l : list A) : list A :=
  let lo := match i with Some i => clamp (len l) i | None => 0 end in
  let hi := match j with Some j => clamp (len l) j | None => len l end in
  firstn (Z.to_nat (hi - lo)) (skipn (Z.to_nat lo) l).

(** [range(lo, hi)] *)
Definition range (lo hi : Z) : list Z :=
  map (fun i => lo + Z.of_nat i) (seq 0 (Z.to_nat (hi - lo))).

(** [slice(start, stop, step).indices(length)] for a step that is not 0:
    the start and the stop of the range of positions the slice selects. *)
Definition slice_indices (length : Z) (start stop : option Z) (step : Z)
    : Z * Z :=
  let lower := if step <? 0 then -1 else 0 in
  let upper := if step <? 0 then length - 1 else length in
  let bound (v : Z) :=
    if v <? 0 then Z.max (v + length) lower else Z.min v upper in
  (match start with
   | Some v => bound v
   | None => if step <? 0 then upper else lower
   end,
   match stop with
   | Some v => bound v
   | None => if step <? 0 then lower else upper
   end).

(** [range(start, stop, step)] for a step that is not 0. *)
Definition range_step (start stop step : Z) : list Z :=
  let n :=
    if step >? 0 then
      if start <? stop then (stop - start - 1) / step + 1 else 0
    else
      if stop <? start then (start - stop - 1) / (- step) + 1 else 0 in
  map (fun i => start + Z.of_nat i * step) (seq 0 (Z.to_nat n)).

(** [(x,) * n]: a non-positive [n] gives the empty tuple. *)
Definition repeat {A : Type} (x : A) (n : Z) : list A :=
  List.repeat x (Z.to_nat n).

(** [l[-1]] and [l[0]], which raise [IndexError] on an empty sequence. *)
Definition last_item {A : Type} (l : list A) : result A :=
  match List.rev l with
  | x :: _ => Ok x
  | [] => Raise IndexError
  end.
Definition first_item {A : Type} (l : list A) : result A :=
  match l with
  | x :: _ => Ok x
  | [] => Raise IndexError
  end.

(** [max(l)] and [min(l)] of a non-empty sequence ([ValueError] on an
    empty one). *)
Definition max (l : list Z) : result Z :=
  match l with
  | [] => Raise ValueError
  | x :: l' => Ok (fold_left Z.max l' x)
  end.
Definition min (l : list Z) : result Z :=
  match l with
  | [] => Raise ValueError
  | x :: l' => Ok (fold_left Z.min l' x)
  end.

(** [bisect.bisect_left(l, x)] and [bisect.bisect_right(l, x)] on a sorted
    sequence: the number of entries below [x], resp. not above [x]. *)
Definition bisect_left (l : list Z) (x : Z) : Z :=
  len (List.filter (fun y => y <? x) l).
Definition bisect_right (l : list Z) (x : Z) : Z :=
  len (List.filter (fun y => y <=? x) l).

(** [d[k] += v] on a [defaultdict(int)]: an existing key keeps its place,
    a new key goes last. *)
Fixpoint dict_add {K : Type} `{EqDecision K} (k : K) (v : Z)
    (d : list (K * Z)) : list (K * Z) :=
  match d with
  | [] => [(k, v)]
  | (k', v') :: d' =>
      if decide (k' = k) then (k', v' + v) :: d'
      else (k', v') :: dict_add k v d'
  end.

(** [sorted(d.items())] for a dict: by key, the keys being distinct. *)
Fixpoint insert_item (x : Z * Z) (l : list (Z * Z)) : list (Z * Z) :=
  match l with
  | [] => [x]
  | y :: l' => if fst x <=? fst y then x :: y :: l' else y :: insert_item x l'
  end.
Definition sorted_items (d : list (Z * Z)) : list (Z * Z) :=
  fold_right insert_item [] d.

(** [sorted(l)] for a sequence of ints. *)
Fixpoint insert_int (x : Z) (l : list Z) : list Z :=
  match l with
  | [] => [x]
  | y :: l' => if x <=? y then x :: y :: l' else y :: insert_int x l'
  end.
Definition sorted (l : list Z) : list Z := fold_right insert_int [] l.

(** Strictly increasing, as the keys of a sorted mapping are. *)
Fixpoint increasing (l : list Z) : Prop :=
  match l with
  | [] => True
  | x :: l' => match l' with [] => True | y :: _ => x < y end /\ increasing l'
  end.

(** In sorted order, as [sorted] leaves a sequence. *)
Fixpoint nondecreasing (l : list Z) : Prop :=
  match l with
  | [] => True
  | x :: l' => match l' with [] => True | y :: _ => x <= y end /\ nondecreasing l'
  end.

(** [d[k] = v] on a [dict]: an existing key keeps its place, a new key
    goes last. *)
Fixpoint dict_set {K : Type} `{EqDecision K} (k : K) (v : Z)
    (d : list (K * Z)) : list (K * Z) :=
  match d with
  | [] => [(k, v)]
  | (k', v') :: d' =>
      if decide (k' = k) then (k', v) :: d'
      else (k', v') :: dict_set k v d'
  end.

(** [d.get(k, default)] *)
Fixpoint dict_get {K : Type} `{EqDecision K} (k : K) (default : Z)
    (d : list (K * Z)) : Z :=
  match d with
  | [] => default
  | (k', v') :: d' => if decide (k' = k) then v' else dict_get k default d'
  end.

(** [itertools.product] of drained iterables: the last one varies
    fastest. *)
Fixpoint product {A : Type} (iterables : list (list A)) : list (list A) :=
  match iterables with
  | [] => [[]]
  | l :: iterables' =>
      flat_map (fun x => map (cons x) (product iterables')) l
  end.

End Py.

(** ** Binomial coefficients *)

(** Modelled from the spec: [icepool.math.comb] and [hdroller.math.comb_row]
    are not in the tree.  The spec names "the hypergeometric term
    [C(group_count, k)]" for the first and "a cached row-of-Pascal's-triangle
    helper" giving [binomial(n, count) * single_weight^count] for the second
    (the factor for the dice below the outcome is not an argument of
    [comb_row(num_possible_dice, single_weight)]). *)
Fixpoint binom (n k : nat) : Z :=
  match n, k with
  | _, O => 1
  | O, S _ => 0
  | S n', S k' => binom n' k' + binom n' k
  end.

(** [comb(n, k)]; the loops that call it keep [0 <= k <= n]. *)
Definition comb (n k : Z) : Z :=
  if (0 <=? k) && (0 <=? n) then binom (Z.to_nat n) (Z.to_nat k) else 0.

Definition comb_row (n b : Z) : list Z :=
  map (fun k => binom (Z.to_nat n) k * b ^ Z.of_nat k) (seq 0 (S (Z.to_nat n))).

(** ** icepool/creation_args.py: merging sub-distributions *)

Module CreationArgs.

(** A sub-distribution: a [Mapping] from outcomes to ints, in iteration
    order. *)
Definition Subdata : Type := list (Z * Z).

(** [expand_scalar(arg)] for an outcome that is not [icepool.Reroll]. *)
Definition expand_scalar (arg : Z) : Subdata := [(arg, 1)].

(** The two nested loops shared by every merge function:
    [for subdata, f in zip(subdatas, factors):
       for outcome, weight in subdata.items(): data[outcome] += weight * f] *)
Definition accumulate_one (f : Z) (subdata : Subdata) (data : Subdata) : Subdata :=
  fold_left (fun acc ow => Py.dict_add (fst ow) (snd ow * f) acc) subdata data.

Fixpoint accumulate (subdatas : list Subdata) (factors : list Z)
    (data : Subdata) : Subdata :=
  match subdatas, factors with
  | subdata :: subdatas', f :: factors' =>
      accumulate subdatas' factors' (accumulate_one f subdata data)
  | _, _ => data
  end.

(** [merge_dups(subdatas, dups)] *)
Definition merge_dups (subdatas : list Subdata) (dups : list Z) : result Subdata :=
  if existsb (fun x => x <? 0) dups then Raise ValueError
  else Ok (accumulate subdatas dups []).

(** [[sum(subdata.values()) for subdata in subdatas]] *)
Definition denominators (subdatas : list Subdata) : list Z :=
  map (fun subdata => Py.sum (map snd subdata)) subdatas.

(** [math.lcm] and [math.gcd] of any number of arguments. *)
Definition lcm_list (l : list Z) : Z := fold_left Z.lcm l 1.
Definition gcd_list (l : list Z) : Z := fold_left Z.gcd l 0.

(** [factor = denominator_prod * w // subdata_denominator if
    subdata_denominator else 0], along
    [zip(subdata_denominators, weights)]. *)
Fixpoint factors (denominator_prod : Z) (subdata_denominators weights : list Z)
    : list Z :=
  match subdata_denominators, weights with
  | d :: ds, w :: ws =>
      (if d =? 0 then 0 else denominator_prod * w / d)
        :: factors denominator_prod ds ws
  | _, _ => []
  end.

(** The body the three merge functions share once [denominator_prod] is
    known. *)
Definition merge_with (denominator_prod : Z) (subdatas : list Subdata)
    (weights : list Z) : Subdata :=
  accumulate subdatas
    (factors denominator_prod (denominators subdatas) weights) [].

(** [merge_weights_prod(subdatas, weights)] *)
Definition merge_weights_prod (subdatas : list Subdata) (weights : list Z)
    : result Subdata :=
  if existsb (fun x => x <? 0) weights then Raise ValueError
  else
    let denominator_prod :=
      Py.prod (List.filter (fun d => d >? 0) (denominators subdatas)) in
    Ok (merge_with denominator_prod subdatas weights).

(** [merge_weights_lcm(subdatas, weights)] *)
Definition merge_weights_lcm (subdatas : list Subdata) (weights : list Z)
    : result Subdata :=
  if existsb (fun x => x <? 0) weights then Raise ValueError
  else
    let denominator_prod :=
      lcm_list (List.filter (fun d => d >? 0) (denominators subdatas)) in
    Ok (merge_with denominator_prod subdatas weights).

(** [(d // math.gcd(d, w) for d, w in zip(subdata_denominators, weights)
    if d > 0)] *)
Fixpoint joint_terms (subdata_denominators weights : list Z) : list Z :=
  match subdata_denominators, weights with
  | d :: ds, w :: ws =>
      if d >? 0 then d / Z.gcd d w :: joint_terms ds ws
      else joint_terms ds ws
  | _, _ => []
  end.

(** [merge_weights_lcm_joint(subdatas, weights)] *)
Definition merge_weights_lcm_joint (subdatas : list Subdata) (weights : list Z)
    : result Subdata :=
  if existsb (fun x => x <? 0) weights then Raise ValueError
  else
    let denominator_prod :=
      lcm_list (joint_terms (denominators subdatas) weights) in
    Ok (merge_with denominator_prod subdatas weights).

(** [merge_weights_reduce(subdatas, weights)] *)
Definition merge_weights_reduce (subdatas : list Subdata) (weights : list Z)
    : result Subdata :=
  data ← merge_weights_lcm_joint subdatas weights;
  let gcd := gcd_list (map snd data) in
  if gcd >? 1 then Ok (map (fun ow => (fst ow, snd ow / gcd)) data)
  else Ok data.

(** The keys of [merge_weights_funcs]. *)
Inductive denominator_method : Type := prod | lcm | lcm_joint | reduce.

Definition merge_weights_funcs (method : denominator_method)
    : list Subdata -> list Z -> result Subdata :=
  match method with
  | prod => merge_weights_prod
  | lcm => merge_weights_lcm
  | lcm_joint => merge_weights_lcm_joint
  | reduce => merge_weights_reduce
  end.

(** [BaseDie.reduce] (dice/base.py) on the mapping of a die: "divides all
    weights by their greatest common denominator". *)
Definition reduce_mapping (data : Subdata) : Subdata :=
  let gcd := gcd_list (map snd data) in
  if gcd <=? 1 then data
  else map (fun ow => (fst ow, snd ow / gcd)) data.

(** Two mappings with the same keys in the same order whose weights are
    in the ratio [c1 : c2]. *)
Definition proportional (c1 c2 : Z) (d1 d2 : Subdata) : Prop :=
  Forall2 (fun x y => fst x = fst y /\ c2 * snd x = c1 * snd y) d1 d2.

(** [expand_args_for_deck(args, times)] with scalar cards:
    [Counts(sorted(data.items()))]. *)
Definition expand_args_for_deck (args : list Z) (times : list Z)
    : result (list (Z * Z)) :=
  data ← merge_dups (map expand_scalar args) times;
  Ok (Py.sorted_items data).

(** [expand_args_for_die(args, times, denominator_method)] with scalar
    outcomes. *)
Definition expand_args_for_die (args : list Z) (times : list Z)
    (method : denominator_method) : result (list (Z * Z)) :=
  data ← merge_weights_funcs method (map expand_scalar args) times;
  Ok (Py.sorted_items data).

(** The [keys] argument of [itemize]: a dict of keys to times or a
    sequence of keys; its [times] argument: an [int] or a sequence of
    ints. *)
Inductive keys_arg : Type :=
  | KeysDict (d : list (Z * Z))
  | KeysSeq (l : list Z).

Inductive times_arg : Type :=
  | TimesInt (n : Z)
  | TimesSeq (l : list Z).

(** [itemize(keys, times)] *)
Definition itemize (keys : keys_arg) (times : times_arg)
    : result (list Z * list Z) :=
  let len_keys := match keys with
                  | KeysDict d => Py.len d
                  | KeysSeq l => Py.len l
                  end in
  times ← match times with
          | TimesInt n => Ok (Py.repeat n len_keys)
          | TimesSeq l =>
              if negb (Py.len l =? len_keys) then Raise ValueError else Ok l
          end;
  let '(keys, times) :=
    match keys with
    | KeysDict d =>
        (map fst d,
         map (fun vx => fst vx * snd vx) (combine (map snd d) times))
    | KeysSeq l => (l, times)
    end in
  if existsb (fun x => x <? 0) times then Raise ValueError
  else Ok (keys, times).

(** The times that [zip(subdatas, times)] pairs with the key [k]. *)
Definition times_of (k : Z) (args times : list Z) : Z :=
  Py.sum (map snd (List.filter (fun at_ => fst at_ =? k) (combine args times))).

End CreationArgs.

(** ** icepool/deck.py and icepool/deck/deck.py: [Deck] *)

Module Deck.

(** The two files hold the same class with two constructor signatures;
    [_data] (called [_deck] in deck/deck.py) is the sorted card table. *)
Record t : Type := mk {
  _data : list (Z * Z);
  _hand_size : Z
}.

(** The [outcomes] argument of deck.py: a dict of cards to dups, or a
    sequence of cards.  Cards are scalars. *)
Inductive outcomes_arg : Type :=
  | OfDict (d : list (Z * Z))
  | OfSeq (l : list Z).

Definition outcomes (self : t) : list Z := map fst (_data self).
Definition dups (self : t) : list Z := map snd (_data self).
Definition items (self : t) : list (Z * Z) := _data self.
Definition deck_size (self : t) : Z := Py.sum (map snd (_data self)).
Definition hand_size (self : t) : Z := _hand_size self.

(** [min_outcome()] and [max_outcome()] are inherited from the generator
    base class: the first and the last of [outcomes()]. *)
Definition min_outcome (self : t) : result Z := Py.first_item (outcomes self).
Definition max_outcome (self : t) : result Z := Py.last_item (outcomes self).

(** Modelled from the spec: [expand_create_args] (icepool/deck_args.py,
    icepool/deck/args.py) is not in the tree; it is its sibling
    [expand_args_for_deck] of creation_args.py, duplicate outcomes merged
    "by weight addition", an absent [dups] counting each card once. *)
Definition expand_create_args (cards : list Z) (dups : option (list Z))
    : result (list (Z * Z)) :=
  match dups with
  | Some dups => CreationArgs.expand_args_for_deck cards dups
  | None =>
      CreationArgs.expand_args_for_deck cards (Py.repeat 1 (Py.len cards))
  end.

(** The tail shared by both constructors. *)
Definition check_hand_size (self : t) : result t :=
  if hand_size self >? deck_size self then Raise ValueError else Ok self.

(** deck.py: [Deck.__new__(cls, outcomes, dups=None, *, hand_size)] *)
Definition __new__ (outcomes : outcomes_arg) (dups : option (list Z))
    (hand_size : Z) : result t :=
  '(outcomes, dups) ←
    match outcomes with
    | OfDict d =>
        match dups with
        | Some _ => Raise ValueError
        | None => Ok (map fst d, map snd d)
        end
    | OfSeq l =>
        match dups with
        | None => Ok (l, Py.repeat 1 (Py.len l))
        | Some dups =>
            if negb (Py.len dups =? Py.len l) then Raise ValueError
            else Ok (l, dups)
        end
    end;
  if existsb (fun x => x <? 0) dups then Raise ValueError
  else
    data ← expand_create_args outcomes (Some dups);
    check_hand_size (mk data hand_size).

(** deck/deck.py: [Deck.__init__(self, *deck, hand_size, dups=None)] *)
Definition __init__ (deck : list Z) (hand_size : Z) (dups : option (list Z))
    : result t :=
  data ← expand_create_args deck dups;
  check_hand_size (mk data hand_size).

(** One yielded triple: the popped deck, the count, the weight. *)
Definition branch : Type := t * Z * Z.

(** deck.py: [Deck._pop_min(self, min_outcome)] *)
Definition _pop_min (self : t) (min_outcome : Z) : result (list branch) :=
  match outcomes self with
  | [] => Ok [(self, 0, 1)]
  | o :: _ =>
      if negb (min_outcome =? o) then Ok [(self, 0, 1)]
      else
        deck_count ← Py.first_item (dups self);
        let min_count := Z.max 0 (deck_count + hand_size self - deck_size self) in
        let max_count := Z.min deck_count (hand_size self) in
        mapM (fun count =>
                popped_draw ← __new__ (OfSeq (Py.from 1 (outcomes self)))
                                  (Some (Py.from 1 (dups self)))
                                  (hand_size self - count);
                Ok (popped_draw, count, comb deck_count count))
             (Py.range min_count (max_count + 1))
  end.

(** deck.py: [Deck._pop_max(self, max_outcome)] *)
Definition _pop_max (self : t) (max_outcome : Z) : result (list branch) :=
  match List.rev (outcomes self) with
  | [] => Ok [(self, 0, 1)]
  | o :: _ =>
      if negb (max_outcome =? o) then Ok [(self, 0, 1)]
      else
        deck_count ← Py.last_item (dups self);
        let min_count := Z.max 0 (deck_count + hand_size self - deck_size self) in
        let max_count := Z.min deck_count (hand_size self) in
        mapM (fun count =>
                popped_draw ← __new__ (OfSeq (Py.upto (-1) (outcomes self)))
                                  (Some (Py.upto (-1) (dups self)))
                                  (hand_size self - count);
                Ok (popped_draw, count, comb deck_count count))
             (Py.range min_count (max_count + 1))
  end.

(** deck/deck.py: the same two generators, popping through [__init__]. *)
Definition _pop_min' (self : t) (min_outcome : Z) : result (list branch) :=
  match outcomes self with
  | [] => Ok [(self, 0, 1)]
  | o :: _ =>
      if negb (min_outcome =? o) then Ok [(self, 0, 1)]
      else
        deck_count ← Py.first_item (dups self);
        let min_count := Z.max 0 (deck_count + hand_size self - deck_size self) in
        let max_count := Z.min deck_count (hand_size self) in
        mapM (fun count =>
                popped_draw ← __init__ (Py.from 1 (outcomes self))
                                  (hand_size self - count)
                                  (Some (Py.from 1 (dups self)));
                Ok (popped_draw, count, comb deck_count count))
             (Py.range min_count (max_count + 1))
  end.

Definition _pop_max' (self : t) (max_outcome : Z) : result (list branch) :=
  match List.rev (outcomes self) with
  | [] => Ok [(self, 0, 1)]
  | o :: _ =>
      if negb (max_outcome =? o) then Ok [(self, 0, 1)]
      else
        deck_count ← Py.last_item (dups self);
        let min_count := Z.max 0 (deck_count + hand_size self - deck_size self) in
        let max_count := Z.min deck_count (hand_size self) in
        mapM (fun count =>
                popped_draw ← __init__ (Py.upto (-1) (outcomes self))
                                  (hand_size self - count)
                                  (Some (Py.upto (-1) (dups self)));
                Ok (popped_draw, count, comb deck_count count))
             (Py.range min_count (max_count + 1))
  end.

(** The class invariant of a constructed deck: outcomes strictly
    increasing, no negative dups. *)
Definition wf (self : t) : Prop :=
  Py.increasing (outcomes self) /\ Forall (fun d => 0 <= d) (dups self).

(** [denominator()]: the number of hands, [comb(deck_size, hand_size)]. *)
Definition denominator (self : t) : Z := comb (deck_size self) (hand_size self).

(** [_is_resolvable()] and [_estimate_direction_costs()] *)
Definition _is_resolvable (self : t) : bool := Py.len (outcomes self) >? 0.
Definition _estimate_direction_costs (self : t) : Z * Z :=
  let result := Py.len (outcomes self) * hand_size self in
  (result, result).

End Deck.

(** ** icepool/expression/keep.py: [KeepExpression] *)

Module Keep.

(** [icepool.typing.Order], as far as keep.py stores it. *)
Inductive Order : Type := Ascending | Descending.

Section Expressions.

(** The other expression classes and the states they keep are left
    open: [Leaf] is any expression that is not a [KeepExpression],
    [LeafState] what such an expression threads through [next_state]. *)
Variables Leaf LeafState : Type.

Inductive MultisetExpression : Type :=
  | Other (e : Leaf)
  | KeepExpression (_inner : MultisetExpression) (_order : Order)
      (_sorted_roll_counts : list Z).

(** States are dynamically typed: [None], whatever a leaf keeps, or the
    pair [(remaining, inner_state)] of a [KeepExpression]. *)
Inductive state : Type :=
  | SNone
  | SLeaf (s : LeafState)
  | SKeep (remaining : list Z) (inner_state : state).

(** An entry of a sequence argument: an int or [...]. *)
Inductive item : Type := Int (n : Z) | Ellipsis.

(** The [sorted_roll_counts] argument: an [int], a [slice] or a
    sequence; anything else is [NotASequence]. *)
Inductive sorted_roll_counts_arg : Type :=
  | ArgInt (n : Z)
  | ArgSlice (start stop step : option Z)
  | ArgSeq (l : list item)
  | NotASequence.

Definition is_ellipsis (x : item) : bool :=
  match x with Ellipsis => true | Int _ => false end.

(** [tuple(...)] of a sequence argument once no [...] is left in it. *)
Fixpoint ints (l : list item) : result (list Z) :=
  match l with
  | [] => Ok []
  | Int n :: l' => ns ← ints l'; Ok (n :: ns)
  | Ellipsis :: _ => Raise ValueError
  end.

(** [KeepExpression.__new__(cls, inner, sorted_roll_counts)] *)
Definition __new__ (inner : MultisetExpression)
    (sorted_roll_counts : sorted_roll_counts_arg)
    : result MultisetExpression :=
  match sorted_roll_counts with
  | ArgInt n =>
      if n >=? 0 then
        Ok (KeepExpression inner Ascending (Py.repeat 0 (n - 1) ++ [1]))
      else
        Ok (KeepExpression inner Descending ([1] ++ Py.repeat 0 (- n - 1)))
  | ArgSlice start stop step =>
      match step with
      | Some _ => Raise ValueError
      | None =>
          match start, stop with
          | None, None => Ok inner
          | None, Some stop =>
              if stop <? 0 then Raise ValueError
              else Ok (KeepExpression inner Ascending (Py.repeat 1 stop))
          | Some start, None =>
              if start >=? 0 then Raise ValueError
              else Ok (KeepExpression inner Descending (Py.repeat 1 (- start)))
          | Some start, Some stop =>
              if (start >=? 0) && (stop >=? 0) then
                Ok (KeepExpression inner Ascending
                      (Py.repeat 0 start ++ Py.repeat 1 stop))
              else if (start <? 0) && (stop <? 0) then
                Ok (KeepExpression inner Descending
                      (Py.repeat 0 (- stop) ++ Py.repeat 1 (- start)))
              else Raise ValueError
          end
      end
  | ArgSeq l =>
      first ← Py.first_item l;
      if is_ellipsis first then
        counts ← ints (Py.from 1 l);
        Ok (KeepExpression inner Descending counts)
      else
        last ← Py.last_item l;
        if is_ellipsis last then
          counts ← ints (Py.upto (-1) l);
          Ok (KeepExpression inner Ascending counts)
        else Raise ValueError
  | NotASequence => Raise TypeError
  end.

(** [next_state] of the other expression classes. *)
Variable leaf_next_state :
  Leaf -> state -> Z -> list Z -> list Z -> result (state * Z).

(** [remaining, inner_state = state or (self._sorted_roll_counts, None)]:
    a pair is truthy, [None] is not, and a state that is neither does
    not unpack. *)
Definition unpack_state (sorted_roll_counts : list Z) (st : state)
    : result (list Z * state) :=
  match st with
  | SNone => Ok (sorted_roll_counts, SNone)
  | SKeep remaining inner_state => Ok (remaining, inner_state)
  | SLeaf _ => Raise TypeError
  end.

(** The budget step of [KeepExpression.next_state], after the inner
    expression has delivered [count]. *)
Definition keep_count (order : Order) (remaining : list Z) (count : Z)
    : result (list Z * Z) :=
  if count <? 0 then Raise RuntimeError
  else if count >? 0 then
    match order with
    | Ascending =>
        let count := Py.sum (Py.upto count remaining) in
        let remaining := Py.from count remaining in
        Ok (remaining, count)
    | Descending =>
        let count := Py.sum (Py.from (- count) remaining) in
        let remaining := Py.upto (- count) remaining in
        Ok (remaining, count)
    end
  else Ok (remaining, count).

(** [MultisetExpression.next_state(self, state, outcome, bound_counts,
    counts)], dispatched on the class of [self]. *)
Fixpoint next_state (self : MultisetExpression) (st : state) (outcome : Z)
    (bound_counts counts : list Z) : result (state * Z) :=
  match self with
  | Other e => leaf_next_state e st outcome bound_counts counts
  | KeepExpression inner order sorted_roll_counts =>
      '(remaining, inner_state) ← unpack_state sorted_roll_counts st;
      '(inner_state, count) ←
         next_state inner inner_state outcome bound_counts counts;
      '(remaining, count) ← keep_count order remaining count;
      Ok (SKeep remaining inner_state, count)
  end.

End Expressions.

Arguments Other {Leaf} e.
Arguments KeepExpression {Leaf} _inner _order _sorted_roll_counts.
Arguments SNone {LeafState}.
Arguments SLeaf {LeafState} s.
Arguments SKeep {LeafState} remaining inner_state.
Arguments __new__ {Leaf} inner sorted_roll_counts.
Arguments keep_count order remaining count : assert.
Arguments next_state {Leaf LeafState} leaf_next_state self st outcome
  bound_counts counts.

End Keep.

(** A free variable of arity one: an expression that keeps no state and
    forwards the first raw count. *)
Definition first_count (_ : unit) (_ : Keep.state unit) (_ : Z)
    (_ counts : list Z) : result (Keep.state unit * Z) :=
  Ok (Keep.SNone, nth 0 counts 0).


(** ** The die under a pool *)

(** Modelled from the spec: the die class that pool.py and eval_pool.py are
    written against is not in the tree.  They call [die.key_tuple()] and
    take [len(popped_die)], [popped_die.total_weight()] and
    [popped_die.max_outcome()] of a popped die; src/hdroller/dice/base.py
    is an earlier revision that has no [key_tuple()] and pops its last
    outcome to [None].  The die is the spec's weighted multiset, an
    "ordered mapping outcome->weight" with "keys strictly increasing in
    storage order", whose "zero-outcome dice (die with no outcomes) are a
    valid but terminal generator state"; popping rebuilds the collection
    without its last item.  The accessors are those of dice/base.py. *)
Module Die.

Record t : Type := mk {
  _ndim : option Z;
  _data : list (Z * Z)
}.

Definition ndim (self : t) : option Z := _ndim self.
Definition outcomes (self : t) : list Z := map fst (_data self).
Definition weights (self : t) : list Z := map snd (_data self).
Definition items (self : t) : list (Z * Z) := _data self.

(** [__len__] and [__contains__] *)
Definition len (self : t) : Z := Py.len (_data self).

Definition total_weight (self : t) : Z := Py.sum (weights self).

(** [tuple(itertools.accumulate(self.weights()))] *)
Fixpoint accumulate (acc : Z) (l : list Z) : list Z :=
  match l with
  | [] => []
  | x :: l' => (acc + x) :: accumulate (acc + x) l'
  end.
Definition cweights (self : t) : list Z := accumulate 0 (weights self).

(** [weight_le(self, outcome)], as dice/base.py has it. *)
Definition weight_le (self : t) (outcome : Z) : Z :=
  let index := Py.bisect_right (outcomes self) outcome in
  if index >=? len self then total_weight self
  else nth (Z.to_nat index) (cweights self) 0.

Definition min_outcome (self : t) : result Z := Py.first_item (outcomes self).
Definition max_outcome (self : t) : result Z := Py.last_item (outcomes self).

(** [pop_max(self)]: the die without its max outcome, that outcome and
    its weight. *)
Definition pop_max (self : t) : result (t * Z * Z) :=
  outcome ← Py.last_item (outcomes self);
  weight ← Py.last_item (weights self);
  Ok (mk (ndim self) (Py.upto (-1) (_data self)), outcome, weight).


(** The invariant of the mapping: outcomes strictly increasing. *)
Definition wf (self : t) : Prop := Py.increasing (outcomes self).

(** Modelled from the spec: [hdroller.Die(data, ndim=ndim)] is not in the
    tree; "final states become a new die's outcomes", stored in
    increasing order. *)
Definition Die (data : list (Z * Z)) (ndim : option Z) : t :=
  mk ndim (Py.sorted_items data).

(** [tuple(itertools.accumulate(self.weights()[:-1], operator.sub,
    initial=self.total_weight()))] *)
Fixpoint accumulate_sub (acc : Z) (l : list Z) : list Z :=
  match l with
  | [] => []
  | x :: l' => (acc - x) :: accumulate_sub (acc - x) l'
  end.
Definition sweights (self : t) : list Z :=
  total_weight self
    :: accumulate_sub (total_weight self) (Py.upto (-1) (weights self)).

(** [weight_lt], [weight_ge] and [weight_gt], as dice/base.py has them. *)
Definition weight_lt (self : t) (outcome : Z) : Z :=
  let index := Py.bisect_left (outcomes self) outcome in
  if index >=? len self then total_weight self
  else nth (Z.to_nat index) (cweights self) 0.

Definition weight_ge (self : t) (outcome : Z) : Z :=
  let index := Py.bisect_left (outcomes self) outcome in
  if index >=? len self then total_weight self
  else nth (Z.to_nat index) (sweights self) 0.

Definition weight_gt (self : t) (outcome : Z) : Z :=
  let index := Py.bisect_right (outcomes self) outcome in
  if index >=? len self then total_weight self
  else nth (Z.to_nat index) (sweights self) 0.

(** The weight of the outcomes that satisfy [keep]: what the four
    functions above are documented to return. *)
Definition weight_where (keep : Z -> bool) (self : t) : Z :=
  Py.sum (map snd (List.filter (fun ow => keep (fst ow)) (_data self))).

End Die.

(** ** src/hdroller/pool.py *)

Module Pool.

Record DicePool : Type := mk {
  _die : Die.t;
  _count_dice : list Z;
  _min_outcomes : option (list Z);
  _max_outcomes : option (list Z)
}.

(** An entry of a sequence given for [count_dice]: an [int] or not. *)
Inductive entry : Type :=
  | EInt (x : Z)
  | ENotInt.

(** The [count_dice] argument: an [int]; a [slice], without a step
    ([CdSlice]) or with one ([CdSliceStep]); or a sequence, of ints
    ([CdSeq], as the tuple that [_compute_count_dice] returns and
    [__getitem__] passes on) or of entries that need not be ints
    ([CdEntries]). *)
Inductive count_dice_arg : Type :=
  | CdInt (i : Z)
  | CdSlice (start stop : option Z)
  | CdSeq (l : list Z)
  | CdSliceStep (start stop : option Z) (step : Z)
  | CdEntries (l : list entry).

(** [len(seq)] of a [count_dice] that has a length: a sequence. *)
Definition seq_len (count_dice : option count_dice_arg) : option Z :=
  match count_dice with
  | Some (CdSeq l) => Some (Py.len l)
  | Some (CdEntries l) => Some (Py.len l)
  | _ => None
  end.

(** [tuple(count_dice)] after [all(isinstance(x, int) for x in
    count_dice)]: a [TypeError] on an entry that is not an int. *)
Definition checked_ints (l : list entry) : result (list Z) :=
  mapM (fun x => match x with
                 | EInt n => Ok n
                 | ENotInt => Raise TypeError
                 end) l.

(** [_compute_count_dice(num_dice, count_dice)] *)
Definition _compute_count_dice (num_dice : Z) (count_dice : count_dice_arg)
    : result (list Z) :=
  match count_dice with
  | CdInt i =>
      let result := Py.repeat 0 num_dice in
      let n := Py.len result in
      if (i <? n) && (- n <=? i) then
        Ok (<[Z.to_nat (if i <? 0 then n + i else i) := 1]> result)
      else Raise IndexError
  | CdSlice start stop =>
      let result := Py.repeat 0 num_dice in
      let lo := match start with
                | Some i => Py.clamp (Py.len result) i
                | None => 0
                end in
      let ones := Py.repeat 1 (Py.len (Py.slice start stop result)) in
      Ok (firstn (Z.to_nat lo) result ++ ones
            ++ skipn (Z.to_nat lo + length ones) result)
  | CdSeq l => Ok l
  | CdSliceStep start stop step =>
      let result := Py.repeat 0 num_dice in
      if step =? 0 then Raise ValueError
      else
        let '(start, stop) :=
          Py.slice_indices (Py.len result) start stop step in
        Ok (fold_left (fun result i => <[Z.to_nat i := 1]> result)
              (Py.range_step start stop step) result)
  | CdEntries l => checked_ints l
  end.

(** One round of the loop that computes [num_dice]: [seq_len] is
    [len(seq)] when [seq] has a length. *)
Definition merge_num_dice (num_dice seq_len : option Z) : result (option Z) :=
  match seq_len with
  | None => Ok num_dice
  | Some n =>
      match num_dice with
      | Some k => if negb (k =? n) then Raise ValueError else Ok (Some n)
      | None => Ok (Some n)
      end
  end.

(** [_pool_cached_unchecked], the cached call of the unchecked
    constructor. *)
Definition _pool_cached_unchecked (die : Die.t) (count_dice : list Z)
    (min_outcomes max_outcomes : option (list Z)) : DicePool :=
  mk die count_dice min_outcomes max_outcomes.

(** [Pool(die, num_dice=None, count_dice=None, *, min_outcomes=None,
    max_outcomes=None)] *)
Definition Pool (die : Die.t) (num_dice : option Z)
    (count_dice : option count_dice_arg)
    (min_outcomes max_outcomes : option (list Z)) : result DicePool :=
  num_dice ← merge_num_dice num_dice (seq_len count_dice);
  num_dice ← merge_num_dice num_dice (Py.len <$> min_outcomes);
  num_dice ← merge_num_dice num_dice (Py.len <$> max_outcomes);
  let num_dice := default 0 num_dice in
  count_dice ← match count_dice with
               | None => Ok (Py.repeat 1 num_dice)
               | Some cd => _compute_count_dice num_dice cd
               end;
  '(min_outcomes, max_outcomes) ←
    (if num_dice =? 0 then Ok (None, None)
     else
       min_outcomes ←
         match min_outcomes with
         | None => Ok None
         | Some mo =>
             m ← Py.max mo;
             die_min ← Die.min_outcome die;
             if m >? die_min
             then Ok (Some (Py.sorted (map (fun o => Z.max o die_min) mo)))
             else Ok None
         end;
       max_outcomes ←
         match max_outcomes with
         | None => Ok None
         | Some mo =>
             m ← Py.min mo;
             die_max ← Die.max_outcome die;
             if m <? die_max
             then Ok (Some (Py.sorted (map (fun o => Z.min o die_max) mo)))
             else Ok None
         end;
       Ok (min_outcomes, max_outcomes));
  match min_outcomes, max_outcomes with
  | Some _, Some _ => Raise ValueError
  | _, _ => Ok (_pool_cached_unchecked die count_dice min_outcomes max_outcomes)
  end.

Definition die (self : DicePool) : Die.t := _die self.
Definition count_dice (self : DicePool) : list Z := _count_dice self.
Definition num_dice (self : DicePool) : Z := Py.len (_count_dice self).
Definition min_outcomes (self : DicePool) : option (list Z) := _min_outcomes self.

(** [max_outcomes(always_tuple=True)] *)
Definition max_outcomes_tuple (self : DicePool) : result (list Z) :=
  match _max_outcomes self with
  | None => m ← Die.max_outcome (die self); Ok (Py.repeat m (num_dice self))
  | Some mo => Ok mo
  end.

(** One yielded triple: the popped pool or [None], the count, the
    weight. *)
Definition branch : Type := option DicePool * Z * Z.

(** The [for weight in comb_row[1:]] loop of [_iter_pop_max]. *)
Fixpoint pop_loop (popped_die : Die.t) (weights : list Z) (count : Z)
    (popped_max_outcomes popped_count_dice : list Z) : result (list branch) :=
  match weights with
  | [] => Ok []
  | weight :: weights' =>
      c ← Py.last_item popped_count_dice;
      let count := count + c in
      let popped_max_outcomes := Py.upto (-1) popped_max_outcomes in
      let popped_count_dice := Py.upto (-1) popped_count_dice in
      pool ← Pool popped_die None (Some (CdSeq popped_count_dice)) None
               (Some popped_max_outcomes);
      rest ← pop_loop popped_die weights' count popped_max_outcomes
               popped_count_dice;
      Ok ((Some pool, count, weight) :: rest)
  end.

(** [num_possible_dice]: the positions whose cap is not below the die's
    max outcome. *)
Definition num_possible_dice (self : DicePool) (max_outcomes : list Z)
    (die_max : Z) : Z :=
  num_dice self - Py.bisect_left max_outcomes die_max.

(** [DicePool._iter_pop_max(self)], drained. *)
Definition _iter_pop_max (self : DicePool) : result (list branch) :=
  max_outcomes ← max_outcomes_tuple self;
  let remaining_count := Py.sum (count_dice self) in
  die_max ← Die.max_outcome (die self);
  let num_possible_dice := num_possible_dice self max_outcomes die_max in
  let num_unused_dice := num_dice self - num_possible_dice in
  '(popped_die, outcome, single_weight) ← Die.pop_max (die self);
  if Die.len popped_die =? 0 then
    Ok [(None, remaining_count, single_weight ^ num_possible_dice)]
  else if Die.total_weight popped_die =? 0 then
    pool ← Pool popped_die None (Some (CdSeq [])) None (Some []);
    Ok [(Some pool, remaining_count, single_weight ^ num_possible_dice)]
  else if negb (Py.any (count_dice self)) then
    pool ← Pool popped_die None (Some (CdSeq [])) None (Some []);
    Ok [(Some pool, 0, Py.prod (map (Die.weight_le (die self)) max_outcomes))]
  else
    popped_max ← Die.max_outcome popped_die;
    let popped_max_outcomes :=
      Py.upto num_unused_dice max_outcomes
        ++ Py.repeat popped_max num_possible_dice in
    let popped_count_dice := count_dice self in
    pool ← Pool popped_die None (Some (CdSeq popped_count_dice)) None
             (Some popped_max_outcomes);
    rest ←
      (if single_weight >? 0 then
         pop_loop popped_die
           (Py.from 1 (comb_row num_possible_dice single_weight)) 0
           popped_max_outcomes popped_count_dice
       else Ok []);
    Ok ((Some pool, 0, 1) :: rest).

(** The cached property [_pop_max], which [pop_max()] returns. *)
Definition _pop_max (self : DicePool) : result (list branch) :=
  match min_outcomes self with
  | Some _ => Raise ValueError
  | None => _iter_pop_max self
  end.

Definition pop_max := _pop_max.




(** What the factory establishes and [pop_max] relies on: no
    [min_outcomes], and one max outcome per die when there are any. *)
Definition wf (self : DicePool) : Prop :=
  _min_outcomes self = None /\
  forall mo, _max_outcomes self = Some mo ->
             length mo = length (_count_dice self).





(** [DicePool.__getitem__(self, count_dice)] *)
Definition __getitem__ (self : DicePool) (count_dice : count_dice_arg)
    : result DicePool :=
  count_dice ← _compute_count_dice (num_dice self) count_dice;
  _ ← (if negb (Py.len count_dice =? num_dice self) then
         match min_outcomes self with
         | Some _ => Raise ValueError
         | None =>
             match _max_outcomes self with
             | Some _ => Raise ValueError
             | None => Ok tt
             end
         end
       else Ok tt);
  Pool (die self) None (Some (CdSeq count_dice)) (min_outcomes self)
    (_max_outcomes self).

(** The standard form the factory puts the caps in: at most one of them,
    "a sorted tuple" with one entry per die, clamped to the die, and with
    an effect on some die. *)
Definition standard (self : DicePool) : Prop :=
  (_min_outcomes self = None \/ _max_outcomes self = None) /\
  (forall mo, _max_outcomes self = Some mo ->
     length mo = length (_count_dice self) /\ Py.nondecreasing mo /\
     exists die_max, Die.max_outcome (die self) = Ok die_max /\
       Forall (fun o => o <= die_max) mo /\ Exists (fun o => o < die_max) mo) /\
  (forall mo, _min_outcomes self = Some mo ->
     length mo = length (_count_dice self) /\ Py.nondecreasing mo /\
     exists die_min, Die.min_outcome (die self) = Ok die_min /\
       Forall (fun o => die_min <= o) mo /\ Exists (fun o => die_min < o) mo).

(** The sizes a call of [Pool] is given: [num_dice] and the lengths of
    the arguments that have one. *)
Definition given_sizes (num_dice : option Z) (count_dice : option count_dice_arg)
    (min_outcomes max_outcomes : option (list Z)) : list Z :=
  omap id [num_dice;
           seq_len count_dice;
           Py.len <$> min_outcomes;
           Py.len <$> max_outcomes].

End Pool.

(** ** src/hdroller/eval_pool.py *)

Module EvalPool.







Section Evaluator.

(** States are hashable values with a decidable equality. *)
Context {State : Type} `{Countable State}.

(** The overridable methods of an [EvalPool]: the two abstract ones,
    and [reroll_state], [final_outcome], [ndim] with their defaults
    below.  They see pools through their methods only. *)
Record t : Type := mk {
  initial_state : list Pool.DicePool -> State;
  next_state : State -> Z -> list (option Z) -> result State;
  reroll_state : State -> Z -> list (option Z) -> bool;
  final_outcome : State -> list Pool.DicePool -> Z;
  ndim : list Pool.DicePool -> option Z
}.




(** One triple of [_iter_pool]: the pool left, the count or [None], the
    weight. *)
Definition iter_branch : Type := option Pool.DicePool * option Z * Z.


(** [itertools.product] of the drained iterables *)
Fixpoint product {A : Type} (iterables : list (list A)) : list (list A) :=
  match iterables with
  | [] => [[]]
  | l :: iterables' =>
      flat_map (fun x => map (cons x) (product iterables')) l
  end.


Variable self : t.






End Evaluator.

Arguments t State : clear implicits.



(** The number of ways the dice of a pool can roll, 1 for a pool that is
    exhausted, and of a tuple of pools together. *)
Definition pool_mass (pool : option Pool.DicePool) : Z :=
  match pool with
  | None => 1
  | Some p => Die.total_weight (Pool.die p) ^ Pool.num_dice p
  end.





End EvalPool.

(** ** src/hdroller/dice/base.py: the control flow of [BaseDie] *)

Module BaseDie.

(** The loop of [_check_ndim] over the dice, from a value of [ndim]. *)
Fixpoint _check_ndim_from (ndim : option Z) (dice : list Die.t)
    : result (option Z) :=
  match dice with
  | [] => Ok ndim
  | die :: dice' =>
      match ndim with
      | None => _check_ndim_from (Die.ndim die) dice'
      | Some n =>
          if negb (bool_decide (Die.ndim die = Some n)) then Raise ValueError
          else _check_ndim_from ndim dice'
      end
  end.

Definition _check_ndim (dice : list Die.t) : result (option Z) :=
  _check_ndim_from None dice.

(** The [select_dice] slice of [keep_highest(num_dice, num_keep,
    num_drop)] and of [keep_lowest(num_dice, num_keep, num_drop)]. *)
Definition keep_highest_select (num_keep num_drop : Z) : Pool.count_dice_arg :=
  let start := - (num_keep + num_drop) in
  let stop := if num_drop >? 0 then Some (- num_drop) else None in
  Pool.CdSlice (Some start) stop.

Definition keep_lowest_select (num_keep num_drop : Z) : Pool.count_dice_arg :=
  let start := if num_drop >? 0 then Some num_drop else None in
  let stop := num_keep + num_drop in
  Pool.CdSlice start (Some stop).

Section RepeatAndSum.

(** The dice and the operations [repeat_and_sum] goes through: [+],
    unary [-] and [zero()], which may raise. *)
Variable D : Type.
Variable add : D -> D -> D.
Variable neg : D -> D.
Variable zero : D -> result D.

(** [repeat_and_sum(self, num_dice)] for [num_dice >= 1]: the binary
    digits of [num_dice] are what [num_dice // 2] and [num_dice % 2]
    read. *)
Fixpoint repeat_and_sum_pos (self : D) (num_dice : positive) : D :=
  match num_dice with
  | xH => self
  | xO half =>
      let half_result := repeat_and_sum_pos self half in
      add half_result half_result
  | xI half =>
      let half_result := repeat_and_sum_pos self half in
      add (add half_result half_result) self
  end.

(** [repeat_and_sum(self, num_dice)] *)
Definition repeat_and_sum (self : D) (num_dice : Z) : result D :=
  match num_dice with
  | Zneg p => Ok (repeat_and_sum_pos (neg self) p)
  | Z0 => zero self
  | Zpos p => Ok (repeat_and_sum_pos self p)
  end.

(** [self + self + ... + self], [n] more times after the first. *)
Fixpoint sum_of (self : D) (n : nat) : D :=
  match n with
  | O => self
  | S n' => add (sum_of self n') self
  end.

End RepeatAndSum.

End BaseDie.

(** ** src/hdroller/dice/multi.py: [MultiDie] *)

Module MultiDie.

(** The items of a multivariate die: tuples of outcomes with their
    weights. *)
Definition Items : Type := list (list Z * Z).

(** The mapping [unary_op(self, op)] hands to [hdroller.die]. *)
Definition unary_op (self : Items) (op : Z -> Z) : Items :=
  fold_left (fun data ow => Py.dict_add (map op (fst ow)) (snd ow) data)
    self [].

(** The mapping [binary_op(self, other, op)] hands to [hdroller.die]. *)
Definition binary_op (self other : Items) (op : Z -> Z -> Z) : Items :=
  fold_left
    (fun data p =>
       let '((outcome_self, weight_self), (outcome_other, weight_other)) := p in
       Py.dict_add
         (map (fun xy => op (fst xy) (snd xy))
            (combine outcome_self outcome_other))
         (weight_self * weight_other) data)
    (list_prod self other) [].

End MultiDie.

(** ** src/icepool/collections.py: [Weights] *)

Module Weights.

(** A key of the dict given to the constructor: [None], a
    [SpecialValue], or an outcome; and a value: an [int] or not. *)
Inductive key : Type :=
  | KeyNone
  | KeySpecial
  | KeyOutcome (k : Z).

Inductive value : Type :=
  | ValInt (v : Z)
  | ValOther.

Record t : Type := mk {
  _d : list (Z * Z);
  _has_zero_weights : bool
}.

(** The checks of one round of the loop of [__init__]. *)
Definition check_item (kv : key * value) : result (Z * Z) :=
  match fst kv with
  | KeyNone => Raise TypeError
  | KeySpecial => Raise TypeError
  | KeyOutcome k =>
      match snd kv with
      | ValOther => Raise ValueError
      | ValInt v => if v <? 0 then Raise ValueError else Ok (k, v)
      end
  end.

(** [Weights.__init__(self, d)] *)
Definition __init__ (d : list (key * value)) : result t :=
  items ← mapM check_item d;
  Ok (mk (map (fun k => (k, Py.dict_get k 0 items)) (Py.sorted (map fst items)))
        (existsb (Z.eqb 0) (map snd items))).

Definition has_zero_weights (self : t) : bool := _has_zero_weights self.
Definition __len__ (self : t) : Z := Py.len (_d self).
Definition __contains__ (self : t) (key : Z) : bool :=
  existsb (Z.eqb key) (map fst (_d self)).
Definition __getitem__ (self : t) (key : Z) : Z := Py.dict_get key 0 (_d self).
Definition keys (self : t) : list Z := map fst (_d self).
Definition values (self : t) : list Z := map snd (_d self).
Definition items (self : t) : list (Z * Z) := _d self.

End Weights.

(** ** src/icepool/generator/alignment.py: [Alignment] *)

Module Alignment.

Record t : Type := mk { _outcomes : list Z }.

(** [Alignment.__init__(self, outcomes)] *)
Definition __init__ (outcomes : list Z) : t := mk (Py.sorted outcomes).

Definition outcomes (self : t) : list Z := _outcomes self.
Definition output_arity (self : t) : Z := 0.
Definition _is_resolvable (self : t) : bool := true.
Definition denominator (self : t) : Z := 0.

(** Modelled from the spec: [min_outcome()] and [max_outcome()] come from
    the generator base class, which is not in the tree; the generators
    "process outcomes one extreme at a time", the extremes being the first
    and the last of the sorted [outcomes()]. *)
Definition min_outcome (self : t) : result Z := Py.first_item (outcomes self).
Definition max_outcome (self : t) : result Z := Py.last_item (outcomes self).

(** One yielded triple: the alignment left, the counts, the weight. *)
Definition branch : Type := t * list Z * Z.

(** [_generate_min(self, min_outcome)] and [_generate_max(self,
    max_outcome)], drained. *)
Definition _generate_min (self : t) (min_outcome : Z) : list branch :=
  match outcomes self with
  | [] => [(self, [0], 1)]
  | o :: _ =>
      if negb (min_outcome =? o) then [(self, [0], 1)]
      else [(__init__ (Py.from 1 (outcomes self)), [], 1)]
  end.

Definition _generate_max (self : t) (max_outcome : Z) : list branch :=
  match List.rev (outcomes self) with
  | [] => [(self, [0], 1)]
  | o :: _ =>
      if negb (max_outcome =? o) then [(self, [0], 1)]
      else [(__init__ (Py.upto (-1) (outcomes self)), [], 1)]
  end.

Definition _estimate_order_costs (self : t) : Z * Z :=
  let result := Py.len (outcomes self) in
  (result, result).

End Alignment.

(** ** src/icepool/population/func.py *)

Module Func.

(** The mapping [bernoulli(n, d)] hands to [icepool.Die]. *)
Definition bernoulli (n d : Z) : list (bool * Z) :=
  let data := [] in
  let data := if negb (n =? d) then Py.dict_set false (d - n) data else data in
  let data := if negb (n =? 0) then Py.dict_set true n data else data in
  data.

(** The loop of [from_cumulative_quantities] over the zipped arguments. *)
Fixpoint from_cumulative_loop (prev : Z) (pairs : list (Z * Z))
    (d : list (Z * Z)) : list (Z * Z) :=
  match pairs with
  | [] => d
  | (outcome, quantity) :: pairs' =>
      from_cumulative_loop quantity pairs'
        (Py.dict_set outcome (quantity - prev) d)
  end.

(** The mapping [from_cumulative_quantities(outcomes,
    cumulative_quantities, reverse=reverse)] hands to [icepool.Die]. *)
Definition from_cumulative_quantities (outcomes cumulative_quantities : list Z)
    (reverse : bool) : list (Z * Z) :=
  from_cumulative_loop 0
    (combine (if reverse then List.rev outcomes else outcomes)
       (if reverse then List.rev cumulative_quantities
        else cumulative_quantities))
    [].

(** An argument of [iter_cartesian_product]: a die, seen through its
    items, or anything else. *)
Inductive arg : Type :=
  | ArgDie (items : list (Z * Z))
  | ArgOther (x : Z).

(** [iter_cartesian_product], drained, [args] being its arguments.  Each
    tuple [t] of the product is unzipped by [outcomes, quantities =
    zip(...)]: without arguments the one tuple of the product is empty,
    its [zip] yields nothing and the unpacking raises [ValueError]. *)
Definition iter_cartesian_product (args : list arg)
    : result (list (list Z * Z)) :=
  match args with
  | [] => Raise ValueError
  | _ :: _ =>
      Ok (map (fun t => (map fst t, Py.prod (map snd t)))
            (Py.product
               (map (fun arg => match arg with
                                | ArgDie items => items
                                | ArgOther x => [(x, 1)]
                                end) args)))
  end.

(** What [func] returns to [apply]: an outcome, or [icepool.Reroll]. *)
Inductive returned : Type :=
  | Outcome (x : Z)
  | Reroll.

(** The loop of [apply] over [func] and the dice, which [apply] reaches
    with at least one die: the two lists it hands to [icepool.Die]. *)
Definition apply_lists (func : list Z -> returned) (dice : list arg)
    : result (list Z * list Z) :=
  joint ← iter_cartesian_product dice;
  Ok (fold_left
        (fun acc oq =>
           match func (fst oq) with
           | Reroll => acc
           | Outcome final_outcome =>
               (fst acc ++ [final_outcome], snd acc ++ [snd oq])
           end)
        joint ([], [])).

(** The denominator an argument brings to the joint distribution: that
    of a die, 1 for anything else. *)
Definition arg_denominator (a : arg) : Z :=
  match a with
  | ArgDie items => Py.sum (map snd items)
  | ArgOther _ => 1
  end.

End Func.

(** ** Notions used in the statements *)

(** The bounds of a slice over [n] dice, as [range(n)[start:stop]] reads
    them: an absent bound is the end of the range, a present one is
    clamped into it. *)
Definition slice_lo (n : Z) (start : option Z) : Z :=
  match start with Some i => Py.clamp n i | None => 0 end.

Definition slice_hi (n : Z) (stop : option Z) : Z :=
  match stop with Some j => Py.clamp n j | None => n end.

(** What a branch hands down: its weight times the number of hands of
    the deck it leaves. *)
Definition hands (b : Deck.branch) : Z := snd b * Deck.denominator (fst (fst b)).

(** What every branch keeps: the class invariant, and a hand that the
    deck can deal. *)
Definition dealable (self : Deck.t) : Prop :=
  Deck.wf self /\ 0 <= Deck.hand_size self <= Deck.deck_size self.

(** The weight that the arguments with a non-zero denominator carry. *)
Definition merged_weight (subdatas : list CreationArgs.Subdata) (weights : list Z) : Z :=
  Py.sum (map (fun dw => if fst dw =? 0 then 0 else snd dw)
            (combine (CreationArgs.denominators subdatas) weights)).

(** The outcome a pair of items is sent to by [MultiDie.binary_op]. *)
Definition paired (op : Z -> Z -> Z)
    (p : (list Z * Z) * (list Z * Z)) : list Z :=
  map (fun xy => op (fst xy) (snd xy)) (combine (fst (fst p)) (fst (snd p))).

(** An item of the dict given to [Weights], from the item it is stored
    as. *)
Definition given_item (kv : Z * Z) : Weights.key * Weights.value :=
  (Weights.KeyOutcome (fst kv), Weights.ValInt (snd kv)).

(* ================================================================== *)
(** * Properties *)
(* ================================================================== *)

(** Closes [Forall (fun d => 0 <= d) l] on a literal list. *)
Ltac solve_nonneg :=
  cbn; repeat (apply List.Forall_cons; [cbn; lia|]); apply List.Forall_nil.


(** ** Lists, sums and the dict operations *)

Section PyFacts.

Lemma mapM_ok {A B : Type} (f : A -> result B) (g : A -> B) (l : list A) :
  (forall x, In x l -> f x = Ok (g x)) -> mapM f l = Ok (map g l).
Proof.
  induction l as [|x l IH]; intros H; simpl; [reflexivity|].
  rewrite (H x (or_introl eq_refl)). simpl.
  rewrite IH by (intros y Hy; apply H; right; exact Hy).
  reflexivity.
Qed.

Lemma in_range (lo hi k : Z) : In k (Py.range lo hi) <-> lo <= k < hi.
Proof.
  unfold Py.range. rewrite in_map_iff. split.
  - intros (i & <- & Hi). apply in_seq in Hi. lia.
  - intros H. exists (Z.to_nat (k - lo)). split; [lia|].
    apply in_seq. lia.
Qed.

Lemma sum_app (l1 l2 : list Z) : Py.sum (l1 ++ l2) = Py.sum l1 + Py.sum l2.
Proof. induction l1 as [|x l1 IH]; simpl; [reflexivity|]. unfold Py.sum in *. simpl. lia. Qed.

Lemma sum_nonneg (l : list Z) : Forall (fun d => 0 <= d) l -> 0 <= Py.sum l.
Proof. induction 1; unfold Py.sum in *; simpl; lia. Qed.

Lemma sum_repeat (x : Z) (n : nat) : Py.sum (List.repeat x n) = Z.of_nat n * x.
Proof. induction n as [|n IH]; unfold Py.sum in *; simpl List.repeat; simpl fold_right; lia. Qed.

Lemma dict_add_fresh (k v : Z) (d : list (Z * Z)) :
  ~ In k (map fst d) -> Py.dict_add k v d = d ++ [(k, v)].
Proof.
  induction d as [|[k' v'] d IH]; simpl; intros H; [reflexivity|].
  destruct (decide (k' = k)) as [->|Hne]; [tauto|].
  rewrite IH by tauto. reflexivity.
Qed.

Lemma dict_add_sum (k v : Z) (d : list (Z * Z)) :
  Py.sum (map snd (Py.dict_add k v d)) = Py.sum (map snd d) + v.
Proof.
  induction d as [|[k' v'] d IH]; unfold Py.sum in *; simpl; [lia|].
  destruct (decide (k' = k)); simpl; lia.
Qed.

Lemma insert_item_sum (x : Z * Z) (l : list (Z * Z)) :
  Py.sum (map snd (Py.insert_item x l)) = snd x + Py.sum (map snd l).
Proof.
  induction l as [|y l IH]; unfold Py.sum in *; simpl; [lia|].
  destruct (fst x <=? fst y); simpl; lia.
Qed.

Lemma sorted_items_sum (d : list (Z * Z)) :
  Py.sum (map snd (Py.sorted_items d)) = Py.sum (map snd d).
Proof.
  induction d as [|x d IH]; simpl; [reflexivity|].
  rewrite insert_item_sum, IH. reflexivity.
Qed.

Lemma sorted_items_increasing (d : list (Z * Z)) :
  Py.increasing (map fst d) -> Py.sorted_items d = d.
Proof.
  induction d as [|x d IH]; simpl; [reflexivity|].
  intros [Hx Hd]. rewrite IH by exact Hd.
  destruct d as [|y d]; simpl in *; [reflexivity|].
  destruct (Z.leb_spec (fst x) (fst y)); [reflexivity|lia].
Qed.

Lemma increasing_lt_all (x : Z) (l : list Z) :
  Py.increasing (x :: l) -> Forall (fun y => x < y) l.
Proof.
  revert x. induction l as [|y l IH]; intros x H; constructor.
  - simpl in H. lia.
  - apply IH. simpl in *. destruct l as [|z l]; [tauto|]. intuition lia.
Qed.

Lemma increasing_app_inv (l1 l2 : list Z) :
  Py.increasing (l1 ++ l2) -> Py.increasing l1 /\ Py.increasing l2.
Proof.
  induction l1 as [|x l1 IH]; simpl; [tauto|].
  intros [Hx H]. destruct (IH H) as [H1 H2]. repeat split; try assumption.
  destruct l1 as [|y l1]; simpl in *; [exact I|exact Hx].
Qed.

Lemma increasing_firstn (n : nat) (l : list Z) :
  Py.increasing l -> Py.increasing (firstn n l).
Proof.
  intros H. rewrite <- (firstn_skipn n l) in H.
  apply increasing_app_inv in H. tauto.
Qed.

Lemma increasing_skipn (n : nat) (l : list Z) :
  Py.increasing l -> Py.increasing (skipn n l).
Proof.
  intros H. rewrite <- (firstn_skipn n l) in H.
  apply increasing_app_inv in H. tauto.
Qed.

Lemma increasing_NoDup (l : list Z) : Py.increasing l -> List.NoDup l.
Proof.
  induction l as [|x l IH]; intros H; constructor.
  - intros Hin. pose proof (increasing_lt_all x l H) as Hall.
    rewrite List.Forall_forall in Hall. apply Hall in Hin. lia.
  - apply IH. simpl in H. tauto.
Qed.

Lemma bind_ok_inv {A B : Type} (c : result A) (k : A -> result B) (b : B) :
  c ≫= k = Ok b -> exists a, c = Ok a /\ k a = Ok b.
Proof. destruct c as [a|e]; simpl; [eauto|discriminate]. Qed.

End PyFacts.

(** ** Decks *)

Section DeckFacts.

Lemma existsb_neg_false (ds : list Z) :
  Forall (fun d => 0 <= d) ds -> existsb (fun x => x <? 0) ds = false.
Proof.
  induction 1 as [|d ds Hd _ IH]; simpl; [reflexivity|].
  rewrite IH. destruct (Z.ltb_spec d 0); [lia|reflexivity].
Qed.

Lemma existsb_neg_true (ds : list Z) :
  existsb (fun x => x <? 0) ds = false -> Forall (fun d => 0 <= d) ds.
Proof.
  induction ds as [|d ds IH]; simpl; intros H; constructor.
  - destruct (Z.ltb_spec d 0); [discriminate|lia].
  - apply IH. destruct (d <? 0); [discriminate|exact H].
Qed.

Lemma accumulate_scalars (cards ds : list Z) (acc : list (Z * Z)) :
  length ds = length cards ->
  List.NoDup (map fst acc ++ cards) ->
  CreationArgs.accumulate (map CreationArgs.expand_scalar cards) ds acc
  = acc ++ combine cards ds.
Proof.
  revert ds acc. induction cards as [|c cards IH]; intros ds acc Hlen Hnd.
  - destruct ds; simpl; rewrite ?app_nil_r; reflexivity.
  - destruct ds as [|d ds]; [discriminate|]. simpl.
    unfold CreationArgs.accumulate_one. simpl.
    rewrite dict_add_fresh.
    + rewrite IH.
      * rewrite <- app_assoc. simpl. rewrite Z.mul_1_l. reflexivity.
      * simpl in Hlen. lia.
      * rewrite map_app. simpl. rewrite <- app_assoc. exact Hnd.
    + apply List.NoDup_remove_2 in Hnd. rewrite in_app_iff in Hnd. tauto.
Qed.

(** The cards dealt to both merges sum to the dups that are zipped with
    them. *)
Lemma accumulate_scalars_sum (cards ds : list Z) (acc : list (Z * Z)) :
  Py.sum (map snd (CreationArgs.accumulate
                     (map CreationArgs.expand_scalar cards) ds acc))
  = Py.sum (map snd acc) + Py.sum (map snd (combine cards ds)).
Proof.
  revert ds acc. induction cards as [|c cards IH]; intros ds acc.
  - destruct ds; simpl; unfold Py.sum; simpl; lia.
  - destruct ds as [|d ds]; [unfold Py.sum; simpl; lia|]. simpl.
    unfold CreationArgs.accumulate_one. simpl.
    rewrite IH, dict_add_sum. unfold Py.sum. simpl. lia.
Qed.

Lemma combine_snd_le (cards ds : list Z) :
  Forall (fun d => 0 <= d) ds ->
  Py.sum (map snd (combine cards ds)) <= Py.sum ds.
Proof.
  intros H. revert cards. induction H as [|d ds Hd Hds IH]; intros cards.
  - destruct cards; unfold Py.sum; simpl; lia.
  - destruct cards as [|c cards]; unfold Py.sum in *; simpl.
    + pose proof (sum_nonneg ds Hds). unfold Py.sum in *. lia.
    + specialize (IH cards). lia.
Qed.

Lemma combine_snd_eq (cards ds : list Z) :
  length ds = length cards -> map snd (combine cards ds) = ds.
Proof.
  revert ds. induction cards as [|c cards IH]; intros [|d ds] H;
    try discriminate; simpl; [reflexivity|].
  rewrite IH by (simpl in H; lia). reflexivity.
Qed.

Lemma combine_fst_eq (cards ds : list Z) :
  length ds = length cards -> map fst (combine cards ds) = cards.
Proof.
  revert ds. induction cards as [|c cards IH]; intros [|d ds] H;
    try discriminate; simpl; [reflexivity|].
  rewrite IH by (simpl in H; lia). reflexivity.
Qed.

Lemma combine_fst_snd (l : list (Z * Z)) : combine (map fst l) (map snd l) = l.
Proof. induction l as [|[a b] l IH]; simpl; [reflexivity|]. rewrite IH. reflexivity. Qed.

(** Re-expanding an already sorted card table gives the table back. *)
Lemma expand_sorted (cards ds : list Z) :
  Py.increasing cards -> length ds = length cards ->
  Forall (fun d => 0 <= d) ds ->
  CreationArgs.expand_args_for_deck cards ds = Ok (combine cards ds).
Proof.
  intros Hinc Hlen Hpos. unfold CreationArgs.expand_args_for_deck,
    CreationArgs.merge_dups.
  rewrite existsb_neg_false by exact Hpos. simpl.
  rewrite accumulate_scalars; [|exact Hlen|simpl; apply increasing_NoDup, Hinc].
  simpl. rewrite sorted_items_increasing; [reflexivity|].
  rewrite combine_fst_eq by exact Hlen. exact Hinc.
Qed.

Lemma new_sorted (cards ds : list Z) (h : Z) :
  Py.increasing cards -> length ds = length cards ->
  Forall (fun d => 0 <= d) ds -> h <= Py.sum ds ->
  Deck.__new__ (Deck.OfSeq cards) (Some ds) h = Ok (Deck.mk (combine cards ds) h).
Proof.
  intros Hinc Hlen Hpos Hh. unfold Deck.__new__.
  unfold Py.len. rewrite Hlen, Z.eqb_refl. simpl.
  rewrite existsb_neg_false by exact Hpos.
  unfold Deck.expand_create_args. rewrite expand_sorted by assumption. simpl.
  unfold Deck.check_hand_size, Deck.hand_size, Deck.deck_size. simpl.
  rewrite combine_snd_eq by exact Hlen.
  destruct (Z.gtb_spec h (Py.sum ds)); [lia|reflexivity].
Qed.

Lemma init_sorted (cards ds : list Z) (h : Z) :
  Py.increasing cards -> length ds = length cards ->
  Forall (fun d => 0 <= d) ds -> h <= Py.sum ds ->
  Deck.__init__ cards h (Some ds) = Ok (Deck.mk (combine cards ds) h).
Proof.
  intros Hinc Hlen Hpos Hh. unfold Deck.__init__.
  unfold Deck.expand_create_args. rewrite expand_sorted by assumption. simpl.
  unfold Deck.check_hand_size, Deck.hand_size, Deck.deck_size. simpl.
  rewrite combine_snd_eq by exact Hlen.
  destruct (Z.gtb_spec h (Py.sum ds)); [lia|reflexivity].
Qed.

Lemma upto_map {A B : Type} (f : A -> B) (i : Z) (l : list A) :
  Py.upto i (map f l) = map f (Py.upto i l).
Proof. unfold Py.upto, Py.len. rewrite length_map, firstn_map. reflexivity. Qed.

Lemma from_map {A B : Type} (f : A -> B) (i : Z) (l : list A) :
  Py.from i (map f l) = map f (Py.from i l).
Proof. unfold Py.from, Py.len. rewrite length_map, skipn_map. reflexivity. Qed.

Lemma upto_from_sum (i : Z) (l : list Z) :
  Py.sum (Py.upto i l) + Py.sum (Py.from i l) = Py.sum l.
Proof.
  unfold Py.upto, Py.from. rewrite <- sum_app, firstn_skipn. reflexivity.
Qed.

Lemma from_1_cons {A : Type} (x : A) (l : list A) : Py.from 1 (x :: l) = l.
Proof.
  unfold Py.from, Py.clamp, Py.len. change (1 <? 0) with false. cbv iota.
  replace (Z.to_nat _) with 1%nat by (simpl length; lia). reflexivity.
Qed.

Lemma upto_m1_snoc {A : Type} (x : A) (l : list A) :
  Py.upto (-1) (l ++ [x]) = l.
Proof.
  unfold Py.upto, Py.clamp, Py.len. rewrite length_app. simpl length.
  change (-1 <? 0) with true. cbv iota.
  replace (Z.to_nat _) with (length l) by lia.
  rewrite firstn_app, Nat.sub_diag, firstn_all. simpl. apply app_nil_r.
Qed.

End DeckFacts.

Section DeckInvariant.

Lemma dict_add_keys (k v : Z) (d : list (Z * Z)) :
  map fst (Py.dict_add k v d)
  = if existsb (Z.eqb k) (map fst d) then map fst d else map fst d ++ [k].
Proof.
  induction d as [|[k' v'] d IH]; simpl; [reflexivity|].
  destruct (decide (k' = k)) as [->|Hne]; simpl.
  - rewrite Z.eqb_refl. reflexivity.
  - destruct (Z.eqb_spec k k'); [congruence|]. simpl. rewrite IH.
    destruct (existsb _ _); reflexivity.
Qed.

Lemma dict_add_NoDup (k v : Z) (d : list (Z * Z)) :
  List.NoDup (map fst d) -> List.NoDup (map fst (Py.dict_add k v d)).
Proof.
  intros Hnd. rewrite dict_add_keys.
  destruct (existsb (Z.eqb k) (map fst d)) eqn:E; [exact Hnd|].
  apply NoDup_app_remove_l with (l := []). simpl.
  apply List.NoDup_rev in Hnd. rewrite <- (rev_involutive (map fst d ++ [k])).
  apply List.NoDup_rev. rewrite rev_app_distr. simpl. constructor; [|exact Hnd].
  rewrite <- in_rev. intros Hin.
  assert (existsb (Z.eqb k) (map fst d) = true); [|congruence].
  apply existsb_exists. exists k. split; [exact Hin|apply Z.eqb_refl].
Qed.

Lemma dict_add_nonneg (k v : Z) (d : list (Z * Z)) :
  0 <= v -> Forall (fun x => 0 <= x) (map snd d) ->
  Forall (fun x => 0 <= x) (map snd (Py.dict_add k v d)).
Proof.
  intros Hv. induction d as [|[k' v'] d IH]; simpl; intros Hd.
  - constructor; [exact Hv|constructor].
  - apply Forall_inv in Hd as Hh. apply Forall_inv_tail in Hd.
    destruct (decide (k' = k)); simpl; constructor; auto. simpl in Hh. lia.
Qed.

Lemma accumulate_scalars_ok (cards ds : list Z) :
  Forall (fun x => 0 <= x) ds ->
  forall acc, List.NoDup (map fst acc) -> Forall (fun x => 0 <= x) (map snd acc) ->
  List.NoDup (map fst (CreationArgs.accumulate
                         (map CreationArgs.expand_scalar cards) ds acc)) /\
  Forall (fun x => 0 <= x)
    (map snd (CreationArgs.accumulate
                (map CreationArgs.expand_scalar cards) ds acc)).
Proof.
  intros Hds. revert cards. induction Hds as [|d ds Hd _ IH]; intros cards acc Hnd Hpos.
  - destruct cards; simpl; auto.
  - destruct cards as [|c cards]; simpl; [auto|].
    unfold CreationArgs.accumulate_one. simpl. apply IH.
    + apply dict_add_NoDup, Hnd.
    + apply dict_add_nonneg; [lia|exact Hpos].
Qed.

Lemma insert_item_keys (x : Z * Z) (l : list (Z * Z)) (k : Z) :
  In k (map fst (Py.insert_item x l)) <-> k = fst x \/ In k (map fst l).
Proof.
  induction l as [|y l IH]; simpl; [intuition|].
  destruct (fst x <=? fst y); simpl; [intuition|]. rewrite IH. intuition.
Qed.

Lemma insert_item_increasing (x : Z * Z) (l : list (Z * Z)) :
  Py.increasing (map fst l) -> ~ In (fst x) (map fst l) ->
  Py.increasing (map fst (Py.insert_item x l)).
Proof.
  induction l as [|y l IH]; simpl; intros Hinc Hnin; [auto|].
  destruct (Z.leb_spec (fst x) (fst y)) as [Hle|Hgt]; simpl.
  - split; [lia|exact Hinc].
  - destruct Hinc as [Hy Hinc]. split; [|apply IH; [exact Hinc|tauto]].
    destruct l as [|z l]; simpl in *; [lia|].
    destruct (fst x <=? fst z); simpl; lia.
Qed.

Lemma insert_item_nonneg (x : Z * Z) (l : list (Z * Z)) :
  0 <= snd x -> Forall (fun v => 0 <= v) (map snd l) ->
  Forall (fun v => 0 <= v) (map snd (Py.insert_item x l)).
Proof.
  intros Hx. induction l as [|y l IH]; simpl; intros Hl.
  - constructor; [exact Hx|constructor].
  - destruct (fst x <=? fst y); simpl.
    + constructor; [exact Hx|exact Hl].
    + apply Forall_inv in Hl as Hh. apply Forall_inv_tail in Hl.
      constructor; auto.
Qed.

Lemma sorted_items_keys (d : list (Z * Z)) (k : Z) :
  In k (map fst (Py.sorted_items d)) -> In k (map fst d).
Proof.
  induction d as [|y d IH]; simpl; [tauto|]. intros Hin.
  apply insert_item_keys in Hin. destruct Hin as [->|Hin]; [tauto|].
  right. apply IH, Hin.
Qed.

(** Sorting a mapping gives the class invariant. *)
Lemma sorted_items_wf (d : list (Z * Z)) (h : Z) :
  List.NoDup (map fst d) -> Forall (fun v => 0 <= v) (map snd d) ->
  Deck.wf (Deck.mk (Py.sorted_items d) h).
Proof.
  unfold Deck.wf, Deck.outcomes, Deck.dups. cbn [Deck._data].
  induction d as [|x d IH]; simpl; intros Hnd Hpos; [split; [exact I|constructor]|].
  apply List.NoDup_cons_iff in Hnd as [Hnin Hnd].
  apply Forall_inv in Hpos as Hh. apply Forall_inv_tail in Hpos.
  destruct (IH Hnd Hpos) as [Hinc Hnn]. split.
  - apply insert_item_increasing; [exact Hinc|].
    intros Hin. apply Hnin, sorted_items_keys, Hin.
  - apply insert_item_nonneg; assumption.
Qed.

Lemma expand_wf (cards ds : list Z) (data : list (Z * Z)) (h : Z) :
  CreationArgs.expand_args_for_deck cards ds = Ok data ->
  Deck.wf (Deck.mk data h).
Proof.
  unfold CreationArgs.expand_args_for_deck, CreationArgs.merge_dups.
  destruct (existsb _ ds) eqn:E; [discriminate|]. intros [= <-].
  destruct (accumulate_scalars_ok cards ds (existsb_neg_true ds E) [])
    as [Hnd Hpos]; [constructor|constructor|].
  apply sorted_items_wf; assumption.
Qed.

(** Both constructors establish the class invariant. *)
Lemma constructed_wf (self : Deck.t) :
  (exists outcomes dups h, Deck.__new__ outcomes dups h = Ok self) \/
  (exists deck h dups, Deck.__init__ deck h dups = Ok self) ->
  Deck.wf self.
Proof.
  intros [(outcomes & dups & h & Hnew)|(deck & h & dups & Hinit)].
  - unfold Deck.__new__ in Hnew.
    apply bind_ok_inv in Hnew as ([cards ds] & _ & Hnew).
    destruct (existsb _ ds); [discriminate|].
    apply bind_ok_inv in Hnew as (data & Hdata & Hnew).
    unfold Deck.check_hand_size in Hnew.
    destruct (_ >? _); [discriminate|]. injection Hnew as <-.
    eapply expand_wf. exact Hdata.
  - unfold Deck.__init__ in Hinit.
    apply bind_ok_inv in Hinit as (data & Hdata & Hinit).
    unfold Deck.check_hand_size in Hinit.
    destruct (_ >? _); [discriminate|]. injection Hinit as <-.
    unfold Deck.expand_create_args in Hdata.
    destruct dups; eapply expand_wf; exact Hdata.
Qed.

End DeckInvariant.

Section DeckPop.

Variable self : Deck.t.
Hypothesis Hwf : Deck.wf self.

Let h := Deck.hand_size self.
Let s := Deck.deck_size self.

Lemma pop_max_snoc (l : list (Z * Z)) (o m : Z) :
  Deck._data self = l ++ [(o, m)] ->
  let ks := Py.range (Z.max 0 (m + h - s)) (Z.min m h + 1) in
  let popped k := (Deck.mk l (h - k), k, comb m k) in
  Deck._pop_max self o = Ok (map popped ks) /\
  Deck._pop_max' self o = Ok (map popped ks).
Proof.
  intros Hdata ks popped. destruct Hwf as [Hinc Hpos].
  unfold Deck.outcomes, Deck.dups in Hinc, Hpos.
  rewrite Hdata, map_app in Hinc, Hpos. simpl in Hinc, Hpos.
  apply increasing_app_inv in Hinc. destruct Hinc as [Hinc _].
  apply Forall_app in Hpos. destruct Hpos as [Hpos _].
  assert (Hs : s = Py.sum (map snd l) + m).
  { unfold s, Deck.deck_size. rewrite Hdata, map_app, sum_app.
    unfold Py.sum. simpl. lia. }
  unfold Deck._pop_max, Deck._pop_max', Py.last_item, Deck.outcomes, Deck.dups.
  rewrite Hdata, !map_app. simpl map. rewrite !rev_app_distr. simpl.
  rewrite Z.eqb_refl. simpl. fold h. fold s.
  rewrite !upto_m1_snoc.
  split; apply mapM_ok; intros k Hk; apply in_range in Hk.
  - rewrite new_sorted; try assumption.
    + simpl. rewrite combine_fst_snd. reflexivity.
    + rewrite !length_map. reflexivity.
    + lia.
  - rewrite init_sorted; try assumption.
    + simpl. rewrite combine_fst_snd. reflexivity.
    + rewrite !length_map. reflexivity.
    + lia.
Qed.

Lemma pop_min_cons (l : list (Z * Z)) (o m : Z) :
  Deck._data self = (o, m) :: l ->
  let ks := Py.range (Z.max 0 (m + h - s)) (Z.min m h + 1) in
  let popped k := (Deck.mk l (h - k), k, comb m k) in
  Deck._pop_min self o = Ok (map popped ks) /\
  Deck._pop_min' self o = Ok (map popped ks).
Proof.
  intros Hdata ks popped. destruct Hwf as [Hinc Hpos].
  unfold Deck.outcomes, Deck.dups in Hinc, Hpos.
  rewrite Hdata in Hinc, Hpos. simpl in Hinc, Hpos.
  destruct Hinc as [_ Hinc]. apply Forall_inv_tail in Hpos.
  assert (Hs : s = Py.sum (map snd l) + m).
  { unfold s, Deck.deck_size. rewrite Hdata. unfold Py.sum. simpl. lia. }
  unfold Deck._pop_min, Deck._pop_min', Py.first_item, Deck.outcomes, Deck.dups.
  rewrite Hdata. cbn [map fst snd].
  rewrite Z.eqb_refl. cbn [negb mbind result_bind]. fold h. fold s.
  rewrite !from_1_cons.
  split; apply mapM_ok; intros k Hk; apply in_range in Hk.
  - rewrite new_sorted; try assumption.
    + simpl. rewrite combine_fst_snd. reflexivity.
    + rewrite !length_map. reflexivity.
    + lia.
  - rewrite init_sorted; try assumption.
    + simpl. rewrite combine_fst_snd. reflexivity.
    + rewrite !length_map. reflexivity.
    + lia.
Qed.

End DeckPop.

Lemma last_item_snoc {A : Type} (l : list A) (x : A) :
  Py.last_item l = Ok x -> exists l', l = l' ++ [x].
Proof.
  unfold Py.last_item. intros H.
  destruct (List.rev l) as [|y r] eqn:E; [discriminate|].
  injection H as ->. exists (List.rev r).
  rewrite <- (rev_involutive l), E. reflexivity.
Qed.

Lemma first_item_cons {A : Type} (l : list A) (x : A) :
  Py.first_item l = Ok x -> exists l', l = x :: l'.
Proof. destruct l as [|y l]; simpl; intros H; [discriminate|]. injection H as ->. eauto. Qed.

Lemma map_fst_snd_snoc (d : list (Z * Z)) (lo lm : list Z) (o m : Z) :
  map fst d = lo ++ [o] -> map snd d = lm ++ [m] ->
  d = List.removelast d ++ [(o, m)].
Proof.
  intros H1 H2. destruct d as [|x d] using rev_ind.
  - destruct lo; discriminate.
  - clear IHd. rewrite removelast_last. rewrite !map_app in H1, H2. simpl in *.
    apply app_inj_tail in H1, H2. destruct x; simpl in *.
    destruct H1 as [_ ->], H2 as [_ ->]. reflexivity.
Qed.

(** C5. On its current extreme outcome, of multiplicity [m], a deck with
    hand size [h] and deck size [s] pops into exactly one branch per count
    [k] from [max(0, m + h - s)] to [min(m, h)] inclusive, in that order:
    the deck without that outcome with hand size [h - k], the count [k], and
    the weight [C(m, k)].  This holds for [_pop_max] and [_pop_min], in
    deck.py and in deck/deck.py. *)
Theorem deck_pop_extreme_branches (self : Deck.t) (o m : Z) :
  Deck.wf self ->
  let h := Deck.hand_size self in
  let s := Deck.deck_size self in
  let ks := Py.range (Z.max 0 (m + h - s)) (Z.min m h + 1) in
  (Deck.max_outcome self = Ok o -> Py.last_item (Deck.dups self) = Ok m ->
   let popped k := (Deck.mk (Py.upto (-1) (Deck._data self)) (h - k), k, comb m k) in
   Deck._pop_max self o = Ok (map popped ks) /\
   Deck._pop_max' self o = Ok (map popped ks)) /\
  (Deck.min_outcome self = Ok o -> Py.first_item (Deck.dups self) = Ok m ->
   let popped k := (Deck.mk (Py.from 1 (Deck._data self)) (h - k), k, comb m k) in
   Deck._pop_min self o = Ok (map popped ks) /\
   Deck._pop_min' self o = Ok (map popped ks)).
Proof.
  intros Hwf h s ks. split.
  - intros Ho Hm popped.
    assert (Hd : Deck._data self = List.removelast (Deck._data self) ++ [(o, m)]).
    { apply last_item_snoc in Ho, Hm. destruct Ho as [lo Ho], Hm as [lm Hm].
      unfold Deck.outcomes in Ho. unfold Deck.dups in Hm.
      eapply map_fst_snd_snoc; eassumption. }
    assert (Hup : Py.upto (-1) (Deck._data self) = List.removelast (Deck._data self)).
    { rewrite Hd at 1. apply upto_m1_snoc. }
    subst popped. cbv beta zeta. rewrite Hup.
    apply (pop_max_snoc self Hwf _ o m Hd).
  - intros Ho Hm popped.
    apply first_item_cons in Ho, Hm. destruct Ho as [lo Ho], Hm as [lm Hm].
    unfold Deck.outcomes in Ho. unfold Deck.dups in Hm.
    destruct (Deck._data self) as [|[o' m'] d] eqn:Hd; [discriminate|].
    simpl in Ho, Hm. injection Ho as -> _. injection Hm as -> _.
    subst popped. rewrite from_1_cons.
    apply (pop_min_cons self Hwf d o m Hd).
Qed.

Lemma deck_pop_extreme_branches_witness :
  Deck._pop_max (Deck.mk [(1, 2); (2, 3)] 3) 2
  = Ok [(Deck.mk [(1, 2)] 2, 1, 3); (Deck.mk [(1, 2)] 1, 2, 3);
        (Deck.mk [(1, 2)] 0, 3, 1)].
Proof.
  assert (Hwf : Deck.wf (Deck.mk [(1, 2); (2, 3)] 3)).
  { split; [simpl; lia|solve_nonneg]. }
  exact (proj1 (proj1 (deck_pop_extreme_branches
                         (Deck.mk [(1, 2); (2, 3)] 3) 2 3 Hwf)
                      eq_refl eq_refl)).
Defined.

(** C10. Asked to pop an outcome that is not its current extreme outcome,
    or having no outcomes at all, a deck yields the single branch
    [(self, 0, 1)]. *)
Theorem deck_pop_not_extreme (self : Deck.t) (o : Z) :
  (Deck.min_outcome self <> Ok o ->
   Deck._pop_min self o = Ok [(self, 0, 1)] /\
   Deck._pop_min' self o = Ok [(self, 0, 1)]) /\
  (Deck.max_outcome self <> Ok o ->
   Deck._pop_max self o = Ok [(self, 0, 1)] /\
   Deck._pop_max' self o = Ok [(self, 0, 1)]).
Proof.
  unfold Deck.min_outcome, Deck.max_outcome, Py.first_item, Py.last_item,
    Deck._pop_min, Deck._pop_min', Deck._pop_max, Deck._pop_max'.
  split; intros H.
  - destruct (Deck.outcomes self) as [|o' l]; [split; reflexivity|].
    destruct (Z.eqb_spec o o') as [->|Hne]; [congruence|split; reflexivity].
  - destruct (List.rev (Deck.outcomes self)) as [|o' l]; [split; reflexivity|].
    destruct (Z.eqb_spec o o') as [->|Hne]; [congruence|split; reflexivity].
Qed.

Lemma deck_pop_not_extreme_witness :
  Deck._pop_max (Deck.mk [(1, 2); (2, 3)] 3) 1
  = Ok [(Deck.mk [(1, 2); (2, 3)] 3, 0, 1)] /\
  Deck._pop_min (Deck.mk [] 0) 7 = Ok [(Deck.mk [] 0, 0, 1)].
Proof.
  split.
  - apply (proj2 (deck_pop_not_extreme (Deck.mk [(1, 2); (2, 3)] 3) 1)).
    simpl. discriminate.
  - apply (proj1 (deck_pop_not_extreme (Deck.mk [] 0) 7)).
    simpl. discriminate.
Defined.

(** The card table and the hand-size check, as one conditional. *)
Lemma expand_then_check (cards ds : list Z) (h : Z) :
  (data ← CreationArgs.expand_args_for_deck cards ds;
   Deck.check_hand_size (Deck.mk data h))
  = if existsb (fun x => x <? 0) ds then Raise ValueError
    else if h >? Py.sum (map snd (combine cards ds)) then Raise ValueError
    else Ok (Deck.mk (Py.sorted_items
               (CreationArgs.accumulate (map CreationArgs.expand_scalar cards) ds []))
               h).
Proof.
  unfold CreationArgs.expand_args_for_deck, CreationArgs.merge_dups.
  destruct (existsb _ ds); [reflexivity|]. simpl.
  unfold Deck.check_hand_size, Deck.hand_size, Deck.deck_size. simpl.
  rewrite sorted_items_sum, accumulate_scalars_sum. reflexivity.
Qed.

Lemma repeat_nonneg (n : nat) : Forall (fun d => 0 <= d) (List.repeat 1 n).
Proof. induction n; simpl; constructor; [lia|assumption]. Qed.

(** C7. A deck whose requested hand size exceeds the total card count (the
    sum of the dups, one per card when no dups are given) is refused with
    [ValueError] by both constructors; with a hand size at most the total
    card count, and dups that are themselves acceptable (one non-negative
    dup per card), construction succeeds. *)
Theorem deck_hand_size_checked (cards ds : list Z) (d : list (Z * Z)) (h : Z) :
  (Py.sum ds < h ->
   Deck.__new__ (Deck.OfSeq cards) (Some ds) h = Raise ValueError /\
   Deck.__init__ cards h (Some ds) = Raise ValueError) /\
  (Py.len cards < h ->
   Deck.__new__ (Deck.OfSeq cards) None h = Raise ValueError /\
   Deck.__init__ cards h None = Raise ValueError) /\
  (Py.sum (map snd d) < h ->
   Deck.__new__ (Deck.OfDict d) None h = Raise ValueError) /\
  (h <= Py.sum ds -> length ds = length cards -> Forall (fun x => 0 <= x) ds ->
   is_ok (Deck.__new__ (Deck.OfSeq cards) (Some ds) h) = true /\
   is_ok (Deck.__init__ cards h (Some ds)) = true) /\
  (h <= Py.len cards ->
   is_ok (Deck.__new__ (Deck.OfSeq cards) None h) = true /\
   is_ok (Deck.__init__ cards h None) = true) /\
  (h <= Py.sum (map snd d) -> Forall (fun x => 0 <= x) (map snd d) ->
   is_ok (Deck.__new__ (Deck.OfDict d) None h) = true).
Proof.
  assert (Hones : Py.sum (map snd (combine cards (Py.repeat 1 (Py.len cards))))
                  = Py.len cards).
  { unfold Py.repeat, Py.len. rewrite Nat2Z.id, combine_snd_eq
      by apply repeat_length. rewrite sum_repeat. lia. }
  assert (Hdict : Py.sum (map snd (combine (map fst d) (map snd d)))
                  = Py.sum (map snd d)).
  { rewrite combine_fst_snd. reflexivity. }
  repeat split.
  - unfold Deck.__new__. destruct (Py.len ds =? Py.len cards); [|reflexivity].
    cbn [negb mbind result_bind]. destruct (existsb _ ds) eqn:E; [reflexivity|].
    unfold Deck.expand_create_args. rewrite expand_then_check, E.
    pose proof (combine_snd_le cards ds (existsb_neg_true ds E)).
    destruct (Z.gtb_spec h (Py.sum (map snd (combine cards ds)))); [reflexivity|lia].
  - unfold Deck.__init__, Deck.expand_create_args. rewrite expand_then_check.
    destruct (existsb _ ds) eqn:E; [reflexivity|].
    pose proof (combine_snd_le cards ds (existsb_neg_true ds E)).
    destruct (Z.gtb_spec h (Py.sum (map snd (combine cards ds)))); [reflexivity|lia].
  - unfold Deck.__new__. cbn [negb mbind result_bind].
    destruct (existsb _ _) eqn:E; [reflexivity|].
    unfold Deck.expand_create_args. rewrite expand_then_check, E, Hones.
    destruct (Z.gtb_spec h (Py.len cards)); [reflexivity|lia].
  - unfold Deck.__init__, Deck.expand_create_args. rewrite expand_then_check, Hones.
    destruct (existsb _ _); [reflexivity|].
    destruct (Z.gtb_spec h (Py.len cards)); [reflexivity|lia].
  - intros Hh. unfold Deck.__new__. cbn [negb mbind result_bind].
    destruct (existsb _ _) eqn:E; [reflexivity|].
    unfold Deck.expand_create_args. rewrite expand_then_check, E, Hdict.
    destruct (Z.gtb_spec h (Py.sum (map snd d))); [reflexivity|lia].
  - unfold Deck.__new__, Py.len. rewrite H0, Z.eqb_refl.
    cbn [negb mbind result_bind]. rewrite existsb_neg_false by assumption.
    unfold Deck.expand_create_args.
    rewrite expand_then_check, existsb_neg_false, combine_snd_eq by assumption.
    destruct (Z.gtb_spec h (Py.sum ds)); [lia|reflexivity].
  - unfold Deck.__init__, Deck.expand_create_args.
    rewrite expand_then_check, existsb_neg_false, combine_snd_eq by assumption.
    destruct (Z.gtb_spec h (Py.sum ds)); [lia|reflexivity].
  - unfold Deck.__new__. cbn [negb mbind result_bind].
    unfold Py.repeat. rewrite existsb_neg_false by apply repeat_nonneg.
    unfold Deck.expand_create_args.
    rewrite expand_then_check, existsb_neg_false by apply repeat_nonneg.
    fold (Py.repeat 1 (Py.len cards)). rewrite Hones.
    destruct (Z.gtb_spec h (Py.len cards)); [lia|reflexivity].
  - unfold Deck.__init__, Deck.expand_create_args.
    rewrite expand_then_check. unfold Py.repeat at 1.
    rewrite existsb_neg_false by apply repeat_nonneg. rewrite Hones.
    destruct (Z.gtb_spec h (Py.len cards)); [lia|reflexivity].
  - intros Hh Hpos. unfold Deck.__new__. cbn [negb mbind result_bind].
    rewrite existsb_neg_false by assumption.
    unfold Deck.expand_create_args.
    rewrite expand_then_check, existsb_neg_false, Hdict by assumption.
    destruct (Z.gtb_spec h (Py.sum (map snd d))); [lia|reflexivity].
Qed.

Lemma deck_hand_size_checked_witness :
  Deck.__new__ (Deck.OfSeq [1; 2; 2; 3]) (Some [1; 1; 1; 1]) 5 = Raise ValueError /\
  is_ok (Deck.__new__ (Deck.OfSeq [1; 2; 2; 3]) (Some [1; 1; 1; 1]) 4) = true /\
  Deck.__new__ (Deck.OfDict [(1, 2); (5, 1)]) None 4 = Raise ValueError /\
  is_ok (Deck.__init__ [7; 8] 2 None) = true.
Proof.
  pose proof (deck_hand_size_checked [1; 2; 2; 3] [1; 1; 1; 1] [(1, 2); (5, 1)] 5)
    as (H1 & _).
  pose proof (deck_hand_size_checked [1; 2; 2; 3] [1; 1; 1; 1] [(1, 2); (5, 1)] 4)
    as (_ & _ & H3 & H4 & _).
  pose proof (deck_hand_size_checked [7; 8] [] [] 2) as (_ & _ & _ & _ & H5 & _).
  split; [|split; [|split]].
  - apply H1. vm_compute. reflexivity.
  - apply H4; [vm_compute; discriminate|reflexivity|solve_nonneg].
  - apply H3. vm_compute. reflexivity.
  - apply H5. vm_compute. discriminate.
Defined.

(** ** Keep expressions *)

Section KeepFacts.

Context {Leaf LeafState : Type}.
Variable leaf_next_state :
  Leaf -> Keep.state LeafState -> Z -> list Z -> list Z ->
  result (Keep.state LeafState * Z).

(** [next_state] of a [KeepExpression], once its state has unpacked and
    its inner expression has answered. *)
Lemma next_state_keep inner order src st o bc cs remaining inner_state s' c :
  Keep.unpack_state _ src st = Ok (remaining, inner_state) ->
  Keep.next_state leaf_next_state inner inner_state o bc cs = Ok (s', c) ->
  Keep.next_state leaf_next_state (Keep.KeepExpression inner order src) st o bc cs
  = ('(remaining', c') ← Keep.keep_count order remaining c;
     Ok (Keep.SKeep remaining' s', c')).
Proof.
  intros Hst Hin. cbn [Keep.next_state]. rewrite Hst. cbn [mbind result_bind].
  rewrite Hin. reflexivity.
Qed.

(** C6. A negative count delivered by the inner expression makes
    [KeepExpression.next_state] raise [RuntimeError]; a non-negative one
    never does: the call returns the next state and a count. *)
Theorem keep_negative_count_fatal inner order src st o bc cs
    remaining inner_state s' c :
  Keep.unpack_state _ src st = Ok (remaining, inner_state) ->
  Keep.next_state leaf_next_state inner inner_state o bc cs = Ok (s', c) ->
  (c < 0 ->
   Keep.next_state leaf_next_state (Keep.KeepExpression inner order src) st o bc cs
   = Raise RuntimeError) /\
  (0 <= c ->
   exists remaining' c',
     Keep.next_state leaf_next_state (Keep.KeepExpression inner order src) st o bc cs
     = Ok (Keep.SKeep remaining' s', c')).
Proof.
  intros Hst Hin. rewrite (next_state_keep _ _ _ _ _ _ _ _ _ _ _ Hst Hin).
  unfold Keep.keep_count. split; intros Hc.
  - destruct (Z.ltb_spec c 0); [reflexivity|lia].
  - destruct (Z.ltb_spec c 0); [lia|].
    destruct (c >? 0); [destruct order|]; eauto.
Qed.

(** C2, at the failing input.  The keep that drops the lowest element and
    keeps the second lowest, [KeepExpression(inner, [0, 1, ...])], has
    budget [(0, 1)]; when its inner expression delivers a count of 1 the
    emitted count is 0, the sum of the first slot, and the budget is then cut
    by that emitted 0, not by the 1 consumed slot: it stays [(0, 1)].  The
    keep of the second highest, [KeepExpression(inner, [..., 1, 0])], budget
    [(1, 0)], emits 0 and is left with no budget at all. *)
Theorem keep_budget_cut_by_emitted_count inner st o bc cs s' :
  Keep.next_state leaf_next_state inner Keep.SNone o bc cs = Ok (s', 1) ->
  st = Keep.SNone ->
  (Keep.__new__ inner (Keep.ArgSeq [Keep.Int 0; Keep.Int 1; Keep.Ellipsis])
     = Ok (Keep.KeepExpression inner Keep.Ascending [0; 1]) /\
   Keep.next_state leaf_next_state
     (Keep.KeepExpression inner Keep.Ascending [0; 1]) st o bc cs
     = Ok (Keep.SKeep [0; 1] s', 0)) /\
  (Keep.__new__ inner (Keep.ArgSeq [Keep.Ellipsis; Keep.Int 1; Keep.Int 0])
     = Ok (Keep.KeepExpression inner Keep.Descending [1; 0]) /\
   Keep.next_state leaf_next_state
     (Keep.KeepExpression inner Keep.Descending [1; 0]) st o bc cs
     = Ok (Keep.SKeep [] s', 0)).
Proof.
  intros Hin ->. repeat split.
  - rewrite (next_state_keep inner Keep.Ascending [0; 1] Keep.SNone o bc cs
               [0; 1] Keep.SNone s' 1 eq_refl Hin).
    reflexivity.
  - rewrite (next_state_keep inner Keep.Descending [1; 0] Keep.SNone o bc cs
               [1; 0] Keep.SNone s' 1 eq_refl Hin).
    reflexivity.
Qed.

(** C9, amended.  A keep over the slice [[:]], with neither endpoint and no
    step, is the inner expression itself. *)
Theorem keep_open_slice_is_inner (inner : Keep.MultisetExpression Leaf) :
  Keep.__new__ inner (Keep.ArgSlice None None None) = Ok inner.
Proof. reflexivity. Qed.

End KeepFacts.

Lemma keep_negative_count_fatal_witness :
  Keep.next_state first_count
    (Keep.KeepExpression (Keep.Other tt) Keep.Ascending [1; 1]) Keep.SNone 6 [] [-1]
  = Raise RuntimeError /\
  exists remaining' c',
    Keep.next_state first_count
      (Keep.KeepExpression (Keep.Other tt) Keep.Ascending [1; 1]) Keep.SNone 6 [] [3]
    = Ok (Keep.SKeep remaining' Keep.SNone, c').
Proof.
  split.
  - apply (proj1 (keep_negative_count_fatal first_count (Keep.Other tt)
                    Keep.Ascending [1; 1] Keep.SNone 6 [] [-1]
                    [1; 1] Keep.SNone Keep.SNone (-1) eq_refl eq_refl)).
    lia.
  - apply (proj2 (keep_negative_count_fatal first_count (Keep.Other tt)
                    Keep.Ascending [1; 1] Keep.SNone 6 [] [3]
                    [1; 1] Keep.SNone Keep.SNone 3 eq_refl eq_refl)).
    lia.
Defined.

Lemma keep_budget_cut_by_emitted_count_witness :
  Keep.next_state first_count
    (Keep.KeepExpression (Keep.Other tt) Keep.Ascending [0; 1]) Keep.SNone 6 [] [1]
  = Ok (Keep.SKeep [0; 1] Keep.SNone, 0) /\
  Keep.next_state first_count
    (Keep.KeepExpression (Keep.Other tt) Keep.Descending [1; 0]) Keep.SNone 6 [] [1]
  = Ok (Keep.SKeep [] Keep.SNone, 0).
Proof.
  pose proof (keep_budget_cut_by_emitted_count first_count (Keep.Other tt)
                Keep.SNone 6 [] [1] Keep.SNone eq_refl eq_refl) as [[_ H1] [_ H2]].
  exact (conj H1 H2).
Defined.

(** C9 as stated fails on a full-open slice that carries a step: the
    constructor refuses every step before it looks at the endpoints. *)
Lemma keep_open_slice_with_step_raises :
  Keep.__new__ (Keep.Other tt) (Keep.ArgSlice None None (Some 2))
  = Raise ValueError /\
  Keep.__new__ (Keep.Other tt) (Keep.ArgSlice None None (Some 2))
  <> Ok (Keep.Other tt).
Proof. split; [reflexivity|discriminate]. Qed.

(** ** Pools *)

Section PoolFacts.

Lemma merge_num_dice_some (nd : option Z) (n : Z) (r : option Z) :
  Pool.merge_num_dice nd (Some n) = Ok r -> r = Some n.
Proof.
  unfold Pool.merge_num_dice. destruct nd as [k|]; [|congruence].
  destruct (negb (k =? n)); congruence.
Qed.

Lemma merge_num_dice_raises (nd sl : option Z) (e : exn) :
  Pool.merge_num_dice nd sl = Raise e -> e = ValueError.
Proof.
  unfold Pool.merge_num_dice. destruct sl as [n|]; [|congruence].
  destruct nd as [k|]; [|congruence].
  destruct (negb (k =? n)); congruence.
Qed.

Lemma checked_ints_raise (l : list Pool.entry) (e : exn) :
  Pool.checked_ints l = Raise e -> e = TypeError /\ In Pool.ENotInt l.
Proof.
  unfold Pool.checked_ints. induction l as [|[x|] l IH]; cbn [mapM].
  - discriminate.
  - cbn. destruct (mapM _ l) as [ns|e']; cbn; [discriminate|].
    intros [= <-]. destruct (IH eq_refl) as [-> Hin]. split; [reflexivity|].
    right. exact Hin.
  - cbn. intros [= <-]. split; [reflexivity|left; reflexivity].
Qed.

Lemma checked_ints_ok (l : list Pool.entry) (ns : list Z) :
  Pool.checked_ints l = Ok ns <-> l = map Pool.EInt ns.
Proof.
  unfold Pool.checked_ints. revert ns.
  induction l as [|[x|] l IH]; intros ns; cbn [mapM].
  - split; [intros [= <-]; reflexivity|]. destruct ns; [reflexivity|discriminate].
  - cbn. destruct (mapM _ l) as [ms|e'] eqn:E; cbn.
    + split.
      * intros [= <-]. cbn [map]. f_equal. apply IH. reflexivity.
      * destruct ns as [|n ns]; [discriminate|]. intros [= -> Hl].
        apply IH in Hl. injection Hl as ->. reflexivity.
    + split; [discriminate|]. destruct ns as [|n ns]; [discriminate|].
      intros [= -> Hl]. apply IH in Hl. discriminate.
  - split; [discriminate|]. destruct ns; discriminate.
Qed.

(** What [_compute_count_dice] raises, and on what. *)
Lemma compute_count_dice_raises (n : Z) (cd : Pool.count_dice_arg) (e : exn) :
  Pool._compute_count_dice n cd = Raise e ->
  (e = IndexError /\
   exists i, cd = Pool.CdInt i /\ ~ (- Z.max 0 n <= i < Z.max 0 n)) \/
  (e = ValueError /\ exists start stop, cd = Pool.CdSliceStep start stop 0) \/
  (e = TypeError /\ exists l, cd = Pool.CdEntries l /\ In Pool.ENotInt l).
Proof.
  destruct cd as [i|start stop|l|start stop step|l];
    cbn [Pool._compute_count_dice]; cbv zeta; intros H; try discriminate.
  - left. unfold Py.len, Py.repeat in H. rewrite repeat_length in H.
    destruct (Z.ltb_spec i (Z.of_nat (Z.to_nat n)));
      destruct (Z.leb_spec (- Z.of_nat (Z.to_nat n)) i);
      cbn [andb] in H; try discriminate; injection H as <-;
      (split; [reflexivity|]); exists i; (split; [reflexivity|]); lia.
  - right. left. destruct (Z.eqb_spec step 0) as [->|_].
    + injection H as <-. split; [reflexivity|]. eauto.
    + destruct (Py.slice_indices _ _ _ _). discriminate.
  - right. right. apply checked_ints_raise in H as [-> Hin].
    split; [reflexivity|]. eauto.
Qed.


Lemma len_zero_nil {A : Type} (l : list A) : Py.len l = 0 -> l = [].
Proof. destruct l; [reflexivity|]. unfold Py.len. simpl. lia. Qed.

End PoolFacts.

(** C8 as stated fails: with both caps given, the min outcomes that do not
    lie above the die's min outcome are dropped and the pool is built. *)
Lemma pool_both_caps_given_constructs :
  Pool.Pool (Die.mk None [(1, 1); (2, 1); (3, 1)]) None None (Some [1]) (Some [2])
  = Ok (Pool.mk (Die.mk None [(1, 1); (2, 1); (3, 1)]) [1] None (Some [2])).
Proof. reflexivity. Qed.

(** ** One decomposition step of a pool *)

Section BinomialRow.

Lemma binom_above (n k : nat) : (n < k)%nat -> binom n k = 0.
Proof.
  revert k. induction n as [|n IH]; intros [|k] H; simpl; try lia.
  rewrite !IH by lia. reflexivity.
Qed.

Lemma sum_map_add {A : Type} (f g : A -> Z) (l : list A) :
  Py.sum (map (fun x => f x + g x) l) = Py.sum (map f l) + Py.sum (map g l).
Proof. induction l as [|x l IH]; unfold Py.sum in *; simpl; lia. Qed.

Lemma sum_map_scale {A : Type} (c : Z) (f : A -> Z) (l : list A) :
  Py.sum (map (fun x => c * f x) l) = c * Py.sum (map f l).
Proof. induction l as [|x l IH]; unfold Py.sum in *; simpl; lia. Qed.

Variable b : Z.








End BinomialRow.

Section PopMax.



Lemma insert_int_length (x : Z) (l : list Z) :
  length (Py.insert_int x l) = S (length l).
Proof.
  induction l as [|y l IH]; simpl; [reflexivity|].
  destruct (x <=? y); simpl; [reflexivity|]. rewrite IH. reflexivity.
Qed.

Lemma sorted_length (l : list Z) : length (Py.sorted l) = length l.
Proof.
  induction l as [|x l IH]; simpl; [reflexivity|].
  rewrite insert_int_length, IH. reflexivity.
Qed.








End PopMax.

Section PoolInvariant.

Lemma merge_num_dice_keeps (k : Z) (sl r : option Z) :
  Pool.merge_num_dice (Some k) sl = Ok r -> r = Some k.
Proof.
  unfold Pool.merge_num_dice. destruct sl as [n|]; [|congruence].
  destruct (Z.eqb_spec k n); simpl; congruence.
Qed.

Lemma clamp_bounds (n i : Z) : 0 <= n -> 0 <= Py.clamp n i <= n.
Proof. unfold Py.clamp. intros Hn. destruct (Z.ltb_spec i 0); lia. Qed.

Lemma fold_insert_length (ps : list Z) (l : list Z) :
  length (fold_left (fun result i => <[Z.to_nat i := 1]> result) ps l)
  = length l.
Proof.
  revert l. induction ps as [|i ps IH]; intros l; [reflexivity|].
  cbn [fold_left]. rewrite IH. apply length_insert.
Qed.

Lemma compute_count_dice_length (n : Z) (cd : Pool.count_dice_arg) (l : list Z) :
  Pool._compute_count_dice n cd = Ok l ->
  match cd with
  | Pool.CdSeq _ => True
  | Pool.CdEntries _ => True
  | _ => length l = Z.to_nat n
  end.
Proof.
  destruct cd as [i|start stop|seq|start stop step|seq];
    [| |trivial| |trivial].
  3:{ cbn [Pool._compute_count_dice]. cbv zeta.
      destruct (step =? 0); [discriminate|].
      destruct (Py.slice_indices _ _ _ _) as [a b]. intros [= <-].
      rewrite fold_insert_length. apply repeat_length. }
  all: simpl.
  - destruct (_ && _); [|discriminate]. intros [= <-].
    rewrite length_insert. apply repeat_length.
  - intros [= <-]. unfold Py.repeat, Py.slice.
    set (N := Py.len (List.repeat 0 (Z.to_nat n))).
    assert (HN : N = Z.of_nat (Z.to_nat n))
      by (unfold N, Py.len; rewrite repeat_length; reflexivity).
    clearbody N.
    set (lo := match start with Some i => Py.clamp N i | None => 0 end).
    assert (Hlo : 0 <= lo <= N).
    { unfold lo. destruct start; [apply clamp_bounds|]; lia. }
    clearbody lo.
    rewrite !length_app, length_firstn, length_skipn, !repeat_length.
    unfold Py.len. rewrite length_firstn, length_skipn, repeat_length. lia.
Qed.

(** The factory never returns a pool that breaks the invariant [pop_max]
    relies on. *)
Lemma Pool_wf (die : Die.t) (num_dice : option Z)
    (count_dice : option Pool.count_dice_arg)
    (min_outcomes max_outcomes : option (list Z)) (p : Pool.DicePool) :
  Pool.Pool die num_dice count_dice min_outcomes max_outcomes = Ok p ->
  Pool._min_outcomes p = None -> Pool.wf p.
Proof.
  intros H Hmin. split; [exact Hmin|]. clear Hmin. unfold Pool.Pool in H.
  apply bind_ok_inv in H as (n1 & E1 & H).
  apply bind_ok_inv in H as (n2 & E2 & H).
  apply bind_ok_inv in H as (n3 & E3 & H).
  apply bind_ok_inv in H as (cd & Ecd & H).
  apply bind_ok_inv in H as ([mi ma] & Ecaps & H).
  assert (Hp : Pool._count_dice p = cd /\ Pool._max_outcomes p = ma).
  { destruct mi, ma; try discriminate; injection H as <-; split; reflexivity. }
  destruct Hp as [-> ->]. clear H. intros mo ->.
  destruct (Z.eqb_spec (default 0 n3) 0) as [Hz|Hnz]; [discriminate|].
  apply bind_ok_inv in Ecaps as (mi' & _ & Ecaps).
  apply bind_ok_inv in Ecaps as (ma' & Ema & Ecaps).
  injection Ecaps as _ ->.
  destruct max_outcomes as [hi|]; [|discriminate].
  apply bind_ok_inv in Ema as (m & _ & Ema).
  apply bind_ok_inv in Ema as (dm & _ & Ema).
  destruct (m <? dm); [|discriminate]. injection Ema as <-.
  rewrite sorted_length, length_map.
  cbn [fmap option_fmap option_map] in E3. pose proof E3 as E3'.
  apply merge_num_dice_some in E3. subst n3. cbn [default] in Ecd.
  change (id (Py.len hi)) with (Py.len hi) in Ecd.
  destruct count_dice as [[i|start stop|seq|start stop step|seq]|].
  - apply compute_count_dice_length in Ecd. rewrite Ecd. unfold Py.len. lia.
  - apply compute_count_dice_length in Ecd. rewrite Ecd. unfold Py.len. lia.
  - simpl in Ecd. injection Ecd as <-.
    apply merge_num_dice_some in E1. subst n1.
    apply merge_num_dice_keeps in E2. subst n2.
    unfold Pool.merge_num_dice in E3'.
    destruct (Z.eqb_spec (Py.len seq) (Py.len hi)) as [E|];
      [|simpl in E3'; discriminate].
    unfold Py.len in E. lia.
  - apply compute_count_dice_length in Ecd. rewrite Ecd. unfold Py.len. lia.
  - cbn [Pool._compute_count_dice] in Ecd. apply checked_ints_ok in Ecd.
    subst seq. cbn [Pool.seq_len] in E1.
    apply merge_num_dice_some in E1. subst n1.
    apply merge_num_dice_keeps in E2. subst n2.
    unfold Pool.merge_num_dice in E3'.
    destruct (Z.eqb_spec (Py.len (map Pool.EInt cd)) (Py.len hi)) as [E|];
      [|simpl in E3'; discriminate].
    unfold Py.len in E. rewrite length_map in E. lia.
  - injection Ecd as <-. unfold Py.repeat, Py.len. rewrite repeat_length. lia.
Qed.

End PoolInvariant.

Section Conservation.





End Conservation.




(** ** The evaluator's cache *)

Section EvalCache.

Context {State : Type} `{Countable State}.
Variable self : EvalPool.t State.





End EvalCache.

(** ** The denominator policies of creation_args.py *)

Section MergePolicies.

Import CreationArgs.

Variables c1 c2 : Z.

Lemma dict_add_proportional (k x1 x2 : Z) (d1 d2 : Subdata) :
  proportional c1 c2 d1 d2 -> c2 * x1 = c1 * x2 ->
  proportional c1 c2 (Py.dict_add k x1 d1) (Py.dict_add k x2 d2).
Proof.
  intros Hd Hx. induction Hd as [|[k1 v1] [k2 v2] d1 d2 [Hk Hv] Hd IH]; simpl in *.
  - repeat constructor; simpl; lia.
  - subst k2. destruct (decide (k1 = k)); constructor; simpl; auto.
    split; [reflexivity|]. rewrite !Z.mul_add_distr_l. lia.
Qed.

Lemma accumulate_one_proportional (f1 f2 : Z) (subdata : Subdata) :
  c2 * f1 = c1 * f2 ->
  forall acc1 acc2, proportional c1 c2 acc1 acc2 ->
  proportional c1 c2 (accumulate_one f1 subdata acc1)
    (accumulate_one f2 subdata acc2).
Proof.
  intros Hf. unfold accumulate_one.
  induction subdata as [|[o w] subdata IH]; intros acc1 acc2 Hacc; simpl;
    [exact Hacc|].
  apply IH, dict_add_proportional; [exact Hacc|].
  rewrite !(Z.mul_comm w), !Z.mul_assoc, Hf. reflexivity.
Qed.

Lemma accumulate_proportional (subdatas : list Subdata) (fs1 fs2 : list Z) :
  Forall2 (fun f1 f2 => c2 * f1 = c1 * f2) fs1 fs2 ->
  forall acc1 acc2, proportional c1 c2 acc1 acc2 ->
  proportional c1 c2 (accumulate subdatas fs1 acc1)
    (accumulate subdatas fs2 acc2).
Proof.
  intros Hfs. revert subdatas.
  induction Hfs as [|f1 f2 fs1 fs2 Hf Hfs IH]; intros subdatas acc1 acc2 Hacc.
  - destruct subdatas; exact Hacc.
  - destruct subdatas as [|subdata subdatas]; [exact Hacc|]. simpl.
    apply IH, accumulate_one_proportional; assumption.
Qed.

(** Each policy's [denominator_prod * w] is a multiple of every positive
    sub-denominator it is divided by, so the floor divisions are exact and
    the factors of two policies are in the ratio of their
    [denominator_prod]s. *)
Lemma factors_proportional (dens weights : list Z) :
  Forall (fun d => 0 <= d) dens ->
  Forall (fun dw => 0 < fst dw -> (fst dw | c1 * snd dw) /\ (fst dw | c2 * snd dw))
    (combine dens weights) ->
  Forall2 (fun f1 f2 => c2 * f1 = c1 * f2)
    (factors c1 dens weights) (factors c2 dens weights).
Proof.
  revert weights. induction dens as [|d dens IH]; intros [|w weights] Hd Hx;
    simpl; try constructor.
  - apply Forall_inv in Hd, Hx. simpl in Hx.
    destruct (Z.eqb_spec d 0) as [_|Hd0]; [lia|].
    destruct Hx as [[q1 H1] [q2 H2]]; [lia|].
    rewrite H1, H2, !Z.div_mul by exact Hd0.
    apply (Z.mul_reg_l _ _ d Hd0).
    replace (d * (c2 * q1)) with (c2 * (q1 * d)) by ring.
    replace (d * (c1 * q2)) with (c1 * (q2 * d)) by ring.
    rewrite <- H1, <- H2. ring.
  - apply IH; [eapply Forall_inv_tail; eassumption|].
    simpl in Hx. eapply Forall_inv_tail; eassumption.
Qed.

End MergePolicies.

Section Reduction.

Import CreationArgs.

Lemma gcd_fold_scale (c : Z) (l : list Z) :
  0 <= c -> forall acc,
  fold_left Z.gcd (map (Z.mul c) l) (c * acc) = c * fold_left Z.gcd l acc.
Proof.
  intros Hc. induction l as [|x l IH]; intros acc; simpl; [reflexivity|].
  rewrite Z.gcd_mul_mono_l_nonneg by exact Hc. apply IH.
Qed.

Lemma gcd_list_scale (c : Z) (l : list Z) :
  0 <= c -> gcd_list (map (Z.mul c) l) = c * gcd_list l.
Proof.
  intros Hc. unfold gcd_list. rewrite <- (gcd_fold_scale c l Hc 0).
  rewrite Z.mul_0_r. reflexivity.
Qed.

Lemma gcd_fold_divides (l : list Z) :
  forall acc, (fold_left Z.gcd l acc | acc) /\
              Forall (fun x => (fold_left Z.gcd l acc | x)) l.
Proof.
  induction l as [|x l IH]; intros acc; simpl.
  - split; [apply Z.divide_refl|constructor].
  - destruct (IH (Z.gcd acc x)) as [Hacc Hl]. repeat split.
    + eapply Z.divide_trans; [exact Hacc|apply Z.gcd_divide_l].
    + constructor; [|exact Hl].
      eapply Z.divide_trans; [exact Hacc|apply Z.gcd_divide_r].
Qed.

Lemma gcd_list_divides (l : list Z) : Forall (fun x => (gcd_list l | x)) l.
Proof. apply gcd_fold_divides. Qed.

Lemma gcd_fold_nonneg (l : list Z) :
  forall acc, 0 <= acc -> 0 <= fold_left Z.gcd l acc.
Proof.
  induction l as [|x l IH]; intros acc Hacc; simpl; [exact Hacc|].
  apply IH, Z.gcd_nonneg.
Qed.

Lemma gcd_list_nonneg (l : list Z) : 0 <= gcd_list l.
Proof. apply gcd_fold_nonneg. lia. Qed.

Lemma gcd_list_zero (l : list Z) :
  gcd_list l = 0 -> Forall (fun x => x = 0) l.
Proof.
  intros H. pose proof (gcd_list_divides l) as Hd. rewrite H in Hd.
  eapply List.Forall_impl; [|exact Hd]. intros x [q Hq]. lia.
Qed.

(** Dividing by the gcd leaves weights of gcd one. *)
Lemma gcd_list_div (l : list Z) :
  0 < gcd_list l -> gcd_list (map (fun x => x / gcd_list l) l) = 1.
Proof.
  intros Hg. set (g := gcd_list l) in *.
  assert (Hl : map (Z.mul g) (map (fun x => x / g) l) = l).
  { rewrite map_map. rewrite <- (map_id l) at 2. apply List.map_ext_Forall.
    eapply List.Forall_impl; [|apply gcd_list_divides]. fold g.
    intros x Hx. symmetry. apply Znumtheory.Zdivide_Zdiv_eq; assumption. }
  pose proof (gcd_list_scale g (map (fun x => x / g) l) ltac:(lia)) as Hs.
  rewrite Hl in Hs. fold g in Hs. nia.
Qed.

Lemma reduce_mapping_values (data : Subdata) :
  map snd (reduce_mapping data)
  = if gcd_list (map snd data) <=? 1 then map snd data
    else map (fun x => x / gcd_list (map snd data)) (map snd data).
Proof.
  unfold reduce_mapping. destruct (_ <=? 1); [reflexivity|].
  rewrite !map_map. reflexivity.
Qed.

Lemma reduce_mapping_idempotent (data : Subdata) :
  reduce_mapping (reduce_mapping data) = reduce_mapping data.
Proof.
  unfold reduce_mapping at 1. rewrite reduce_mapping_values.
  destruct (Z.leb_spec (gcd_list (map snd data)) 1) as [Hle|Hgt].
  - unfold reduce_mapping. destruct (Z.leb_spec (gcd_list (map snd data)) 1);
      [|lia]. destruct (Z.leb_spec (gcd_list (map snd data)) 1); [reflexivity|lia].
  - rewrite gcd_list_div by lia. reflexivity.
Qed.

(** [merge_weights_reduce] is [merge_weights_lcm_joint] followed by
    [reduce]. *)
Lemma merge_weights_reduce_eq (subdatas : list Subdata) (weights : list Z) :
  merge_weights_reduce subdatas weights
  = reduce_mapping <$> merge_weights_lcm_joint subdatas weights.
Proof.
  unfold merge_weights_reduce.
  destruct (merge_weights_lcm_joint subdatas weights) as [data|e];
    [|reflexivity].
  cbn [mbind result_bind fmap result_fmap]. unfold reduce_mapping.
  destruct (Z.gtb_spec (gcd_list (map snd data)) 1),
           (Z.leb_spec (gcd_list (map snd data)) 1); try lia; reflexivity.
Qed.

End Reduction.

Section PolicyAgreement.

Import CreationArgs.

(** Mappings whose weights are in a positive ratio reduce to the same
    mapping. *)
Lemma proportional_reduce (c1 c2 : Z) (d1 d2 : Subdata) :
  0 < c1 -> 0 < c2 -> proportional c1 c2 d1 d2 ->
  reduce_mapping d1 = reduce_mapping d2.
Proof.
  intros Hc1 Hc2 Hp.
  set (g1 := gcd_list (map snd d1)). set (g2 := gcd_list (map snd d2)).
  assert (Hvals : map (Z.mul c2) (map snd d1) = map (Z.mul c1) (map snd d2)).
  { induction Hp as [|x y d1' d2' [_ Hv] _ IH]; simpl; [reflexivity|].
    rewrite Hv, IH. reflexivity. }
  assert (Hg : c2 * g1 = c1 * g2).
  { unfold g1, g2. rewrite <- !gcd_list_scale by lia. rewrite Hvals. reflexivity. }
  pose proof (gcd_list_nonneg (map snd d1)) as Hg1. fold g1 in Hg1.
  pose proof (gcd_list_nonneg (map snd d2)) as Hg2. fold g2 in Hg2.
  pose proof (gcd_list_divides (map snd d1)) as Hdiv1. fold g1 in Hdiv1.
  pose proof (gcd_list_divides (map snd d2)) as Hdiv2. fold g2 in Hdiv2.
  assert (Hpoint : forall v1 v2, (g1 | v1) -> (g2 | v2) -> c2 * v1 = c1 * v2 ->
            (if g1 <=? 1 then v1 else v1 / g1) = (if g2 <=? 1 then v2 else v2 / g2)).
  { intros v1 v2 [a ->] [b ->] Hv.
    assert (Hz : g1 = 0 <-> g2 = 0).
    { clearbody g1 g2. split; intros E; rewrite E in Hg.
      - rewrite Z.mul_0_r in Hg. symmetry in Hg.
        apply Z.mul_eq_0 in Hg. lia.
      - rewrite Z.mul_0_r in Hg. apply Z.mul_eq_0 in Hg. lia. }
    clearbody g1 g2.
    destruct (Z.eq_dec g1 0) as [E1|N1].
    - assert (E2 : g2 = 0) by tauto. rewrite E1, E2. simpl.
      rewrite !Z.mul_0_r. reflexivity.
    - assert (N2 : g2 <> 0) by tauto.
      assert (Hab : a = b).
      { apply (Z.mul_reg_l _ _ (c1 * g2)); [nia|].
        rewrite <- Hg at 1. lia. }
      subst b. rewrite !Z.div_mul by assumption.
      destruct (Z.leb_spec g1 1) as [L1|L1]; [replace g1 with 1 by lia|];
        (destruct (Z.leb_spec g2 1) as [L2|L2]; [replace g2 with 1 by lia|]);
        rewrite ?Z.mul_1_r; reflexivity. }
  unfold reduce_mapping. fold g1 g2.
  transitivity (map (fun ow => (fst ow, if g1 <=? 1 then snd ow else snd ow / g1)) d1).
  { destruct (g1 <=? 1); [|reflexivity]. rewrite <- (map_id d1) at 1.
    apply map_ext. intros [k v]. reflexivity. }
  transitivity (map (fun ow => (fst ow, if g2 <=? 1 then snd ow else snd ow / g2)) d2).
  2:{ destruct (g2 <=? 1); [|reflexivity]. rewrite <- (map_id d2) at 2.
      apply map_ext. intros [k v]. reflexivity. }
  clear Hvals Hg Hg1 Hg2. rewrite List.Forall_map in Hdiv1, Hdiv2.
  clearbody g1 g2.
  induction Hp as [|[k1 v1] [k2 v2] d1' d2' [Hk Hv] _ IH]; [reflexivity|].
  simpl in *. apply Forall_inv in Hdiv1 as Hh1. apply Forall_inv in Hdiv2 as Hh2.
  apply Forall_inv_tail in Hdiv1, Hdiv2.
  rewrite (Hpoint v1 v2 Hh1 Hh2 Hv), Hk, (IH Hdiv1 Hdiv2). reflexivity.
Qed.

End PolicyAgreement.

Section Policies.

Import CreationArgs.

Lemma prod_divides (l : list Z) (d : Z) : In d l -> (d | Py.prod l).
Proof.
  induction l as [|x l IH]; simpl; [tauto|]. unfold Py.prod in *. simpl.
  intros [->|Hin].
  - apply Z.divide_factor_l.
  - apply Z.divide_mul_r, IH, Hin.
Qed.

Lemma prod_pos (l : list Z) : Forall (fun d => 0 < d) l -> 0 < Py.prod l.
Proof. induction 1; unfold Py.prod in *; simpl; nia. Qed.

Lemma lcm_fold_divides (l : list Z) :
  forall acc, (acc | fold_left Z.lcm l acc) /\
              forall d, In d l -> (d | fold_left Z.lcm l acc).
Proof.
  induction l as [|x l IH]; intros acc; simpl.
  - split; [apply Z.divide_refl|tauto].
  - destruct (IH (Z.lcm acc x)) as [Hacc Hl]. split.
    + eapply Z.divide_trans; [apply Z.divide_lcm_l|exact Hacc].
    + intros d [<-|Hin]; [|apply Hl, Hin].
      eapply Z.divide_trans; [apply Z.divide_lcm_r|exact Hacc].
Qed.

Lemma lcm_fold_pos (l : list Z) :
  Forall (fun d => 0 < d) l -> forall acc, 0 < acc -> 0 < fold_left Z.lcm l acc.
Proof.
  induction 1 as [|x l Hx _ IH]; intros acc Hacc; simpl; [exact Hacc|].
  apply IH. pose proof (Z.lcm_nonneg acc x).
  pose proof (Z.lcm_eq_0 acc x). lia.
Qed.

Lemma filter_pos (l : list Z) :
  Forall (fun d => 0 < d) (List.filter (fun d => d >? 0) l).
Proof.
  apply List.Forall_forall. intros d Hd. apply filter_In in Hd as [_ Hd]. lia.
Qed.

Lemma joint_terms_pos (dens weights : list Z) :
  Forall (fun d => 0 < d) (joint_terms dens weights).
Proof.
  revert weights. induction dens as [|d dens IH]; intros [|w weights]; simpl;
    try constructor.
  destruct (Z.gtb_spec d 0) as [Hd|Hd]; [|apply IH]. constructor; [|apply IH].
  pose proof (Z.gcd_nonneg d w). pose proof (Z.gcd_divide_l d w) as [q Hq].
  assert (Z.gcd d w <> 0) by (intros E; apply Z.gcd_eq_0_l in E; lia).
  rewrite Hq at 1. rewrite Z.div_mul by assumption. nia.
Qed.

(** The three exactness conditions. *)
Lemma exact_of_divides (c : Z) (dens weights : list Z) :
  (forall d, In d dens -> 0 < d -> (d | c)) ->
  Forall (fun dw => 0 < fst dw -> (fst dw | c * snd dw)) (combine dens weights).
Proof.
  intros Hc. apply List.Forall_forall. intros [d w] Hin Hd. simpl in *.
  apply in_combine_l in Hin. apply Z.divide_mul_l, Hc; assumption.
Qed.

Lemma exact_joint (c : Z) (dens weights : list Z) :
  (forall t, In t (joint_terms dens weights) -> (t | c)) ->
  Forall (fun dw => 0 < fst dw -> (fst dw | c * snd dw)) (combine dens weights).
Proof.
  revert weights. induction dens as [|d dens IH]; intros [|w weights] Hc;
    simpl; try constructor.
  - simpl. intros Hd. simpl in Hc.
    destruct (Z.gtb_spec d 0); [|lia].
    destruct (Hc _ (or_introl eq_refl)) as [q Hq]. exists (q * (w / Z.gcd d w)).
    rewrite Hq, <- Z.mul_assoc, Z.gcd_div_swap. ring.
  - apply IH. intros t Ht. apply Hc. simpl.
    destruct (d >? 0); [right|]; exact Ht.
Qed.

Variable subdatas : list Subdata.
Variable weights : list Z.
Hypothesis Hsub : Forall (Forall (fun ow => 0 <= snd ow)) subdatas.

Lemma denominators_nonneg : Forall (fun d => 0 <= d) (denominators subdatas).
Proof.
  unfold denominators. apply List.Forall_map.
  eapply List.Forall_impl; [|exact Hsub]. intros sd Hsd.
  apply sum_nonneg, List.Forall_map. exact Hsd.
Qed.

Let P := Py.prod (List.filter (fun d => d >? 0) (denominators subdatas)).
Let L := lcm_list (List.filter (fun d => d >? 0) (denominators subdatas)).
Let J := lcm_list (joint_terms (denominators subdatas) weights).

Lemma P_pos : 0 < P.
Proof. apply prod_pos, filter_pos. Qed.

Lemma L_pos : 0 < L.
Proof. apply lcm_fold_pos; [apply filter_pos|lia]. Qed.

Lemma J_pos : 0 < J.
Proof. apply lcm_fold_pos; [apply joint_terms_pos|lia]. Qed.

Lemma exact_P :
  Forall (fun dw => 0 < fst dw -> (fst dw | P * snd dw))
    (combine (denominators subdatas) weights).
Proof.
  apply exact_of_divides. intros d Hin Hd. apply prod_divides.
  apply filter_In. split; [exact Hin|lia].
Qed.

Lemma exact_L :
  Forall (fun dw => 0 < fst dw -> (fst dw | L * snd dw))
    (combine (denominators subdatas) weights).
Proof.
  apply exact_of_divides. intros d Hin Hd. apply lcm_fold_divides.
  apply filter_In. split; [exact Hin|lia].
Qed.

Lemma exact_J :
  Forall (fun dw => 0 < fst dw -> (fst dw | J * snd dw))
    (combine (denominators subdatas) weights).
Proof. apply exact_joint. intros t Ht. apply lcm_fold_divides, Ht. Qed.

Lemma merge_with_proportional (c1 c2 : Z) :
  Forall (fun dw => 0 < fst dw -> (fst dw | c1 * snd dw))
    (combine (denominators subdatas) weights) ->
  Forall (fun dw => 0 < fst dw -> (fst dw | c2 * snd dw))
    (combine (denominators subdatas) weights) ->
  proportional c1 c2 (merge_with c1 subdatas weights)
    (merge_with c2 subdatas weights).
Proof.
  intros H1 H2. unfold merge_with.
  apply accumulate_proportional; [|constructor].
  apply factors_proportional; [apply denominators_nonneg|].
  apply List.Forall_forall. intros dw Hin Hd.
  rewrite List.Forall_forall in H1, H2. split; auto.
Qed.

Lemma policies_agree_aux :
  existsb (fun x => x <? 0) weights = false ->
  exists d_prod d_lcm d_joint d_reduce,
    merge_weights_funcs prod subdatas weights = Ok d_prod /\
    merge_weights_funcs lcm subdatas weights = Ok d_lcm /\
    merge_weights_funcs lcm_joint subdatas weights = Ok d_joint /\
    merge_weights_funcs reduce subdatas weights = Ok d_reduce /\
    reduce_mapping d_prod = reduce_mapping d_lcm /\
    reduce_mapping d_lcm = reduce_mapping d_joint /\
    reduce_mapping d_joint = reduce_mapping d_reduce.
Proof.
  intros Hw. cbn [merge_weights_funcs]. rewrite merge_weights_reduce_eq.
  unfold merge_weights_prod, merge_weights_lcm, merge_weights_lcm_joint.
  rewrite Hw. cbn [fmap result_fmap]. fold P L J.
  do 4 eexists. repeat (split; [reflexivity|]). repeat split.
  - apply (proportional_reduce P L); [apply P_pos|apply L_pos|].
    apply merge_with_proportional; [apply exact_P|apply exact_L].
  - apply (proportional_reduce L J); [apply L_pos|apply J_pos|].
    apply merge_with_proportional; [apply exact_L|apply exact_J].
  - symmetry. apply reduce_mapping_idempotent.
Qed.

End Policies.

(** C3. For sub-distributions with non-negative weights and non-negative
    merge weights, the four denominator policies all return a mapping, and
    the four mappings are identical once each is reduced by the gcd of its
    weights: same outcomes in the same order, same weights. *)
Theorem merge_policies_agree (subdatas : list CreationArgs.Subdata)
    (weights : list Z) :
  Forall (Forall (fun ow => 0 <= snd ow)) subdatas ->
  Forall (fun w => 0 <= w) weights ->
  exists d_prod d_lcm d_joint d_reduce,
    CreationArgs.merge_weights_funcs CreationArgs.prod subdatas weights
      = Ok d_prod /\
    CreationArgs.merge_weights_funcs CreationArgs.lcm subdatas weights
      = Ok d_lcm /\
    CreationArgs.merge_weights_funcs CreationArgs.lcm_joint subdatas weights
      = Ok d_joint /\
    CreationArgs.merge_weights_funcs CreationArgs.reduce subdatas weights
      = Ok d_reduce /\
    CreationArgs.reduce_mapping d_prod = CreationArgs.reduce_mapping d_lcm /\
    CreationArgs.reduce_mapping d_lcm = CreationArgs.reduce_mapping d_joint /\
    CreationArgs.reduce_mapping d_joint = CreationArgs.reduce_mapping d_reduce.
Proof.
  intros Hsub Hw. apply policies_agree_aux; [exact Hsub|].
  apply existsb_neg_false, Hw.
Qed.

Lemma merge_policies_agree_witness :
  CreationArgs.reduce_mapping <$>
    CreationArgs.merge_weights_funcs CreationArgs.prod
      [[(1, 1); (2, 1)]; [(1, 1); (2, 1); (3, 1); (4, 1)]] [2; 2]
  = CreationArgs.reduce_mapping <$>
      CreationArgs.merge_weights_funcs CreationArgs.lcm
        [[(1, 1); (2, 1)]; [(1, 1); (2, 1); (3, 1); (4, 1)]] [2; 2] /\
  CreationArgs.reduce_mapping <$>
    CreationArgs.merge_weights_funcs CreationArgs.lcm
      [[(1, 1); (2, 1)]; [(1, 1); (2, 1); (3, 1); (4, 1)]] [2; 2]
  = CreationArgs.reduce_mapping <$>
      CreationArgs.merge_weights_funcs CreationArgs.reduce
        [[(1, 1); (2, 1)]; [(1, 1); (2, 1); (3, 1); (4, 1)]] [2; 2].
Proof.
  destruct (merge_policies_agree
              [[(1, 1); (2, 1)]; [(1, 1); (2, 1); (3, 1); (4, 1)]] [2; 2])
    as (d1 & d2 & d3 & d4 & H1 & H2 & H3 & H4 & E1 & E2 & E3).
  - repeat (apply List.Forall_cons; [solve_nonneg|]). apply List.Forall_nil.
  - solve_nonneg.
  - rewrite H1, H2, H4. cbn [fmap result_fmap]. split; congruence.
Defined.

(** ** The evaluation returns *)

Section EvalTotal.


Lemma mapM_inv {A B : Type} (f : A -> result B) (l : list A) (ys : list B) :
  mapM f l = Ok ys -> Forall2 (fun x y => f x = Ok y) l ys.
Proof.
  revert ys. induction l as [|x l IH]; simpl; intros ys H.
  - injection H as <-. constructor.
  - apply bind_ok_inv in H as (y & Hy & H).
    apply bind_ok_inv in H as (ys' & Hys & H). injection H as <-.
    constructor; [exact Hy|apply IH, Hys].
Qed.










End EvalTotal.

Section EvalReturns.

Context {State : Type} `{Countable State}.
Variable self : EvalPool.t State.

(** [next_state] does not raise on the counts of [n] pools of which one at
    least has the outcome. *)
Variable n : nat.
Hypothesis next_state_ok :
  forall s o cs, length cs = n -> (exists c, In (Some c) cs) ->
                 exists s', EvalPool.next_state self s o cs = Ok s'.







End EvalReturns.

Section EvalKeyed.

Context {State : Type} `{Countable State}.
Variable self : EvalPool.t State.


End EvalKeyed.


Section SortedFacts.

Lemma insert_int_In (x y : Z) (l : list Z) :
  In y (Py.insert_int x l) <-> y = x \/ In y l.
Proof.
  induction l as [|z l IH]; simpl; [intuition|].
  destruct (x <=? z); simpl; [intuition|]. rewrite IH. intuition.
Qed.

Lemma sorted_In (y : Z) (l : list Z) : In y (Py.sorted l) <-> In y l.
Proof.
  induction l as [|x l IH]; simpl; [reflexivity|].
  rewrite insert_int_In, IH. intuition.
Qed.

Lemma insert_int_nondecreasing (x : Z) (l : list Z) :
  Py.nondecreasing l -> Py.nondecreasing (Py.insert_int x l).
Proof.
  induction l as [|y l IH]; intros Hl; simpl; [tauto|].
  destruct (Z.leb_spec x y) as [Hxy|Hxy].
  - simpl. split; [lia|exact Hl].
  - destruct Hl as [Hy Hl]. specialize (IH Hl).
    destruct l as [|z l]; simpl.
    + repeat split; lia.
    + simpl in IH. destruct (Z.leb_spec x z); simpl in *; (split; [lia|tauto]).
Qed.

Lemma sorted_nondecreasing (l : list Z) : Py.nondecreasing (Py.sorted l).
Proof.
  induction l as [|x l IH]; simpl; [exact I|].
  apply insert_int_nondecreasing, IH.
Qed.

Lemma sorted_id (l : list Z) : Py.nondecreasing l -> Py.sorted l = l.
Proof.
  induction l as [|x l IH]; intros Hl; simpl; [reflexivity|].
  destruct Hl as [Hx Hl]. rewrite (IH Hl).
  destruct l as [|y l]; simpl; [reflexivity|].
  destruct (Z.leb_spec x y); [reflexivity|lia].
Qed.

Lemma fold_min_spec (l : list Z) : forall a,
  (fold_left Z.min l a = a \/ In (fold_left Z.min l a) l) /\
  fold_left Z.min l a <= a /\ Forall (fun x => fold_left Z.min l a <= x) l.
Proof.
  induction l as [|x l IH]; intros a; simpl.
  - split; [left; reflexivity|]. split; [lia|constructor].
  - destruct (IH (Z.min a x)) as (Hin & Hle & Hall). split; [|split].
    + destruct Hin as [Hin|Hin]; [|right; right; exact Hin].
      destruct (Z.min_spec a x) as [[_ E]|[_ E]]; rewrite E in Hin |- *.
      * left; exact Hin.
      * right; left; symmetry; exact Hin.
    + lia.
    + constructor; [lia|exact Hall].
Qed.

Lemma min_spec (l : list Z) (m : Z) :
  Py.min l = Ok m -> In m l /\ Forall (fun x => m <= x) l.
Proof.
  destruct l as [|a l]; [discriminate|]. simpl. intros [= <-].
  destruct (fold_min_spec l a) as (Hin & Hle & Hall). split.
  - destruct Hin as [Hin|Hin]; [left; symmetry; exact Hin|right; exact Hin].
  - constructor; assumption.
Qed.

Lemma fold_max_spec (l : list Z) : forall a,
  (fold_left Z.max l a = a \/ In (fold_left Z.max l a) l) /\
  a <= fold_left Z.max l a /\ Forall (fun x => x <= fold_left Z.max l a) l.
Proof.
  induction l as [|x l IH]; intros a; simpl.
  - split; [left; reflexivity|]. split; [lia|constructor].
  - destruct (IH (Z.max a x)) as (Hin & Hle & Hall). split; [|split].
    + destruct Hin as [Hin|Hin]; [|right; right; exact Hin].
      destruct (Z.max_spec a x) as [[_ E]|[_ E]]; rewrite E in Hin |- *.
      * right; left; symmetry; exact Hin.
      * left; exact Hin.
    + lia.
    + constructor; [lia|exact Hall].
Qed.

Lemma max_spec (l : list Z) (m : Z) :
  Py.max l = Ok m -> In m l /\ Forall (fun x => x <= m) l.
Proof.
  destruct l as [|a l]; [discriminate|]. simpl. intros [= <-].
  destruct (fold_max_spec l a) as (Hin & Hle & Hall). split.
  - destruct Hin as [Hin|Hin]; [left; symmetry; exact Hin|right; exact Hin].
  - constructor; assumption.
Qed.

Lemma min_ok (l : list Z) : l <> [] -> exists m, Py.min l = Ok m.
Proof. destruct l; [congruence|]. intros _. eexists; reflexivity. Qed.

Lemma max_ok (l : list Z) : l <> [] -> exists m, Py.max l = Ok m.
Proof. destruct l; [congruence|]. intros _. eexists; reflexivity. Qed.

End SortedFacts.

Section PoolStandard.

(** What the normalisation of the max caps leaves. *)
Lemma max_caps_standard (die : Die.t) (hi mo : list Z) (m dm : Z) :
  Py.min hi = Ok m -> Die.max_outcome die = Ok dm -> (m <? dm) = true ->
  mo = Py.sorted (map (fun o => Z.min o dm) hi) ->
  length mo = length hi /\ Py.nondecreasing mo /\
  Forall (fun o => o <= dm) mo /\ Exists (fun o => o < dm) mo.
Proof.
  intros Hm Hdm Hlt ->. apply Z.ltb_lt in Hlt.
  rewrite sorted_length, length_map. split; [reflexivity|].
  split; [apply sorted_nondecreasing|]. split.
  - apply List.Forall_forall. intros x Hx. apply (proj1 (sorted_In _ _)) in Hx.
    apply in_map_iff in Hx as (y & <- & _). lia.
  - apply List.Exists_exists. exists (Z.min m dm). split; [|lia].
    apply sorted_In, in_map_iff. exists m. split; [reflexivity|].
    apply min_spec in Hm. tauto.
Qed.

Lemma min_caps_standard (die : Die.t) (lo mo : list Z) (m dm : Z) :
  Py.max lo = Ok m -> Die.min_outcome die = Ok dm -> (m >? dm) = true ->
  mo = Py.sorted (map (fun o => Z.max o dm) lo) ->
  length mo = length lo /\ Py.nondecreasing mo /\
  Forall (fun o => dm <= o) mo /\ Exists (fun o => dm < o) mo.
Proof.
  intros Hm Hdm Hlt ->. apply Z.gtb_lt in Hlt.
  rewrite sorted_length, length_map. split; [reflexivity|].
  split; [apply sorted_nondecreasing|]. split.
  - apply List.Forall_forall. intros x Hx. apply (proj1 (sorted_In _ _)) in Hx.
    apply in_map_iff in Hx as (y & <- & _). lia.
  - apply List.Exists_exists. exists (Z.max m dm). split; [|lia].
    apply sorted_In, in_map_iff. exists m. split; [reflexivity|].
    apply max_spec in Hm. tauto.
Qed.

(** The three rounds of the loop that computes [num_dice]. *)
Lemma merge_num_dice_inv (nd sl r : option Z) :
  Pool.merge_num_dice nd sl = Ok r ->
  match sl with
  | Some n => r = Some n /\ (forall k, nd = Some k -> k = n)
  | None => r = nd
  end.
Proof.
  unfold Pool.merge_num_dice. destruct sl as [n|]; [|intros [= <-]; reflexivity].
  destruct nd as [k|].
  - destruct (Z.eqb_spec k n); simpl; [|discriminate].
    intros [= <-]. split; [reflexivity|]. intros ? [= <-]. assumption.
  - intros [= <-]. split; [reflexivity|]. discriminate.
Qed.

Lemma merges_sizes (num_dice : option Z) (count_dice : option Pool.count_dice_arg)
    (min_outcomes max_outcomes : option (list Z)) (n1 n2 n3 : option Z) :
  Pool.merge_num_dice num_dice (Pool.seq_len count_dice) = Ok n1 ->
  Pool.merge_num_dice n1 (Py.len <$> min_outcomes) = Ok n2 ->
  Pool.merge_num_dice n2 (Py.len <$> max_outcomes) = Ok n3 ->
  Forall (fun n => default 0 n3 = n)
    (Pool.given_sizes num_dice count_dice min_outcomes max_outcomes).
Proof.
  intros E1 E2 E3. apply merge_num_dice_inv in E1, E2, E3.
  unfold Pool.given_sizes.
  destruct num_dice as [k|], (Pool.seq_len count_dice) as [sl|],
    min_outcomes as [lo|], max_outcomes as [hi|]; simpl in *;
    repeat match goal with
           | H : _ /\ _ |- _ => destruct H
           end; subst; simpl;
    repeat (apply List.Forall_cons); try apply List.Forall_nil;
    repeat match goal with
           | H : forall k, Some ?a = Some k -> _ |- _ =>
               specialize (H a eq_refl)
           end; try lia.
Qed.

Lemma Pool_inv (die : Die.t) (num_dice : option Z)
    (count_dice : option Pool.count_dice_arg)
    (min_outcomes max_outcomes : option (list Z)) (p : Pool.DicePool) :
  Pool.Pool die num_dice count_dice min_outcomes max_outcomes = Ok p ->
  Pool.die p = die /\ Pool.standard p /\
  Forall (fun n => Pool.num_dice p = Z.max 0 n)
    (Pool.given_sizes num_dice count_dice min_outcomes max_outcomes).
Proof.
  intros H. unfold Pool.Pool in H.
  apply bind_ok_inv in H as (n1 & E1 & H).
  apply bind_ok_inv in H as (n2 & E2 & H).
  apply bind_ok_inv in H as (n3 & E3 & H).
  apply bind_ok_inv in H as (cd & Ecd & H).
  apply bind_ok_inv in H as ([mi ma] & Ecaps & H).
  (* the sizes given *)
  assert (Hsizes : Forall (fun n => default 0 n3 = n)
            (Pool.given_sizes num_dice count_dice min_outcomes max_outcomes))
    by (eapply merges_sizes; eassumption).
  apply merge_num_dice_inv in E1, E2, E3.
  (* the length of the counts *)
  assert (Hcd : Py.len cd = Z.max 0 (default 0 n3)).
  { assert (Hseq : forall k, Pool.seq_len count_dice = Some k -> n3 = Some k).
    { intros k Hk. rewrite Hk in E1. destruct E1 as [-> _].
      destruct min_outcomes as [lo|], max_outcomes as [hi|]; simpl in *.
      - destruct E2 as [-> E2], E3 as [-> E3].
        pose proof (E2 _ eq_refl). pose proof (E3 _ eq_refl). congruence.
      - destruct E2 as [-> E2]. subst n3.
        pose proof (E2 _ eq_refl). congruence.
      - subst n2. destruct E3 as [-> E3].
        pose proof (E3 _ eq_refl). congruence.
      - subst. reflexivity. }
    destruct count_dice as [[i|start stop|seq|start stop step|seq]|].
    - apply compute_count_dice_length in Ecd. unfold Py.len. rewrite Ecd. lia.
    - apply compute_count_dice_length in Ecd. unfold Py.len. rewrite Ecd. lia.
    - simpl in Ecd. injection Ecd as <-. rewrite (Hseq _ eq_refl).
      simpl. unfold Py.len. lia.
    - apply compute_count_dice_length in Ecd. unfold Py.len. rewrite Ecd. lia.
    - cbn [Pool._compute_count_dice] in Ecd. apply checked_ints_ok in Ecd.
      subst seq. rewrite (Hseq _ eq_refl).
      simpl. unfold Py.len. rewrite length_map. lia.
    - injection Ecd as <-. unfold Py.repeat, Py.len. rewrite repeat_length. lia. }
  (* the caps *)
  assert (Hcaps :
    (mi = None \/ ma = None) ->
    (forall mo, ma = Some mo ->
       Py.len mo = default 0 n3 /\ Py.nondecreasing mo /\
       exists dm, Die.max_outcome die = Ok dm /\
         Forall (fun o => o <= dm) mo /\ Exists (fun o => o < dm) mo) /\
    (forall mo, mi = Some mo ->
       Py.len mo = default 0 n3 /\ Py.nondecreasing mo /\
       exists dm, Die.min_outcome die = Ok dm /\
         Forall (fun o => dm <= o) mo /\ Exists (fun o => dm < o) mo)).
  { intros _.
    destruct (Z.eqb_spec (default 0 n3) 0) as [Hz|Hnz].
    { injection Ecaps as <- <-. split; intros mo; discriminate. }
    apply bind_ok_inv in Ecaps as (mi' & Emi & Ecaps).
    apply bind_ok_inv in Ecaps as (ma' & Ema & Ecaps).
    injection Ecaps as -> ->. split.
    - intros mo ->. destruct max_outcomes as [hi|]; [|discriminate].
      apply bind_ok_inv in Ema as (m & Em & Ema).
      apply bind_ok_inv in Ema as (dm & Edm & Ema).
      destruct (m <? dm) eqn:Hlt; [|discriminate]. injection Ema as Ema.
      destruct (max_caps_standard die hi mo m dm Em Edm Hlt (eq_sym Ema))
        as (Hl & Hs & Hf & He).
      simpl in E3. destruct E3 as [-> _]. simpl.
      split; [unfold Py.len; lia|]. split; [exact Hs|]. eauto.
    - intros mo ->. destruct min_outcomes as [lo|]; [|discriminate].
      apply bind_ok_inv in Emi as (m & Em & Emi).
      apply bind_ok_inv in Emi as (dm & Edm & Emi).
      destruct (m >? dm) eqn:Hlt; [|discriminate]. injection Emi as Emi.
      destruct (min_caps_standard die lo mo m dm Em Edm Hlt (eq_sym Emi))
        as (Hl & Hs & Hf & He).
      assert (default 0 n3 = Py.len lo) as ->.
      { pose proof (List.Forall_forall (fun n => default 0 n3 = n)
          (Pool.given_sizes num_dice count_dice (Some lo) max_outcomes)) as [HF _].
        apply (HF Hsizes). unfold Pool.given_sizes.
        apply list_elem_of_In, list_elem_of_omap. exists (Some (Py.len lo)).
        split; [|reflexivity]. apply list_elem_of_In. simpl. tauto. }
      split; [unfold Py.len; lia|]. split; [exact Hs|]. eauto. }
  assert (Hp : p = Pool.mk die cd mi ma /\ (mi = None \/ ma = None)).
  { destruct mi, ma; try discriminate; injection H as <-; split; auto. }
  destruct Hp as [-> Hone]. specialize (Hcaps Hone). destruct Hcaps as [Hma Hmi].
  split; [reflexivity|]. split.
  - split; [exact Hone|]. unfold Pool.die. simpl. split.
    + intros mo E. destruct (Hma mo E) as (Hl & Hrest). split; [|exact Hrest].
      unfold Py.len in *. lia.
    + intros mo E. destruct (Hmi mo E) as (Hl & Hrest). split; [|exact Hrest].
      unfold Py.len in *. lia.
  - unfold Pool.num_dice. simpl. rewrite Hcd.
    eapply List.Forall_impl; [|exact Hsizes]. simpl. intros a <-. reflexivity.
Qed.

End PoolStandard.

Section PoolCaps.

(** A cap that restricts nothing does not reach the pool. *)
Lemma Pool_caps_dropped (die : Die.t) (num_dice : option Z)
    (count_dice : option Pool.count_dice_arg)
    (min_outcomes max_outcomes : option (list Z)) (p : Pool.DicePool) :
  Pool.Pool die num_dice count_dice min_outcomes max_outcomes = Ok p ->
  (forall lo a die_min,
     min_outcomes = Some lo -> Py.max lo = Ok a ->
     Die.min_outcome die = Ok die_min -> a <= die_min ->
     Pool._min_outcomes p = None) /\
  (forall hi b die_max,
     max_outcomes = Some hi -> Py.min hi = Ok b ->
     Die.max_outcome die = Ok die_max -> die_max <= b ->
     Pool._max_outcomes p = None).
Proof.
  intros H. unfold Pool.Pool in H.
  apply bind_ok_inv in H as (n1 & _ & H).
  apply bind_ok_inv in H as (n2 & _ & H).
  apply bind_ok_inv in H as (n3 & _ & H).
  apply bind_ok_inv in H as (cd & _ & H).
  apply bind_ok_inv in H as ([mi ma] & Ecaps & H).
  assert (Hp : Pool._min_outcomes p = mi /\ Pool._max_outcomes p = ma).
  { destruct mi, ma; try discriminate; injection H as <-; split; reflexivity. }
  destruct Hp as [-> ->]. clear H.
  destruct (default 0 n3 =? 0).
  { injection Ecaps as <- <-. split; intros; reflexivity. }
  apply bind_ok_inv in Ecaps as (mi' & Emi & Ecaps).
  apply bind_ok_inv in Ecaps as (ma' & Ema & Ecaps).
  injection Ecaps as <- <-. split.
  - intros lo a die_min -> Ha Hmin Hle. rewrite Ha, Hmin in Emi.
    cbn [mbind result_bind] in Emi.
    destruct (Z.gtb_spec a die_min); [lia|]. injection Emi as <-. reflexivity.
  - intros hi b die_max -> Hb Hmax Hle. rewrite Hb, Hmax in Ema.
    cbn [mbind result_bind] in Ema.
    destruct (Z.ltb_spec b die_max); [lia|]. injection Ema as <-. reflexivity.
Qed.

(** With both caps given, one of which restricts nothing, the default
    pool is built. *)
Lemma Pool_ineffective_builds (die : Die.t) (lo hi : list Z) (die_min die_max : Z) :
  length lo = length hi ->
  Die.min_outcome die = Ok die_min -> Die.max_outcome die = Ok die_max ->
  Forall (fun o => o <= die_min) lo \/ Forall (fun o => die_max <= o) hi ->
  exists p, Pool.Pool die None None (Some lo) (Some hi) = Ok p.
Proof.
  intros Hlen Hmin Hmax Hin. unfold Pool.Pool, Pool.seq_len, Pool.merge_num_dice.
  cbn [mbind result_bind fmap option_fmap option_map default].
  unfold Py.len at 1 2. rewrite Hlen, Z.eqb_refl.
  cbn [negb mbind result_bind default].
  change (id (Py.len ?x)) with (Py.len x).
  destruct (Z.eqb_spec (Py.len hi) 0) as [Hz|Hnz].
  { cbn [mbind result_bind]. eauto. }
  assert (Hhi : hi <> []) by (intros ->; apply Hnz; reflexivity).
  assert (Hlo : lo <> []).
  { intros ->. destruct hi; [congruence|discriminate]. }
  destruct (max_ok lo Hlo) as [a Ha]. destruct (min_ok hi Hhi) as [b Hb].
  rewrite Ha, Hb, Hmin, Hmax. cbn [mbind result_bind].
  destruct (max_spec lo a Ha) as [Hina _]. destruct (min_spec hi b Hb) as [Hinb _].
  destruct Hin as [Hall|Hall]; rewrite List.Forall_forall in Hall.
  - specialize (Hall a Hina). cbv beta in Hall.
    destruct (Z.gtb_spec a die_min); [lia|]. cbn [mbind result_bind].
    destruct (b <? die_max); cbn [mbind result_bind]; eauto.
  - specialize (Hall b Hinb). cbv beta in Hall.
    destruct (Z.ltb_spec b die_max); [lia|].
    destruct (a >? die_min); cbn [mbind result_bind]; eauto.
Qed.

End PoolCaps.

(** C8, amended.  No constructed pool carries both caps, and a pool of
    no dice carries none: a cap that restricts nothing, no min outcome
    lying above the die's min outcome or no max outcome below the die's
    max outcome, is dropped, and with such a cap beside the other one the
    default pool is built.  [Pool] raises when both [min_outcomes] and
    [max_outcomes] are given and both are effective; the error is the
    [ValueError] of the cap check, of a conflict between the lengths or
    of a slice of step 0, unless [count_dice] is an [int] out of range,
    an [IndexError], or a sequence with an entry that is not an [int], a
    [TypeError]. *)
Theorem pool_caps_exclusive (die : Die.t) (num_dice : option Z)
    (count_dice : option Pool.count_dice_arg)
    (min_outcomes max_outcomes : option (list Z)) :
  (forall p, Pool.Pool die num_dice count_dice min_outcomes max_outcomes = Ok p ->
     (Pool._min_outcomes p = None \/ Pool._max_outcomes p = None) /\
     (Pool.num_dice p = 0 ->
      Pool._min_outcomes p = None /\ Pool._max_outcomes p = None) /\
     (forall lo a die_min,
        min_outcomes = Some lo -> Py.max lo = Ok a ->
        Die.min_outcome die = Ok die_min -> a <= die_min ->
        Pool._min_outcomes p = None) /\
     (forall hi b die_max,
        max_outcomes = Some hi -> Py.min hi = Ok b ->
        Die.max_outcome die = Ok die_max -> die_max <= b ->
        Pool._max_outcomes p = None)) /\
  (forall lo hi a b die_min die_max,
      min_outcomes = Some lo -> max_outcomes = Some hi ->
      Py.max lo = Ok a -> Py.min hi = Ok b ->
      Die.min_outcome die = Ok die_min -> Die.max_outcome die = Ok die_max ->
      die_min < a -> b < die_max ->
      exists e,
        Pool.Pool die num_dice count_dice min_outcomes max_outcomes = Raise e /\
        (e = ValueError \/
         (e = IndexError /\
          exists i, count_dice = Some (Pool.CdInt i) /\
                    ~ (- Py.len lo <= i < Py.len lo)) \/
         (e = TypeError /\
          exists l, count_dice = Some (Pool.CdEntries l) /\
                    In Pool.ENotInt l))) /\
  (forall lo hi die_min die_max,
      num_dice = None -> count_dice = None ->
      min_outcomes = Some lo -> max_outcomes = Some hi ->
      length lo = length hi ->
      Die.min_outcome die = Ok die_min -> Die.max_outcome die = Ok die_max ->
      Forall (fun o => o <= die_min) lo \/ Forall (fun o => die_max <= o) hi ->
      exists p,
        Pool.Pool die num_dice count_dice min_outcomes max_outcomes = Ok p).
Proof.
  split; [|split].
  - intros p H. destruct (Pool_inv _ _ _ _ _ _ H) as (_ & (Hone & Hma & Hmi) & _).
    destruct (Pool_caps_dropped _ _ _ _ _ _ H) as [Hlo Hhi].
    split; [exact Hone|]. split; [|split; assumption].
    intros Hz. unfold Pool.num_dice, Py.len in Hz.
    assert (Hnil : length (Pool._count_dice p) = 0%nat) by lia.
    split.
    + destruct (Pool._min_outcomes p) as [mo|] eqn:E; [|reflexivity].
      destruct (Hmi mo eq_refl) as (Hl & _ & dm & _ & _ & He).
      rewrite Hnil in Hl. destruct mo; [inversion He|discriminate].
    + destruct (Pool._max_outcomes p) as [mo|] eqn:E; [|reflexivity].
      destruct (Hma mo eq_refl) as (Hl & _ & dm & _ & _ & He).
      rewrite Hnil in Hl. destruct mo; [inversion He|discriminate].
  - intros lo hi a b die_min die_max -> -> Ha Hb Hmin Hmax Hlt1 Hlt2.
    unfold Pool.Pool.
    destruct (Pool.merge_num_dice num_dice _) as [n1|e] eqn:E1;
      [|apply merge_num_dice_raises in E1; subst; eauto].
    cbn [mbind result_bind fmap option_fmap option_map].
    destruct (Pool.merge_num_dice n1 (Some (Py.len lo))) as [n2|e] eqn:E2;
      [|apply merge_num_dice_raises in E2; subst; eauto].
    apply merge_num_dice_some in E2. subst n2.
    cbn [mbind result_bind].
    destruct (Pool.merge_num_dice (Some (Py.len lo)) (Some (Py.len hi)))
      as [n3|e] eqn:E3;
      [|apply merge_num_dice_raises in E3; subst; eauto].
    assert (Hlen : Py.len lo = Py.len hi).
    { unfold Pool.merge_num_dice in E3.
      destruct (Z.eqb_spec (Py.len lo) (Py.len hi)); [assumption|].
      simpl in E3. discriminate. }
    apply merge_num_dice_some in E3. subst n3.
    cbn [mbind result_bind default].
    match goal with |- context [mbind _ ?c = _] =>
      destruct c as [cd|e] eqn:Ecd end.
    2:{ exists e. split; [reflexivity|].
        destruct count_dice as [c|]; [|discriminate].
        assert (Hmax0 : Z.max 0 (Py.len hi) = Py.len lo)
          by (rewrite Hlen; unfold Py.len; lia).
        apply compute_count_dice_raises in Ecd
          as [[-> (i & -> & Hi)]|[[-> _]|[-> (l & -> & Hl)]]].
        - right. left. split; [reflexivity|]. exists i. split; [reflexivity|].
          intros Hc. apply Hi. cbn [default id]. unfold id. lia.
        - left. reflexivity.
        - right. right. split; [reflexivity|]. eauto. }
    change (id (Py.len hi)) with (Py.len hi).
    destruct (Z.eqb_spec (Py.len hi) 0) as [Hz|Hnz].
    { rewrite <- Hlen in Hz. apply len_zero_nil in Hz. subst lo. discriminate. }
    rewrite Ha, Hb, Hmin, Hmax. cbn [mbind result_bind].
    destruct (Z.gtb_spec a die_min); [|lia].
    destruct (Z.ltb_spec b die_max); [|lia].
    cbn [mbind result_bind]. eauto.
  - intros lo hi die_min die_max -> -> -> ->. apply Pool_ineffective_builds.
Qed.

Lemma pool_caps_exclusive_witness :
  (exists e,
     Pool.Pool (Die.mk None [(1, 1); (2, 1); (3, 1)]) None
       (Some (Pool.CdEntries [Pool.EInt 1; Pool.ENotInt])) (Some [2; 2]) (Some [2; 2])
     = Raise e /\
     (e = ValueError \/
      (e = IndexError /\
       exists i, Some (Pool.CdEntries [Pool.EInt 1; Pool.ENotInt]) = Some (Pool.CdInt i) /\
                 ~ (- Py.len [2; 2] <= i < Py.len [2; 2])) \/
      (e = TypeError /\
       exists l, Some (Pool.CdEntries [Pool.EInt 1; Pool.ENotInt])
                 = Some (Pool.CdEntries l) /\ In Pool.ENotInt l))) /\
  exists p,
    Pool.Pool (Die.mk None [(1, 1); (2, 1); (3, 1)]) None None
      (Some [1; 2]) (Some [3; 3]) = Ok p.
Proof.
  split.
  - apply (proj1 (proj2 (pool_caps_exclusive (Die.mk None [(1, 1); (2, 1); (3, 1)])
                    None (Some (Pool.CdEntries [Pool.EInt 1; Pool.ENotInt]))
                    (Some [2; 2]) (Some [2; 2])))
                 [2; 2] [2; 2] 2 2 1 3 eq_refl eq_refl eq_refl eq_refl eq_refl eq_refl);
      lia.
  - apply (proj2 (proj2 (pool_caps_exclusive (Die.mk None [(1, 1); (2, 1); (3, 1)])
                    None None (Some [1; 2]) (Some [3; 3])))
                 [1; 2] [3; 3] 1 3 eq_refl eq_refl eq_refl eq_refl eq_refl
                 eq_refl eq_refl).
    right. repeat constructor; lia.
Defined.

Section PoolFactory.


(** Two sizes that differ, among the sizes the arguments give, are a
    [ValueError]: whichever arguments they come from, and before anything
    else about the arguments is looked at. *)
Theorem pool_factory_conflicting_sizes (die : Die.t) (num_dice : option Z)
    (count_dice : option Pool.count_dice_arg)
    (min_outcomes max_outcomes : option (list Z)) (a b : Z) :
  In a (Pool.given_sizes num_dice count_dice min_outcomes max_outcomes) ->
  In b (Pool.given_sizes num_dice count_dice min_outcomes max_outcomes) ->
  a <> b ->
  Pool.Pool die num_dice count_dice min_outcomes max_outcomes = Raise ValueError.
Proof.
  intros Ha Hb Hab. unfold Pool.Pool.
  destruct (Pool.merge_num_dice num_dice _) as [n1|e] eqn:E1;
    [|apply merge_num_dice_raises in E1; subst; reflexivity].
  cbn [mbind result_bind].
  destruct (Pool.merge_num_dice n1 _) as [n2|e] eqn:E2;
    [|apply merge_num_dice_raises in E2; subst; reflexivity].
  cbn [mbind result_bind].
  destruct (Pool.merge_num_dice n2 _) as [n3|e] eqn:E3;
    [|apply merge_num_dice_raises in E3; subst; reflexivity].
  exfalso. apply Hab.
  pose proof (merges_sizes _ _ _ _ _ _ _ E1 E2 E3) as HF.
  pose proof (proj1 (List.Forall_forall _ _) HF) as HF'.
  rewrite <- (HF' a Ha). apply HF'. exact Hb.
Qed.

End PoolFactory.

Section CountDice.

Lemma sum_repeat_Z (x n : Z) : 0 <= n -> Py.sum (Py.repeat x n) = n * x.
Proof.
  intros Hn. unfold Py.repeat. rewrite sum_repeat, Z2Nat.id by lia. reflexivity.
Qed.

Lemma sum_insert (j : nat) (x : Z) (l : list Z) :
  (j < length l)%nat -> Py.sum (<[j:=x]> l) = Py.sum l - nth j l 0 + x.
Proof.
  revert j. induction l as [|y l IH]; intros j Hj; simpl in Hj; [lia|].
  destruct j as [|j]; simpl; [lia|]. rewrite IH by lia. lia.
Qed.

Lemma nth_insert (j k : nat) (x d : Z) (l : list Z) :
  (j < length l)%nat ->
  nth k (<[j:=x]> l) d = if Nat.eqb k j then x else nth k l d.
Proof.
  revert j k. induction l as [|y l IH]; intros j k Hj; simpl in Hj; [lia|].
  destruct j as [|j], k as [|k]; simpl; try reflexivity.
  apply IH. lia.
Qed.

Lemma nth_repeat_Z (x d : Z) (n k : nat) :
  (k < n)%nat -> nth k (List.repeat x n) d = x.
Proof.
  revert k. induction n as [|n IH]; intros k Hk; [lia|].
  destruct k; simpl; [reflexivity|]. apply IH. lia.
Qed.

Lemma compute_count_dice_index_ok (n i : Z) :
  0 <= n -> - n <= i < n ->
  Pool._compute_count_dice n (Pool.CdInt i)
  = Ok (<[Z.to_nat (i mod n) := 1]> (List.repeat 0 (Z.to_nat n))).
Proof.
  intros Hn Hi. unfold Pool._compute_count_dice, Py.repeat, Py.len.
  rewrite repeat_length, Z2Nat.id by lia.
  destruct (Z.ltb_spec i n); [|lia]. destruct (Z.leb_spec (- n) i); [|lia].
  cbn [andb]. do 3 f_equal.
  destruct (Z.ltb_spec i 0).
  - replace i with (n + i + (-1) * n) at 2 by lia.
    rewrite Z.mod_add by lia. rewrite Z.mod_small by lia. reflexivity.
  - rewrite Z.mod_small by lia. reflexivity.
Qed.

(** An int selects one die, counting from the end when negative; out of
    range it is an [IndexError]. *)
Theorem compute_count_dice_index (n i : Z) :
  0 <= n ->
  (- n <= i < n ->
   exists l, Pool._compute_count_dice n (Pool.CdInt i) = Ok l /\
     Py.len l = n /\ Py.sum l = 1 /\
     forall k, 0 <= k < n ->
       nth (Z.to_nat k) l 0 = if k =? i mod n then 1 else 0) /\
  (~ (- n <= i < n) ->
   Pool._compute_count_dice n (Pool.CdInt i) = Raise IndexError).
Proof.
  intros Hn. split.
  - intros Hi. eexists. split; [apply compute_count_dice_index_ok; assumption|].
    assert (Hm : 0 <= i mod n < n) by (apply Z.mod_pos_bound; lia).
    split; [|split].
    + unfold Py.len. rewrite length_insert, repeat_length. lia.
    + rewrite sum_insert by (rewrite repeat_length; lia).
      rewrite sum_repeat, nth_repeat_Z by lia. lia.
    + intros k Hk. rewrite nth_insert by (rewrite repeat_length; lia).
      destruct (Z.eqb_spec k (i mod n)) as [->|Hne].
      * rewrite Nat.eqb_refl. reflexivity.
      * destruct (Nat.eqb_spec (Z.to_nat k) (Z.to_nat (i mod n))); [lia|].
        apply nth_repeat_Z. lia.
  - intros Hi. unfold Pool._compute_count_dice, Py.repeat, Py.len.
    rewrite repeat_length, Z2Nat.id by lia.
    destruct (Z.ltb_spec i n); [|reflexivity].
    destruct (Z.leb_spec (- n) i); [lia|reflexivity].
Qed.

Lemma compute_count_dice_index_witness :
  exists l, Pool._compute_count_dice 3 (Pool.CdInt (-1)) = Ok l /\
    Py.len l = 3 /\ Py.sum l = 1 /\
    forall k, 0 <= k < 3 ->
      nth (Z.to_nat k) l 0 = if k =? (-1) mod 3 then 1 else 0.
Proof.
  apply (proj1 (compute_count_dice_index 3 (-1) ltac:(lia))). lia.
Defined.

Lemma firstn_repeat {A : Type} (x : A) (k n : nat) :
  firstn k (List.repeat x n) = List.repeat x (Nat.min k n).
Proof.
  revert k. induction n as [|n IH]; intros [|k]; simpl; try reflexivity.
  f_equal. apply IH.
Qed.

Lemma skipn_repeat {A : Type} (x : A) (k n : nat) :
  skipn k (List.repeat x n) = List.repeat x (n - k).
Proof.
  revert k. induction n as [|n IH]; intros [|k]; simpl; try reflexivity.
  apply IH.
Qed.

(** The bounds a slice without step reads on a sequence of length [n]. *)

Lemma compute_count_dice_slice_shape (n : Z) (start stop : option Z) :
  0 <= n ->
  Pool._compute_count_dice n (Pool.CdSlice start stop)
  = Ok (Py.repeat 0 (slice_lo n start)
          ++ Py.repeat 1 (slice_hi n stop - slice_lo n start)
          ++ Py.repeat 0 (n - Z.max (slice_lo n start) (slice_hi n stop))).
Proof.
  intros Hn. unfold Pool._compute_count_dice, Py.slice.
  assert (HN : Py.len (Py.repeat 0 n) = n)
    by (unfold Py.len, Py.repeat; rewrite repeat_length; lia).
  rewrite !HN.
  fold (slice_lo n start). fold (slice_hi n stop).
  assert (Hlo : 0 <= slice_lo n start <= n)
    by (unfold slice_lo; destruct start; [apply clamp_bounds|]; lia).
  assert (Hhi : 0 <= slice_hi n stop <= n)
    by (unfold slice_hi; destruct stop; [apply clamp_bounds|]; lia).
  set (lo := slice_lo n start) in *. set (hi := slice_hi n stop) in *.
  clearbody lo hi. clear HN.
  unfold Py.repeat, Py.len.
  rewrite !skipn_repeat, !firstn_repeat, !repeat_length.
  f_equal. f_equal; [f_equal; lia|]. f_equal; f_equal; lia.
Qed.

End CountDice.

Section CountDiceSlices.

Lemma len_app {A : Type} (l1 l2 : list A) : Py.len (l1 ++ l2) = Py.len l1 + Py.len l2.
Proof. unfold Py.len. rewrite length_app. lia. Qed.

Lemma len_repeat {A : Type} (x : A) (n : Z) : Py.len (Py.repeat x n) = Z.max 0 n.
Proof. unfold Py.len, Py.repeat. rewrite repeat_length. lia. Qed.

Lemma sum_repeat_max (x n : Z) : Py.sum (Py.repeat x n) = Z.max 0 n * x.
Proof.
  unfold Py.repeat. rewrite sum_repeat. f_equal. lia.
Qed.

Lemma slice_indices_bounds (n : Z) (start stop : option Z) (step : Z) :
  0 <= n ->
  let ab := Py.slice_indices n start stop step in
  if step <? 0 then -1 <= fst ab <= n - 1 /\ -1 <= snd ab <= n - 1
  else 0 <= fst ab <= n /\ 0 <= snd ab <= n.
Proof.
  intros Hn. unfold Py.slice_indices. cbv zeta. cbn [fst snd].
  destruct (Z.ltb_spec step 0); destruct start as [s|], stop as [t|];
    repeat match goal with
           | |- context [if ?v <? 0 then _ else _] => destruct (Z.ltb_spec v 0)
           end; lia.
Qed.

Lemma range_step_In (a b step k : Z) :
  In k (Py.range_step a b step) <->
  exists i : nat,
    k = a + Z.of_nat i * step /\
    (Z.of_nat i <
     if step >? 0 then
       if a <? b then (b - a - 1) / step + 1 else 0
     else
       if b <? a then (a - b - 1) / (- step) + 1 else 0).
Proof.
  unfold Py.range_step. cbv zeta. rewrite in_map_iff. split.
  - intros (i & <- & Hi). apply in_seq in Hi. exists i. split; [reflexivity|]. lia.
  - intros (i & -> & Hi). exists i. split; [reflexivity|]. apply in_seq. lia.
Qed.

Lemma range_step_bounds (n a b step : Z) :
  step <> 0 ->
  (if step <? 0 then -1 <= a <= n - 1 /\ -1 <= b <= n - 1
   else 0 <= a <= n /\ 0 <= b <= n) ->
  Forall (fun i => 0 <= i < n) (Py.range_step a b step).
Proof.
  intros Hs Hab. apply List.Forall_forall. intros k Hk.
  apply range_step_In in Hk as (i & -> & Hi).
  destruct (Z.ltb_spec step 0) as [Hneg|Hpos].
  - destruct (Z.gtb_spec step 0); [lia|].
    destruct (Z.ltb_spec b a); [|lia].
    assert (Hd : - step * ((a - b - 1) / - step) <= a - b - 1)
      by (apply Z.mul_div_le; lia).
    assert (Hi' : Z.of_nat i <= (a - b - 1) / - step) by lia.
    assert (Hm : Z.of_nat i * - step <= (a - b - 1) / - step * - step)
      by (apply Z.mul_le_mono_nonneg_r; lia).
    nia.
  - destruct (Z.gtb_spec step 0); [|lia].
    destruct (Z.ltb_spec a b); [|lia].
    assert (Hd : step * ((b - a - 1) / step) <= b - a - 1)
      by (apply Z.mul_div_le; lia).
    assert (Hi' : Z.of_nat i <= (b - a - 1) / step) by lia.
    assert (Hm : Z.of_nat i * step <= (b - a - 1) / step * step)
      by (apply Z.mul_le_mono_nonneg_r; lia).
    nia.
Qed.

Lemma nth_fold_insert (ps : list Z) :
  forall (l : list Z) (k : nat),
  Forall (fun i => 0 <= i < Z.of_nat (length l)) ps ->
  (k < length l)%nat ->
  nth k (fold_left (fun result i => <[Z.to_nat i := 1]> result) ps l) 0
  = if existsb (Z.eqb (Z.of_nat k)) ps then 1 else nth k l 0.
Proof.
  induction ps as [|i ps IH]; intros l k Hps Hk; [reflexivity|].
  apply List.Forall_cons_iff in Hps as [Hi Hps].
  cbn [fold_left existsb]. rewrite IH.
  - rewrite nth_insert by lia.
    destruct (existsb (Z.eqb (Z.of_nat k)) ps); [rewrite orb_true_r; reflexivity|].
    rewrite orb_false_r.
    destruct (Nat.eqb_spec k (Z.to_nat i)); destruct (Z.eqb_spec (Z.of_nat k) i);
      try reflexivity; lia.
  - rewrite length_insert. exact Hps.
  - rewrite length_insert. exact Hk.
Qed.

Lemma nth_zeros_ones_zeros (a b c k : nat) :
  nth k (List.repeat 0 a ++ List.repeat 1 b ++ List.repeat 0 c) 0
  = if (a <=? k)%nat && (k <? a + b)%nat then 1 else 0.
Proof.
  destruct (Nat.leb_spec a k) as [Hak|Hak]; cbn [andb].
  - rewrite app_nth2 by (rewrite repeat_length; lia). rewrite repeat_length.
    destruct (Nat.ltb_spec k (a + b)) as [Hkb|Hkb].
    + rewrite app_nth1 by (rewrite repeat_length; lia).
      apply nth_repeat_Z. lia.
    + rewrite app_nth2 by (rewrite repeat_length; lia). rewrite repeat_length.
      destruct (Nat.ltb_spec (k - a - b) c);
        [apply nth_repeat_Z; assumption|].
      apply nth_overflow. rewrite repeat_length. lia.
  - rewrite app_nth1 by (rewrite repeat_length; lia). apply nth_repeat_Z. lia.
Qed.

Lemma existsb_range_1 (a b k : Z) :
  existsb (Z.eqb k) (Py.range_step a b 1) = (a <=? k) && (k <? b).
Proof.
  apply eq_true_iff_eq. rewrite existsb_exists, andb_true_iff, Z.leb_le, Z.ltb_lt.
  split.
  - intros (x & Hx & E). apply Z.eqb_eq in E. subst x.
    apply range_step_In in Hx as (i & -> & Hi). change (1 >? 0) with true in Hi.
    cbv iota in Hi. rewrite Z.div_1_r in Hi.
    destruct (Z.ltb_spec a b); lia.
  - intros [Hak Hkb]. exists k. split; [|apply Z.eqb_refl].
    apply range_step_In. exists (Z.to_nat (k - a)). split; [lia|].
    change (1 >? 0) with true. cbv iota. rewrite Z.div_1_r.
    destruct (Z.ltb_spec a b); lia.
Qed.

(** A slice without a step selects the dice from its lower to its upper
    bound, once each: zeros, ones, zeros.  A slice with a step selects the
    positions of [range] over its [indices], all of them dice of the
    pool, once each; with the step 1 they are those of the slice without
    a step, and the step 0 is a [ValueError]. *)
Theorem compute_count_dice_slice (n : Z) (start stop : option Z) :
  0 <= n ->
  let lo := slice_lo n start in
  let hi := slice_hi n stop in
  (exists l,
     Pool._compute_count_dice n (Pool.CdSlice start stop) = Ok l /\
     l = Py.repeat 0 lo ++ Py.repeat 1 (hi - lo) ++ Py.repeat 0 (n - Z.max lo hi) /\
     Py.len l = n /\ Py.sum l = Z.max 0 (hi - lo)) /\
  Pool._compute_count_dice n (Pool.CdSliceStep start stop 0) = Raise ValueError /\
  (forall step, step <> 0 ->
     let positions :=
       Py.range_step (fst (Py.slice_indices n start stop step))
         (snd (Py.slice_indices n start stop step)) step in
     Forall (fun i => 0 <= i < n) positions /\
     exists l,
       Pool._compute_count_dice n (Pool.CdSliceStep start stop step) = Ok l /\
       Py.len l = n /\
       forall k, 0 <= k < n ->
         nth (Z.to_nat k) l 0 = if existsb (Z.eqb k) positions then 1 else 0) /\
  Pool._compute_count_dice n (Pool.CdSliceStep start stop 1)
  = Pool._compute_count_dice n (Pool.CdSlice start stop).
Proof.
  intros Hn lo hi.
  assert (Hlo : 0 <= lo <= n)
    by (unfold lo, slice_lo; destruct start; [apply clamp_bounds|]; lia).
  assert (Hhi : 0 <= hi <= n)
    by (unfold hi, slice_hi; destruct stop; [apply clamp_bounds|]; lia).
  assert (Hlen0 : Py.len (Py.repeat 0 n) = n) by (rewrite len_repeat; lia).
  assert (Hstep : forall step, step <> 0 ->
    let positions :=
      Py.range_step (fst (Py.slice_indices n start stop step))
        (snd (Py.slice_indices n start stop step)) step in
    Forall (fun i => 0 <= i < n) positions /\
    Pool._compute_count_dice n (Pool.CdSliceStep start stop step)
    = Ok (fold_left (fun result i => <[Z.to_nat i := 1]> result) positions
            (Py.repeat 0 n))).
  { intros step Hs positions. split.
    - apply range_step_bounds; [exact Hs|].
      apply (slice_indices_bounds n start stop step Hn).
    - cbn [Pool._compute_count_dice]. cbv zeta. rewrite Hlen0.
      destruct (Z.eqb_spec step 0); [contradiction|].
      destruct (Py.slice_indices n start stop step) as [a b] eqn:E.
      reflexivity. }
  assert (Hnth : forall step, step <> 0 ->
    forall k, 0 <= k < n ->
    nth (Z.to_nat k)
      (fold_left (fun result i => <[Z.to_nat i := 1]> result)
         (Py.range_step (fst (Py.slice_indices n start stop step))
            (snd (Py.slice_indices n start stop step)) step)
         (Py.repeat 0 n)) 0
    = if existsb (Z.eqb k)
           (Py.range_step (fst (Py.slice_indices n start stop step))
              (snd (Py.slice_indices n start stop step)) step)
      then 1 else 0).
  { intros step Hs k Hk. destruct (Hstep step Hs) as [Hps _]. cbv zeta in Hps.
    rewrite nth_fold_insert.
    - rewrite Z2Nat.id by lia. unfold Py.repeat.
      rewrite nth_repeat_Z by lia. reflexivity.
    - unfold Py.repeat. rewrite repeat_length, Z2Nat.id by lia. exact Hps.
    - unfold Py.repeat. rewrite repeat_length. lia. }
  split; [|split; [|split]].
  - eexists. split; [apply compute_count_dice_slice_shape, Hn|].
    split; [reflexivity|]. fold lo hi. clearbody lo hi. split.
    + rewrite !len_app, !len_repeat. lia.
    + rewrite !sum_app, !sum_repeat_max. lia.
  - reflexivity.
  - intros step Hs positions. destruct (Hstep step Hs) as [Hps Hok].
    split; [exact Hps|]. eexists. split; [exact Hok|]. split.
    + unfold Py.len. rewrite fold_insert_length. unfold Py.repeat.
      rewrite repeat_length. lia.
    + apply Hnth, Hs.
  - destruct (Hstep 1 ltac:(lia)) as [_ Hok]. rewrite Hok.
    rewrite (compute_count_dice_slice_shape n start stop Hn). f_equal.
    fold lo hi. apply (nth_ext _ _ 0 0).
    + rewrite fold_insert_length. unfold Py.repeat.
      rewrite !length_app, !repeat_length. lia.
    + intros k Hk. rewrite fold_insert_length in Hk. unfold Py.repeat in Hk.
      rewrite repeat_length in Hk.
      rewrite <- (Nat2Z.id k) at 1. rewrite Hnth by lia.
      unfold Py.repeat. rewrite nth_zeros_ones_zeros, existsb_range_1.
      assert (Ea : fst (Py.slice_indices n start stop 1) = lo).
      { unfold Py.slice_indices, lo, slice_lo, Py.clamp. cbn [fst].
        change (1 <? 0) with false. cbv iota. destruct start as [s|]; [|reflexivity].
        destruct (Z.ltb_spec s 0); lia. }
      assert (Eb : snd (Py.slice_indices n start stop 1) = hi).
      { unfold Py.slice_indices, hi, slice_hi, Py.clamp. cbn [snd].
        change (1 <? 0) with false. cbv iota. destruct stop as [s|]; [|reflexivity].
        destruct (Z.ltb_spec s 0); lia. }
      rewrite Ea, Eb. clearbody lo hi.
      destruct (Z.leb_spec lo (Z.of_nat k)); destruct (Z.ltb_spec (Z.of_nat k) hi);
        destruct (Nat.leb_spec (Z.to_nat lo) k);
        destruct (Nat.ltb_spec k (Z.to_nat lo + Z.to_nat (hi - lo)));
        cbn [andb]; try reflexivity; lia.
Qed.

Lemma compute_count_dice_slice_witness :
  (exists l,
     Pool._compute_count_dice 5 (Pool.CdSlice (Some (-2)) None) = Ok l /\
     l = [0; 0; 0; 1; 1] /\ Py.len l = 5 /\ Py.sum l = 2) /\
  Pool._compute_count_dice 4 (Pool.CdSliceStep None None 2) = Ok [1; 0; 1; 0].
Proof.
  split.
  - exact (proj1 (compute_count_dice_slice 5 (Some (-2)) None ltac:(lia))).
  - destruct (proj1 (proj2 (proj2 (compute_count_dice_slice 4 None None ltac:(lia))))
                2 ltac:(lia)) as (_ & l & Hl & _ & _).
    rewrite Hl. apply f_equal. injection Hl as <-. reflexivity.
Defined.


(** [keep_highest] counts the [num_keep] dice below the [num_drop]
    highest, [keep_lowest] those above the [num_drop] lowest; with nothing
    to keep and nothing to drop, [keep_highest] counts every die. *)
Theorem keep_select_counts (n num_keep num_drop : Z) :
  0 <= num_keep -> 0 <= num_drop -> num_keep + num_drop <= n ->
  (1 <= num_keep + num_drop ->
   Pool._compute_count_dice n (BaseDie.keep_highest_select num_keep num_drop)
   = Ok (Py.repeat 0 (n - num_keep - num_drop) ++ Py.repeat 1 num_keep
           ++ Py.repeat 0 num_drop)) /\
  Pool._compute_count_dice n (BaseDie.keep_lowest_select num_keep num_drop)
  = Ok (Py.repeat 0 num_drop ++ Py.repeat 1 num_keep
          ++ Py.repeat 0 (n - num_keep - num_drop)) /\
  Pool._compute_count_dice n (BaseDie.keep_highest_select 0 0)
  = Ok (Py.repeat 1 n).
Proof.
  intros Hk Hd Hn. split; [|split].
  - intros H1. unfold BaseDie.keep_highest_select.
    rewrite compute_count_dice_slice_shape by lia.
    unfold slice_lo, slice_hi, Py.clamp.
    destruct (Z.ltb_spec (- (num_keep + num_drop)) 0); [|lia].
    destruct (Z.gtb_spec num_drop 0).
    + destruct (Z.ltb_spec (- num_drop) 0); [|lia].
      do 2 f_equal; [f_equal; lia|]. f_equal; f_equal; lia.
    + do 2 f_equal; [f_equal; lia|]. f_equal; f_equal; lia.
  - unfold BaseDie.keep_lowest_select.
    rewrite compute_count_dice_slice_shape by lia.
    unfold slice_lo, slice_hi, Py.clamp.
    destruct (Z.ltb_spec (num_keep + num_drop) 0); [lia|].
    destruct (Z.gtb_spec num_drop 0).
    + destruct (Z.ltb_spec num_drop 0); [lia|].
      do 2 f_equal; [f_equal; lia|]. f_equal; f_equal; lia.
    + do 2 f_equal; [f_equal; lia|]. f_equal; f_equal; lia.
  - unfold BaseDie.keep_highest_select.
    rewrite compute_count_dice_slice_shape by lia.
    unfold slice_lo, slice_hi, Py.clamp.
    change (- (0 + 0)) with 0. change (0 >? 0) with false.
    change (0 <? 0) with false. cbv iota.
    replace (Z.min 0 n) with 0 by lia. replace (n - 0) with n by lia.
    replace (n - Z.max 0 n) with 0 by lia.
    unfold Py.repeat. change (Z.to_nat 0) with O. cbn [List.repeat app].
    rewrite app_nil_r. reflexivity.
Qed.

Lemma keep_select_counts_witness :
  Pool._compute_count_dice 4 (BaseDie.keep_highest_select 3 0)
  = Ok [0; 1; 1; 1] /\
  Pool._compute_count_dice 4 (BaseDie.keep_lowest_select 1 1)
  = Ok [0; 1; 0; 0] /\
  Pool._compute_count_dice 4 (BaseDie.keep_highest_select 0 0)
  = Ok [1; 1; 1; 1].
Proof.
  destruct (keep_select_counts 4 3 0 ltac:(lia) ltac:(lia) ltac:(lia)) as (H1 & _ & H3).
  destruct (keep_select_counts 4 1 1 ltac:(lia) ltac:(lia) ltac:(lia)) as (_ & H2 & _).
  split; [exact (H1 ltac:(lia))|]. split; [exact H2|exact H3].
Defined.

End CountDiceSlices.

Section PoolGetitem.

Lemma Forall_map_id (f : Z -> Z) (l : list Z) :
  Forall (fun x => f x = x) l -> map f l = l.
Proof.
  induction l as [|x l IH]; intros Hl; [reflexivity|].
  inversion Hl; subst. simpl. rewrite IH by assumption. congruence.
Qed.

(** Caps in standard form come out of the factory as they went in. *)
Lemma Pool_restandard (p : Pool.DicePool) (l : list Z) :
  Pool.standard p ->
  length l = length (Pool._count_dice p) \/
  (Pool._min_outcomes p = None /\ Pool._max_outcomes p = None) ->
  Pool.Pool (Pool.die p) None (Some (Pool.CdSeq l)) (Pool.min_outcomes p)
    (Pool._max_outcomes p)
  = Ok (Pool.mk (Pool.die p) l (Pool._min_outcomes p) (Pool._max_outcomes p)).
Proof.
  destruct p as [d cd mi ma]. unfold Pool.standard, Pool.die, Pool.min_outcomes.
  cbn [Pool._die Pool._count_dice Pool._min_outcomes Pool._max_outcomes].
  intros (Hone & Hma & Hmi) Hlen.
  unfold Pool.Pool, Pool.seq_len, Pool.merge_num_dice.
  destruct mi as [lo|], ma as [hi|].
  - destruct Hone; discriminate.
  - (* min caps *)
    destruct (Hmi lo eq_refl) as (Hl & Hs & dm & Hdm & Hf & He).
    assert (Hll : length l = length lo) by (destruct Hlen as [?|[? _]]; congruence).
    cbn [mbind result_bind fmap option_fmap option_map default].
    unfold Py.len at 1 2. rewrite Hll, Z.eqb_refl.
    cbn [negb mbind result_bind default Pool._compute_count_dice].
    change (id (Py.len ?x)) with (Py.len x).
    assert (Hne : lo <> []) by (intros ->; inversion He).
    replace (Py.len lo =? 0) with false
      by (symmetry; apply Z.eqb_neq; unfold Py.len; destruct lo; [congruence|simpl; lia]).
    destruct (max_ok lo Hne) as [m Hm]. rewrite Hm, Hdm. cbn [mbind result_bind].
    destruct (max_spec lo m Hm) as [Hin Hall].
    assert (Hgt : (m >? dm) = true).
    { apply Z.gtb_lt. apply List.Exists_exists in He as (x & Hx & Hlt).
      pose proof (proj1 (List.Forall_forall _ _) Hall x Hx) as Hxm.
      cbv beta in Hxm. lia. }
    rewrite Hgt. cbn [mbind result_bind].
    rewrite Forall_map_id, sorted_id by
      (first [exact Hs
             |eapply List.Forall_impl; [|exact Hf]; intros a Ha;
              cbv beta in *; lia]).
    reflexivity.
  - (* max caps *)
    destruct (Hma hi eq_refl) as (Hl & Hs & dm & Hdm & Hf & He).
    assert (Hll : length l = length hi) by (destruct Hlen as [?|[_ ?]]; congruence).
    cbn [mbind result_bind fmap option_fmap option_map default].
    unfold Py.len at 1 2. rewrite Hll, Z.eqb_refl.
    cbn [negb mbind result_bind default Pool._compute_count_dice].
    change (id (Py.len ?x)) with (Py.len x).
    assert (Hne : hi <> []) by (intros ->; inversion He).
    replace (Py.len hi =? 0) with false
      by (symmetry; apply Z.eqb_neq; unfold Py.len; destruct hi; [congruence|simpl; lia]).
    cbn [mbind result_bind].
    destruct (min_ok hi Hne) as [m Hm]. rewrite Hm, Hdm. cbn [mbind result_bind].
    destruct (min_spec hi m Hm) as [Hin Hall].
    assert (Hgt : (m <? dm) = true).
    { apply Z.ltb_lt. apply List.Exists_exists in He as (x & Hx & Hlt).
      pose proof (proj1 (List.Forall_forall _ _) Hall x Hx) as Hxm.
      cbv beta in Hxm. lia. }
    rewrite Hgt. cbn [mbind result_bind].
    rewrite Forall_map_id, sorted_id by
      (first [exact Hs
             |eapply List.Forall_impl; [|exact Hf]; intros a Ha;
              cbv beta in *; lia]).
    reflexivity.
  - cbn [mbind result_bind fmap option_fmap option_map default
         Pool._compute_count_dice].
    change (id (Py.len ?x)) with (Py.len x).
    destruct (Py.len l =? 0); reflexivity.
Qed.

(** [pool[count_dice]] re-selects the dice of a pool in standard form: the
    die and the caps stay.  Only a pool without caps can change its size;
    what [_compute_count_dice] raises is raised. *)
Theorem pool_getitem (p : Pool.DicePool) (count_dice : Pool.count_dice_arg) :
  Pool.standard p ->
  (forall l, Pool._compute_count_dice (Pool.num_dice p) count_dice = Ok l ->
     (Py.len l = Pool.num_dice p \/
      (Pool._min_outcomes p = None /\ Pool._max_outcomes p = None) ->
      Pool.__getitem__ p count_dice
      = Ok (Pool.mk (Pool.die p) l (Pool._min_outcomes p) (Pool._max_outcomes p))) /\
     (Py.len l <> Pool.num_dice p ->
      Pool._min_outcomes p <> None \/ Pool._max_outcomes p <> None ->
      Pool.__getitem__ p count_dice = Raise ValueError)) /\
  (forall e, Pool._compute_count_dice (Pool.num_dice p) count_dice = Raise e ->
     Pool.__getitem__ p count_dice = Raise e).
Proof.
  intros Hstd. split.
  - intros l Hl. unfold Pool.__getitem__. rewrite Hl. cbn [mbind result_bind].
    split.
    + intros Hsame.
      destruct (Z.eqb_spec (Py.len l) (Pool.num_dice p)) as [E|E]; cbn [negb].
      * cbn [mbind result_bind]. apply Pool_restandard; [exact Hstd|].
        left. unfold Pool.num_dice, Py.len in E. lia.
      * destruct Hsame as [?|[Hmi Hma]]; [contradiction|].
        unfold Pool.min_outcomes. rewrite Hmi, Hma. cbn [mbind result_bind].
        pose proof (Pool_restandard p l Hstd (or_intror (conj Hmi Hma))) as HP.
        unfold Pool.min_outcomes in HP. rewrite Hmi, Hma in HP. exact HP.
    + intros Hne Hcaps.
      destruct (Z.eqb_spec (Py.len l) (Pool.num_dice p)) as [E|E]; [contradiction|].
      cbn [negb]. unfold Pool.min_outcomes.
      destruct (Pool._min_outcomes p); [reflexivity|].
      destruct (Pool._max_outcomes p); [reflexivity|].
      destruct Hcaps; congruence.
  - intros e He. unfold Pool.__getitem__. rewrite He. reflexivity.
Qed.

Lemma pool_getitem_witness :
  Pool.__getitem__
    (Pool.mk (Die.mk None [(1, 1); (2, 1); (3, 1)]) [1; 1; 1] None (Some [2; 3; 3]))
    (Pool.CdSlice (Some (-2)) None)
  = Ok (Pool.mk (Die.mk None [(1, 1); (2, 1); (3, 1)]) [0; 1; 1] None
          (Some [2; 3; 3])) /\
  Pool.__getitem__
    (Pool.mk (Die.mk None [(1, 1); (2, 1); (3, 1)]) [1; 1; 1] None (Some [2; 3; 3]))
    (Pool.CdSeq [1; 1])
  = Raise ValueError.
Proof.
  assert (Hstd : Pool.standard
            (Pool.mk (Die.mk None [(1, 1); (2, 1); (3, 1)]) [1; 1; 1] None
               (Some [2; 3; 3]))).
  { split; [left; reflexivity|]. split.
    - intros mo [= <-]. split; [reflexivity|]. split; [simpl; lia|].
      exists 3. split; [reflexivity|]. split.
      + repeat (apply List.Forall_cons; [lia|]). apply List.Forall_nil.
      + apply List.Exists_cons_hd. lia.
    - intros mo. discriminate. }
  split.
  - apply (proj1 (proj1 (pool_getitem _ (Pool.CdSlice (Some (-2)) None) Hstd)
                   [0; 1; 1] eq_refl)).
    left. reflexivity.
  - apply (proj2 (proj1 (pool_getitem _ (Pool.CdSeq [1; 1]) Hstd) [1; 1] eq_refl)).
    + discriminate.
    + right. discriminate.
Defined.

End PoolGetitem.


Lemma pool_factory_conflicting_sizes_witness :
  Pool.Pool (Die.mk None [(1, 1); (2, 1); (3, 1)]) (Some 2)
    (Some (Pool.CdSeq [0; 1; 1])) None None = Raise ValueError.
Proof.
  apply (pool_factory_conflicting_sizes _ _ _ _ _ 2 3).
  - simpl. tauto.
  - simpl. tauto.
  - lia.
Defined.

Section PlainPop.





Lemma firstn_snoc (m : nat) (l : list Z) :
  (m < length l)%nat -> firstn (S m) l = firstn m l ++ [nth m l 0].
Proof.
  revert m. induction l as [|x l IH]; intros m Hm; simpl in Hm; [lia|].
  destruct m as [|m]; [reflexivity|].
  change (firstn (S (S m)) (x :: l)) with (x :: firstn (S m) l).
  rewrite IH by lia. reflexivity.
Qed.



Variable pd : Die.t.
Variable pm : Z.
Hypothesis Hpm : Die.max_outcome pd = Ok pm.
Variable cd : list Z.
Variable f : nat -> Z.

Let n := length cd.



End PlainPop.

Section PlainPopMax.





End PlainPopMax.

Section PlainMass.




End PlainMass.



Section ProductSums.

Lemma prod_app (l1 l2 : list Z) : Py.prod (l1 ++ l2) = Py.prod l1 * Py.prod l2.
Proof. induction l1 as [|x l1 IH]; simpl; [lia|]. rewrite IH. lia. Qed.

Lemma sum_flat_map {A : Type} (f : A -> list Z) (l : list A) :
  Py.sum (flat_map f l) = Py.sum (map (fun x => Py.sum (f x)) l).
Proof.
  induction l as [|x l IH]; simpl; [reflexivity|].
  rewrite sum_app, IH. reflexivity.
Qed.

Lemma map_flat_map {A B C : Type} (g : B -> C) (f : A -> list B) (l : list A) :
  map g (flat_map f l) = flat_map (fun x => map g (f x)) l.
Proof.
  induction l as [|x l IH]; simpl; [reflexivity|].
  rewrite map_app, IH. reflexivity.
Qed.

(** The sum over a cartesian product of the products of a quantity is the
    product of the sums. *)
Lemma product_sum {B : Type} (phi : B -> Z) (iters : list (list B)) :
  Py.sum (map (fun p => Py.prod (map phi p)) (EvalPool.product iters))
  = Py.prod (map (fun bs => Py.sum (map phi bs)) iters).
Proof.
  induction iters as [|bs iters IH]; [reflexivity|].
  cbn [EvalPool.product map Py.prod fold_right].
  change (foldr Z.mul 1 ?x) with (Py.prod x).
  rewrite map_flat_map, sum_flat_map, <- IH.
  set (S := Py.sum (map (fun p => Py.prod (map phi p)) (EvalPool.product iters))).
  rewrite (map_ext _ (fun x => S * phi x)).
  - rewrite sum_map_scale. lia.
  - intros x. rewrite map_map. cbn [map Py.prod fold_right].
    change (foldr Z.mul 1 ?x) with (Py.prod x).
    rewrite sum_map_scale. unfold S. lia.
Qed.


End ProductSums.

Section EvalMass.

Context {State : Type} `{Countable State}.
Variable self : EvalPool.t State.

(** The evaluator keeps every state. *)
Hypothesis no_reroll :
  forall s o cs, EvalPool.reroll_state self s o cs = false.





Let phi (b : EvalPool.iter_branch) : Z :=
  snd b * EvalPool.pool_mass (fst (fst b)).






End EvalMass.

Section EvalMassTheorem.

Context {State : Type} `{Countable State}.
Variable self : EvalPool.t State.




End EvalMassTheorem.



Section Vandermonde.

Lemma binom_0_r (n : nat) : binom n 0 = 1.
Proof. destruct n; reflexivity. Qed.

Lemma sum_cons (x : Z) (l : list Z) : Py.sum (x :: l) = x + Py.sum l.
Proof. reflexivity. Qed.

(** Vandermonde's identity. *)
Lemma vandermonde (m n : nat) :
  forall h : nat,
    Py.sum (map (fun k => binom m k * binom n (h - k)) (seq 0 (S h)))
    = binom (m + n) h.
Proof.
  induction m as [|m IH]; intros h.
  - cbn [seq map]. rewrite sum_cons, <- seq_shift, map_map.
    rewrite (map_ext _ (fun _ => 0)) by (intros k; reflexivity).
    replace (Py.sum (map (fun _ : nat => 0) (seq 0 h))) with 0.
    + rewrite Nat.sub_0_r. simpl. lia.
    + clear. generalize (seq 0 h). intros l. induction l as [|x l IHl];
        [reflexivity|]. rewrite map_cons, sum_cons, <- IHl. reflexivity.
  - destruct h as [|h].
    + cbn. rewrite !binom_0_r. lia.
    + change (S m + n)%nat with (S (m + n)). cbn [binom].
      rewrite <- (IH h), <- (IH (S h)).
      cbn [seq map]. rewrite !sum_cons, <- !seq_shift, !map_map.
      rewrite !binom_0_r, !Nat.sub_0_r.
      replace (S h - 1)%nat with h by lia.
      rewrite (map_ext
        (fun x => (binom m (S x) + binom m (S (S x))) * binom n (S h - S (S x)))
        (fun x => binom m (S x) * binom n (h - S x)
                  + binom m (S (S x)) * binom n (S h - S (S x))))
        by (intros x; change (S h - S (S x))%nat with (h - S x)%nat; lia).
      rewrite sum_map_add. lia.
Qed.

Lemma seq_offset (a len : nat) : seq a len = map (Nat.add a) (seq 0 len).
Proof.
  revert a. induction len as [|len IH]; intros a; [reflexivity|].
  cbn [seq map]. rewrite Nat.add_0_r. f_equal.
  rewrite (IH (S a)), (IH 1%nat), map_map. apply map_ext. intros k. lia.
Qed.

(** Terms that vanish outside [[a, b]] can be left out of the sum. *)
Lemma sum_restrict (f : nat -> Z) (a b H : nat) :
  (a <= b)%nat -> (b <= H)%nat ->
  (forall k, (k < a)%nat -> f k = 0) ->
  (forall k, (b < k <= H)%nat -> f k = 0) ->
  Py.sum (map f (seq 0 (S H))) = Py.sum (map f (seq a (S b - a))).
Proof.
  intros Hab HbH Hlow Hhigh.
  replace (S H) with (a + ((S b - a) + (H - b)))%nat by lia.
  rewrite !seq_app, !map_app, !sum_app.
  assert (Hz : forall l, (forall k, In k l -> f k = 0) -> Py.sum (map f l) = 0).
  { induction l as [|x l IHl]; intros Hl; [reflexivity|].
    rewrite map_cons, sum_cons, (Hl x (or_introl eq_refl)), IHl; [reflexivity|].
    intros k Hk. apply Hl. right. exact Hk. }
  rewrite (Hz (seq 0 a)), (Hz (seq _ (H - b))).
  - cbn [Nat.add]. lia.
  - intros k Hk. apply in_seq in Hk. apply Hhigh. lia.
  - intros k Hk. apply in_seq in Hk. apply Hlow. lia.
Qed.

End Vandermonde.

Section DeckHands.

Lemma self_branch (self : Deck.t) :
  dealable self ->
  Forall (fun b : Deck.branch => dealable (fst (fst b))) [(self, 0, 1)] /\
  Py.sum (map hands [(self, 0, 1)]) = Deck.denominator self.
Proof.
  intros Hd. split; [constructor; [exact Hd|constructor]|].
  unfold hands, Py.sum. simpl. lia.
Qed.

(** The branches of an extreme outcome of multiplicity [m], the rest of
    the table being [l]. *)
Lemma popped_branches (l : list (Z * Z)) (m h s : Z) :
  Py.increasing (map fst l) -> Forall (fun d => 0 <= d) (map snd l) ->
  0 <= m -> s = Py.sum (map snd l) + m -> 0 <= h <= s ->
  let ks := Py.range (Z.max 0 (m + h - s)) (Z.min m h + 1) in
  let popped k := (Deck.mk l (h - k), k, comb m k) in
  Forall (fun b : Deck.branch => dealable (fst (fst b))) (map popped ks) /\
  Py.sum (map hands (map popped ks)) = comb s h.
Proof.
  intros Hinc Hpos Hm Hs Hhand ks popped.
  pose proof (sum_nonneg _ Hpos) as Hl.
  set (r := Py.sum (map snd l)) in *.
  assert (Hr : Deck.deck_size (Deck.mk l 0) = r) by reflexivity.
  clearbody r. split.
  - apply List.Forall_map, List.Forall_forall. intros k Hk.
    apply in_range in Hk. unfold dealable, popped. cbn [fst snd].
    split; [split; assumption|].
    unfold Deck.hand_size, Deck.deck_size in *. cbn [Deck._hand_size Deck._data] in *.
    rewrite Hr. lia.
  - rewrite map_map. unfold hands, popped, Deck.denominator.
    cbn [fst snd]. unfold Deck.hand_size, Deck.deck_size in *.
    cbn [Deck._hand_size Deck._data] in *. rewrite Hr. clear Hr.
    unfold ks, Py.range. rewrite map_map.
    set (a := Z.max 0 (m + h - s)). set (b := Z.min m h).
    assert (Ha : a = Z.max 0 (m + h - s)) by reflexivity.
    assert (Hb : b = Z.min m h) by reflexivity.
    clearbody a b.
    replace (Z.to_nat (b + 1 - a)) with (S (Z.to_nat b) - Z.to_nat a)%nat by lia.
    rewrite (map_ext_in _
      (fun i => binom (Z.to_nat m) (Z.to_nat a + i)
                * binom (Z.to_nat r) (Z.to_nat h - (Z.to_nat a + i)))).
    2:{ intros i Hi. apply in_seq in Hi. unfold comb.
        destruct (Z.leb_spec 0 (a + Z.of_nat i)); [|lia].
        destruct (Z.leb_spec 0 m); [|lia].
        destruct (Z.leb_spec 0 (h - (a + Z.of_nat i))); [|lia].
        destruct (Z.leb_spec 0 r); [|lia]. cbn [andb].
        f_equal; f_equal; lia. }
    rewrite <- (map_map (Nat.add (Z.to_nat a))
                  (fun k => binom (Z.to_nat m) k
                            * binom (Z.to_nat r) (Z.to_nat h - k))).
    rewrite <- seq_offset.
    rewrite <- (sum_restrict _ (Z.to_nat a) (Z.to_nat b) (Z.to_nat h)).
    + rewrite vandermonde. unfold comb.
      destruct (Z.leb_spec 0 h); [|lia]. destruct (Z.leb_spec 0 s); [|lia].
      cbn [andb]. f_equal. lia.
    + lia.
    + lia.
    + intros k Hk. rewrite (binom_above (Z.to_nat r)) by lia. lia.
    + intros k Hk. rewrite (binom_above (Z.to_nat m)) by lia. lia.
Qed.

End DeckHands.

Section DeckHandsTheorem.

Lemma deck_snoc_facts (self : Deck.t) (l : list (Z * Z)) (o m : Z) :
  Deck.wf self -> Deck._data self = l ++ [(o, m)] ->
  Py.increasing (map fst l) /\ Forall (fun d => 0 <= d) (map snd l) /\
  0 <= m /\ Deck.deck_size self = Py.sum (map snd l) + m.
Proof.
  intros [Hinc Hpos] Hdata. unfold Deck.outcomes, Deck.dups, Deck.deck_size in *.
  rewrite Hdata, map_app in *. cbn [map fst snd] in *.
  apply increasing_app_inv in Hinc as [Hinc _].
  apply List.Forall_app in Hpos as [Hpos Hm].
  inversion Hm; subst. rewrite sum_app. unfold Py.sum at 2. simpl.
  repeat split; try assumption. lia.
Qed.

Lemma deck_cons_facts (self : Deck.t) (l : list (Z * Z)) (o m : Z) :
  Deck.wf self -> Deck._data self = (o, m) :: l ->
  Py.increasing (map fst l) /\ Forall (fun d => 0 <= d) (map snd l) /\
  0 <= m /\ Deck.deck_size self = Py.sum (map snd l) + m.
Proof.
  intros [Hinc Hpos] Hdata. unfold Deck.outcomes, Deck.dups, Deck.deck_size in *.
  rewrite Hdata in *. cbn [map fst snd] in *.
  destruct Hinc as [_ Hinc]. inversion Hpos; subst.
  unfold Py.sum. simpl. fold (Py.sum (map snd l)).
  repeat split; try assumption. lia.
Qed.

Lemma pop_max_hands (self : Deck.t) (o : Z) :
  dealable self ->
  exists branches,
    Deck._pop_max self o = Ok branches /\ Deck._pop_max' self o = Ok branches /\
    Forall (fun b : Deck.branch => dealable (fst (fst b))) branches /\
    Py.sum (map hands branches) = Deck.denominator self.
Proof.
  intros Hd. pose proof Hd as [Hwf Hhand].
  destruct (Deck._data self) as [|x d] eqn:Hdata using rev_ind.
  { exists [(self, 0, 1)]. unfold Deck._pop_max, Deck._pop_max', Deck.outcomes.
    rewrite Hdata. cbn [map List.rev]. split; [reflexivity|].
    split; [reflexivity|]. apply self_branch, Hd. }
  clear IHd. destruct x as [o' m].
  destruct (Z.eq_dec o o') as [->|Hne].
  - destruct (pop_max_snoc self Hwf d o' m Hdata) as [H1 H2].
    destruct (deck_snoc_facts self d o' m Hwf Hdata) as (Hinc & Hpos & Hm & Hs).
    eexists. split; [exact H1|]. split; [exact H2|].
    apply popped_branches; assumption.
  - exists [(self, 0, 1)]. unfold Deck._pop_max, Deck._pop_max', Deck.outcomes.
    rewrite Hdata, map_app, rev_app_distr. cbn [map List.rev app fst].
    destruct (Z.eqb_spec o o'); [contradiction|]. cbn [negb].
    split; [reflexivity|]. split; [reflexivity|]. apply self_branch, Hd.
Qed.

Lemma pop_min_hands (self : Deck.t) (o : Z) :
  dealable self ->
  exists branches,
    Deck._pop_min self o = Ok branches /\ Deck._pop_min' self o = Ok branches /\
    Forall (fun b : Deck.branch => dealable (fst (fst b))) branches /\
    Py.sum (map hands branches) = Deck.denominator self.
Proof.
  intros Hd. pose proof Hd as [Hwf Hhand].
  destruct (Deck._data self) as [|[o' m] d] eqn:Hdata.
  { exists [(self, 0, 1)]. unfold Deck._pop_min, Deck._pop_min', Deck.outcomes.
    rewrite Hdata. cbn [map]. split; [reflexivity|].
    split; [reflexivity|]. apply self_branch, Hd. }
  destruct (Z.eq_dec o o') as [->|Hne].
  - destruct (pop_min_cons self Hwf d o' m Hdata) as [H1 H2].
    destruct (deck_cons_facts self d o' m Hwf Hdata) as (Hinc & Hpos & Hm & Hs).
    eexists. split; [exact H1|]. split; [exact H2|].
    apply popped_branches; assumption.
  - exists [(self, 0, 1)]. unfold Deck._pop_min, Deck._pop_min', Deck.outcomes.
    rewrite Hdata. cbn [map fst].
    destruct (Z.eqb_spec o o'); [contradiction|]. cbn [negb].
    split; [reflexivity|]. split; [reflexivity|]. apply self_branch, Hd.
Qed.

(** Popping an outcome off a deck conserves the hands: the weights of the
    branches, each times the number of hands the deck it leaves can deal,
    add up to the number of hands of the deck; and every deck left is in
    order again, with a hand it can deal.  This holds for [_pop_max] and
    [_pop_min], in deck.py and in deck/deck.py, whatever outcome is
    asked. *)
Theorem deck_pop_conserves_hands (self : Deck.t) (o : Z) :
  dealable self ->
  (exists branches,
     Deck._pop_max self o = Ok branches /\ Deck._pop_max' self o = Ok branches /\
     Forall (fun b : Deck.branch => dealable (fst (fst b))) branches /\
     Py.sum (map hands branches) = Deck.denominator self) /\
  (exists branches,
     Deck._pop_min self o = Ok branches /\ Deck._pop_min' self o = Ok branches /\
     Forall (fun b : Deck.branch => dealable (fst (fst b))) branches /\
     Py.sum (map hands branches) = Deck.denominator self).
Proof.
  intros Hd. split; [apply pop_max_hands|apply pop_min_hands]; exact Hd.
Qed.

Lemma deck_pop_conserves_hands_witness :
  exists branches,
    Deck._pop_max (Deck.mk [(1, 2); (2, 3)] 3) 2 = Ok branches /\
    Deck._pop_max' (Deck.mk [(1, 2); (2, 3)] 3) 2 = Ok branches /\
    Forall (fun b : Deck.branch => dealable (fst (fst b))) branches /\
    Py.sum (map hands branches) = Deck.denominator (Deck.mk [(1, 2); (2, 3)] 3).
Proof.
  apply (proj1 (deck_pop_conserves_hands (Deck.mk [(1, 2); (2, 3)] 3) 2
                  ltac:(split; [split; [simpl; lia|solve_nonneg]|
                                unfold Deck.hand_size, Deck.deck_size, Py.sum;
                                simpl; lia]))).
Defined.

End DeckHandsTheorem.

Section Itemize.

Import CreationArgs.

Lemma existsb_neg_spec (l : list Z) :
  existsb (fun x => x <? 0) l = false <-> Forall (fun t => 0 <= t) l.
Proof. split; [apply existsb_neg_true|apply existsb_neg_false]. Qed.

(** [itemize] returns the keys with one non-negative count each, or
    raises [ValueError]; a negative int for [times] is only refused when
    there is a key to apply it to. *)
Theorem itemize_spec (keys : keys_arg) (times : times_arg) :
  (forall ks ts, itemize keys times = Ok (ks, ts) ->
     ks = match keys with KeysDict d => map fst d | KeysSeq l => l end /\
     length ts = length ks /\ Forall (fun t => 0 <= t) ts) /\
  (forall e, itemize keys times = Raise e -> e = ValueError) /\
  (forall l n, keys = KeysSeq l -> times = TimesInt n ->
     itemize keys times
     = if (n <? 0) && negb (Py.len l =? 0) then Raise ValueError
       else Ok (l, Py.repeat n (Py.len l))) /\
  (forall l ts, keys = KeysSeq l -> times = TimesSeq ts ->
     length ts <> length l -> itemize keys times = Raise ValueError).
Proof.
  split; [|split; [|split]].
  - intros ks ts Hok. unfold itemize in Hok.
    apply bind_ok_inv in Hok as (ts0 & Hts0 & Hok).
    assert (Hlen : Py.len ts0
                   = match keys with KeysDict d => Py.len d | KeysSeq l => Py.len l end).
    { destruct times as [n|l0].
      - injection Hts0 as <-. unfold Py.repeat, Py.len. rewrite repeat_length.
        destruct keys; lia.
      - destruct (Z.eqb_spec (Py.len l0) (match keys with
                                          | KeysDict d => Py.len d
                                          | KeysSeq l => Py.len l
                                          end)); [|discriminate].
        injection Hts0 as <-. assumption. }
    destruct keys as [d|l].
    + destruct (existsb _ _) eqn:E; [discriminate|]. injection Hok as <- <-.
      split; [reflexivity|]. split; [|apply existsb_neg_spec, E].
      rewrite !length_map, length_combine, length_map.
      unfold Py.len in Hlen. lia.
    + destruct (existsb _ _) eqn:E; [discriminate|]. injection Hok as <- <-.
      split; [reflexivity|]. split; [|apply existsb_neg_spec, E].
      unfold Py.len in Hlen. lia.
  - intros e He. unfold itemize in He.
    destruct times as [n|l0]; cbn [mbind result_bind] in He.
    + destruct keys; destruct (existsb _ _); congruence.
    + destruct (negb _); cbn [mbind result_bind] in He; [congruence|].
      destruct keys; destruct (existsb _ _); congruence.
  - intros l n -> ->. unfold itemize. cbn [mbind result_bind].
    destruct (Z.ltb_spec n 0) as [Hn|Hn]; cbn [andb].
    + destruct l as [|x l]; [reflexivity|].
      replace (Py.len (x :: l) =? 0) with false
        by (symmetry; apply Z.eqb_neq; unfold Py.len; simpl; lia).
      cbn [negb]. unfold Py.repeat, Py.len. cbn [length].
      rewrite Nat2Z.id. cbn [List.repeat existsb].
      destruct (Z.ltb_spec n 0); [reflexivity|lia].
    + rewrite existsb_neg_false; [reflexivity|].
      unfold Py.repeat. apply List.Forall_forall. intros x Hx.
      apply repeat_spec in Hx. lia.
  - intros l ts -> -> Hne. unfold itemize.
    destruct (Z.eqb_spec (Py.len ts) (Py.len l)) as [E|E]; [|reflexivity].
    unfold Py.len in E. lia.
Qed.

Lemma itemize_spec_witness :
  itemize (KeysSeq [7; 8]) (TimesInt (-1)) = Raise ValueError /\
  itemize (KeysSeq []) (TimesInt (-1)) = Ok ([], []) /\
  itemize (KeysDict [(7, 2); (8, 0)]) (TimesInt 3) = Ok ([7; 8], [6; 0]).
Proof.
  split; [|split].
  - exact (proj1 (proj2 (proj2 (itemize_spec (KeysSeq [7; 8]) (TimesInt (-1)))))
             [7; 8] (-1) eq_refl eq_refl).
  - exact (proj1 (proj2 (proj2 (itemize_spec (KeysSeq []) (TimesInt (-1)))))
             [] (-1) eq_refl eq_refl).
  - reflexivity.
Defined.

End Itemize.

Section DictFacts.

Context {K : Type} `{EqDecision K}.

Lemma dict_add_get (k k' : K) (v : Z) (d : list (K * Z)) :
  Py.dict_get k' 0 (Py.dict_add k v d)
  = Py.dict_get k' 0 d + (if decide (k = k') then v else 0).
Proof.
  induction d as [|[k0 v0] d IH]; simpl.
  - destruct (decide (k = k')); lia.
  - destruct (decide (k0 = k)) as [->|Hne]; simpl.
    + destruct (decide (k = k')); lia.
    + destruct (decide (k0 = k')) as [->|Hne'].
      * destruct (decide (k = k')); [congruence|lia].
      * exact IH.
Qed.

Lemma dict_add_keys_In (k k' : K) (v : Z) (d : list (K * Z)) :
  In k' (map fst (Py.dict_add k v d)) <-> k' = k \/ In k' (map fst d).
Proof.
  induction d as [|[k0 v0] d IH]; simpl; [intuition|].
  destruct (decide (k0 = k)) as [->|Hne]; simpl; [intuition|].
  rewrite IH. intuition.
Qed.

Lemma dict_add_NoDup_gen (k : K) (v : Z) (d : list (K * Z)) :
  List.NoDup (map fst d) -> List.NoDup (map fst (Py.dict_add k v d)).
Proof.
  induction d as [|[k0 v0] d IH]; simpl; intros Hnd.
  - constructor; [intros []|constructor].
  - apply List.NoDup_cons_iff in Hnd as [Hnin Hnd].
    destruct (decide (k0 = k)) as [->|Hne]; simpl.
    + constructor; assumption.
    + constructor; [|apply IH, Hnd].
      rewrite dict_add_keys_In. intros [E|Hin]; [congruence|contradiction].
Qed.

Lemma dict_add_total_gen (k : K) (v : Z) (d : list (K * Z)) :
  Py.sum (map snd (Py.dict_add k v d)) = Py.sum (map snd d) + v.
Proof.
  induction d as [|[k0 v0] d IH]; simpl; [unfold Py.sum; simpl; lia|].
  destruct (decide (k0 = k)); unfold Py.sum in *; simpl in *; lia.
Qed.

(** In a dict, an item is a key with its value. *)
Lemma In_dict_get (k : K) (v : Z) (d : list (K * Z)) :
  List.NoDup (map fst d) ->
  (In (k, v) d <-> In k (map fst d) /\ Py.dict_get k 0 d = v).
Proof.
  induction d as [|[k0 v0] d IH]; simpl; intros Hnd; [intuition|].
  apply List.NoDup_cons_iff in Hnd as [Hnin Hnd]. specialize (IH Hnd).
  destruct (decide (k0 = k)) as [->|Hne].
  - split.
    + intros [E|Hin]; [injection E as <-; auto|].
      exfalso. apply Hnin. apply in_map_iff. exists (k, v). auto.
    + intros [_ <-]. left. reflexivity.
  - split.
    + intros [E|Hin]; [congruence|]. apply IH in Hin. intuition.
    + intros [[E|Hin] Hg]; [congruence|]. right. apply IH. auto.
Qed.

End DictFacts.

Section SortedItems.

Lemma insert_item_In (x y : Z * Z) (l : list (Z * Z)) :
  In y (Py.insert_item x l) <-> y = x \/ In y l.
Proof.
  induction l as [|z l IH]; simpl; [intuition|].
  destruct (fst x <=? fst z); simpl; [intuition|]. rewrite IH. intuition.
Qed.

Lemma sorted_items_In (y : Z * Z) (d : list (Z * Z)) :
  In y (Py.sorted_items d) <-> In y d.
Proof.
  induction d as [|x d IH]; simpl; [reflexivity|].
  rewrite insert_item_In, IH. intuition.
Qed.

End SortedItems.

Section MergeDups.

Import CreationArgs.

Lemma accumulate_scalars_get (k : Z) (cards ds : list Z) :
  forall acc,
    Py.dict_get k 0 (accumulate (map expand_scalar cards) ds acc)
    = Py.dict_get k 0 acc + times_of k cards ds.
Proof.
  unfold times_of. revert ds.
  induction cards as [|c cards IH]; intros ds acc.
  - destruct ds; simpl; unfold Py.sum; simpl; lia.
  - destruct ds as [|d ds]; [simpl; unfold Py.sum; simpl; lia|].
    cbn [map accumulate combine List.filter fst snd].
    unfold accumulate_one, expand_scalar. cbn [fold_left fst snd].
    rewrite IH, dict_add_get.
    destruct (decide (c = k)) as [->|Hne].
    + rewrite Z.eqb_refl. cbn [map snd]. unfold Py.sum at 2. cbn [fold_right].
      change (foldr Z.add 0 ?x) with (Py.sum x). lia.
    + destruct (Z.eqb_spec c k); [contradiction|]. lia.
Qed.

Lemma accumulate_scalars_keys (k : Z) (cards ds : list Z) :
  forall acc,
    In k (map fst (accumulate (map expand_scalar cards) ds acc))
    <-> In k (map fst acc) \/ In k (map fst (combine cards ds)).
Proof.
  revert ds. induction cards as [|c cards IH]; intros ds acc.
  - destruct ds; simpl; intuition.
  - destruct ds as [|d ds]; [simpl; intuition|].
    cbn [map accumulate combine fst].
    unfold accumulate_one, expand_scalar. cbn [fold_left fst snd].
    rewrite IH, dict_add_keys_In. simpl. intuition.
Qed.

(** [expand_args_for_deck] gives each card the sum of the times it is
    given, in order of the cards; it pairs cards and times as [zip] does
    and refuses a negative time wherever it stands. *)
Theorem expand_args_for_deck_spec (args times : list Z) :
  (Forall (fun t => 0 <= t) times ->
   exists data,
     expand_args_for_deck args times = Ok data /\
     Py.increasing (map fst data) /\
     (forall k v, In (k, v) data <->
                  In k (map fst (combine args times)) /\ v = times_of k args times) /\
     Py.sum (map snd data) = Py.sum (map snd (combine args times))) /\
  (Exists (fun t => t < 0) times ->
   expand_args_for_deck args times = Raise ValueError).
Proof.
  split.
  - intros Hpos. unfold expand_args_for_deck, merge_dups.
    rewrite existsb_neg_false by exact Hpos. cbn [mbind result_bind].
    eexists. split; [reflexivity|].
    destruct (accumulate_scalars_ok args times Hpos []) as [Hnd Hnn];
      [constructor|constructor|].
    split; [|split].
    + apply (sorted_items_wf _ 0 Hnd Hnn).
    + intros k v. rewrite sorted_items_In, (In_dict_get k v _ Hnd).
      rewrite accumulate_scalars_keys, accumulate_scalars_get. simpl.
      intuition.
    + rewrite sorted_items_sum, accumulate_scalars_sum. simpl. lia.
  - intros Hneg. unfold expand_args_for_deck, merge_dups.
    replace (existsb (fun x => x <? 0) times) with true; [reflexivity|].
    symmetry. apply existsb_exists. apply List.Exists_exists in Hneg as (t & Ht & Hlt).
    exists t. split; [exact Ht|]. apply Z.ltb_lt, Hlt.
Qed.

Lemma expand_args_for_deck_spec_witness :
  exists data,
    expand_args_for_deck [3; 1; 3; 2] [1; 2; 4; 0] = Ok data /\
    Py.increasing (map fst data) /\
    (forall k v, In (k, v) data <->
                 In k (map fst (combine [3; 1; 3; 2] [1; 2; 4; 0])) /\
                 v = times_of k [3; 1; 3; 2] [1; 2; 4; 0]) /\
    Py.sum (map snd data) = Py.sum (map snd (combine [3; 1; 3; 2] [1; 2; 4; 0])).
Proof.
  apply (proj1 (expand_args_for_deck_spec [3; 1; 3; 2] [1; 2; 4; 0])).
  solve_nonneg.
Defined.

End MergeDups.

Section DieVersusDeck.

Import CreationArgs.

Lemma denominators_scalars (args : list Z) :
  denominators (map expand_scalar args) = List.repeat 1 (length args).
Proof. induction args as [|a args IH]; [reflexivity|]. simpl. f_equal. exact IH. Qed.

Lemma filter_ones (n : nat) :
  List.filter (fun d => d >? 0) (List.repeat 1 n) = List.repeat 1 n.
Proof. induction n as [|n IH]; [reflexivity|]. simpl. f_equal. exact IH. Qed.

Lemma prod_ones (n : nat) : Py.prod (List.repeat 1 n) = 1.
Proof.
  induction n as [|n IH]; [reflexivity|].
  change (Py.prod (List.repeat 1 (S n))) with (1 * Py.prod (List.repeat 1 n)).
  rewrite IH. reflexivity.
Qed.

Lemma lcm_ones (l : list Z) :
  Forall (fun x => x = 1) l -> lcm_list l = 1.
Proof.
  unfold lcm_list. induction 1 as [|x l -> _ IH]; [reflexivity|].
  simpl. exact IH.
Qed.

Lemma joint_terms_ones (n : nat) (ws : list Z) :
  Forall (fun x => x = 1) (joint_terms (List.repeat 1 n) ws).
Proof.
  revert ws. induction n as [|n IH]; intros ws; [constructor|].
  destruct ws as [|w ws]; [constructor|]. simpl.
  constructor; [|apply IH].
  rewrite Z.gcd_1_l. reflexivity.
Qed.

Lemma factors_ones (n : nat) (ws : list Z) :
  factors 1 (List.repeat 1 n) ws = firstn n ws.
Proof.
  revert ws. induction n as [|n IH]; intros ws; [reflexivity|].
  destruct ws as [|w ws]; [reflexivity|].
  cbn [List.repeat factors firstn]. rewrite IH.
  change (1 =? 0) with false. cbv iota. rewrite Z.mul_1_l, Z.div_1_r.
  reflexivity.
Qed.

Lemma accumulate_firstn (subdatas : list Subdata) (fs : list Z) :
  forall acc,
    accumulate subdatas (firstn (length subdatas) fs) acc
    = accumulate subdatas fs acc.
Proof.
  revert fs. induction subdatas as [|s subdatas IH]; intros fs acc.
  - destruct fs; reflexivity.
  - destruct fs as [|f fs]; [reflexivity|]. simpl. apply IH.
Qed.

(** For plain outcomes the die is built like the deck: under the
    policies [prod], [lcm] and [lcm_joint] the mapping of
    [expand_args_for_die] is that of [expand_args_for_deck]. *)
Theorem expand_for_die_is_expand_for_deck (args times : list Z)
    (method : denominator_method) :
  method <> reduce ->
  expand_args_for_die args times method = expand_args_for_deck args times.
Proof.
  intros Hm. unfold expand_args_for_die, expand_args_for_deck, merge_dups.
  assert (Hmerge : forall c, c = 1 ->
            merge_with c (map expand_scalar args) times
            = accumulate (map expand_scalar args) times []).
  { intros c ->. unfold merge_with. rewrite denominators_scalars, factors_ones.
    rewrite <- (length_map expand_scalar args). apply accumulate_firstn. }
  destruct method; cbn [merge_weights_funcs]; [| | |contradiction];
    unfold merge_weights_prod, merge_weights_lcm, merge_weights_lcm_joint;
    destruct (existsb _ times); try reflexivity;
    cbn [mbind result_bind]; rewrite Hmerge; try reflexivity.
  - rewrite denominators_scalars, filter_ones. apply prod_ones.
  - rewrite denominators_scalars, filter_ones. apply lcm_ones.
    apply List.Forall_forall. intros x Hx. apply repeat_spec in Hx. exact Hx.
  - rewrite denominators_scalars. apply lcm_ones, joint_terms_ones.
Qed.

Lemma expand_for_die_is_expand_for_deck_witness :
  expand_args_for_die [3; 1; 3] [2; 4; 6] lcm_joint
  = expand_args_for_deck [3; 1; 3] [2; 4; 6].
Proof.
  apply expand_for_die_is_expand_for_deck. discriminate.
Defined.

End DieVersusDeck.

Section MergeTotals.

Import CreationArgs.

(** The weight that goes into a merge: that of the sub-distributions
    that are not empty. *)

Lemma accumulate_one_total (f : Z) (subdata acc : Subdata) :
  Py.sum (map snd (accumulate_one f subdata acc))
  = Py.sum (map snd acc) + Py.sum (map snd subdata) * f.
Proof.
  unfold accumulate_one. revert acc.
  induction subdata as [|[o w] subdata IH]; intros acc.
  - cbn [fold_left map]. change (Py.sum []) with 0. lia.
  - cbn [fold_left map fst snd]. rewrite IH, dict_add_sum, sum_cons. lia.
Qed.

Lemma accumulate_total (subdatas : list Subdata) (fs : list Z) :
  forall acc,
    Py.sum (map snd (accumulate subdatas fs acc))
    = Py.sum (map snd acc)
      + Py.sum (map (fun df => fst df * snd df)
                  (combine (denominators subdatas) fs)).
Proof.
  revert fs. induction subdatas as [|s subdatas IH]; intros fs acc.
  - destruct fs; cbn [accumulate denominators map combine];
      change (Py.sum []) with 0; lia.
  - destruct fs as [|f fs].
    + cbn [accumulate denominators map combine]. change (Py.sum []) with 0. lia.
    + cbn [accumulate denominators map combine fst snd].
      fold (denominators subdatas).
      rewrite IH, accumulate_one_total, sum_cons. lia.
Qed.

Lemma merge_with_total (c : Z) (subdatas : list Subdata) (weights : list Z) :
  Forall (fun d => 0 <= d) (denominators subdatas) ->
  Forall (fun dw => 0 < fst dw -> (fst dw | c * snd dw))
    (combine (denominators subdatas) weights) ->
  Py.sum (map snd (merge_with c subdatas weights))
  = c * merged_weight subdatas weights.
Proof.
  unfold merge_with, merged_weight. rewrite accumulate_total.
  change (Py.sum (map snd [])) with 0. rewrite Z.add_0_l.
  generalize (denominators subdatas). intros dens. revert weights.
  induction dens as [|d dens IH]; intros weights Hnn Hex.
  - destruct weights; cbn [factors combine map]; change (Py.sum []) with 0; lia.
  - destruct weights as [|w weights].
    + cbn [factors combine map]. change (Py.sum []) with 0. lia.
    + cbn [factors combine map fst snd] in *.
      inversion Hnn as [|? ? Hd Hnn']; subst.
      inversion Hex as [|? ? Hdw Hex']; subst. cbn [fst snd] in Hdw.
      rewrite !sum_cons, (IH weights Hnn' Hex').
      destruct (Z.eqb_spec d 0) as [->|Hd0]; [lia|].
      destruct (Hdw ltac:(lia)) as [q Hq].
      rewrite Hq, Z.div_mul by exact Hd0. lia.
Qed.

(** Merging loses nothing to rounding: under [prod], [lcm] and
    [lcm_joint] the merged mapping weighs the policy's denominator times
    the weights of the sub-distributions that are not empty. *)
Theorem merge_weights_total (subdatas : list Subdata) (weights : list Z) :
  Forall (Forall (fun ow => 0 <= snd ow)) subdatas ->
  Forall (fun w => 0 <= w) weights ->
  let dens := denominators subdatas in
  exists d_prod d_lcm d_joint,
    merge_weights_prod subdatas weights = Ok d_prod /\
    merge_weights_lcm subdatas weights = Ok d_lcm /\
    merge_weights_lcm_joint subdatas weights = Ok d_joint /\
    Py.sum (map snd d_prod)
    = Py.prod (List.filter (fun d => d >? 0) dens) * merged_weight subdatas weights /\
    Py.sum (map snd d_lcm)
    = lcm_list (List.filter (fun d => d >? 0) dens) * merged_weight subdatas weights /\
    Py.sum (map snd d_joint)
    = lcm_list (joint_terms dens weights) * merged_weight subdatas weights.
Proof.
  intros Hsub Hw dens.
  unfold merge_weights_prod, merge_weights_lcm, merge_weights_lcm_joint.
  rewrite (existsb_neg_false _ Hw).
  pose proof (denominators_nonneg subdatas Hsub) as Hnn.
  do 3 eexists. repeat (split; [reflexivity|]).
  split; [|split]; apply merge_with_total; try exact Hnn.
  - apply exact_P.
  - apply exact_L.
  - apply exact_J.
Qed.

Lemma merge_weights_total_witness :
  exists d_prod d_lcm d_joint,
    merge_weights_prod [[(1, 1); (2, 1)]; [(1, 1); (2, 1); (3, 1); (4, 1)]] [2; 2]
    = Ok d_prod /\
    merge_weights_lcm [[(1, 1); (2, 1)]; [(1, 1); (2, 1); (3, 1); (4, 1)]] [2; 2]
    = Ok d_lcm /\
    merge_weights_lcm_joint [[(1, 1); (2, 1)]; [(1, 1); (2, 1); (3, 1); (4, 1)]] [2; 2]
    = Ok d_joint /\
    Py.sum (map snd d_prod) = 8 * 4 /\
    Py.sum (map snd d_lcm) = 4 * 4 /\
    Py.sum (map snd d_joint) = 2 * 4.
Proof.
  apply (merge_weights_total [[(1, 1); (2, 1)]; [(1, 1); (2, 1); (3, 1); (4, 1)]] [2; 2]).
  - repeat (apply List.Forall_cons; [solve_nonneg|]). apply List.Forall_nil.
  - solve_nonneg.
Defined.

End MergeTotals.

Section ReduceFully.

Import CreationArgs.

(** [reduce] keeps the outcomes and divides every weight by the gcd [g]
    of the weights: the weights it leaves have no common factor, it
    changes nothing when applied again, and the policy [reduce] is the
    policy [lcm_joint] followed by it. *)
Theorem reduce_fully_reduces (data : Subdata) :
  let g := gcd_list (map snd data) in
  map fst (reduce_mapping data) = map fst data /\
  map snd data = map (Z.mul (Z.max 1 g)) (map snd (reduce_mapping data)) /\
  gcd_list (map snd (reduce_mapping data)) <= 1 /\
  reduce_mapping (reduce_mapping data) = reduce_mapping data /\
  forall subdatas weights,
    merge_weights_reduce subdatas weights
    = reduce_mapping <$> merge_weights_lcm_joint subdatas weights.
Proof.
  intros g. pose proof (gcd_list_nonneg (map snd data)) as Hg0. fold g in Hg0.
  split; [|split; [|split; [|split]]].
  - unfold reduce_mapping. fold g. destruct (g <=? 1); [reflexivity|].
    rewrite map_map. reflexivity.
  - rewrite reduce_mapping_values. fold g.
    destruct (Z.leb_spec g 1) as [Hle|Hgt].
    + assert (Hcases : g = 0 \/ g = 1) by lia. destruct Hcases as [E|E].
      * pose proof (gcd_list_zero _ E) as Hz. rewrite E.
        change (Z.max 1 0) with 1. rewrite <- (map_id (map snd data)) at 1.
        apply map_ext. intros x. unfold id. lia.
      * rewrite E. change (Z.max 1 1) with 1.
        rewrite <- (map_id (map snd data)) at 1.
        apply map_ext. intros x. unfold id. lia.
    + replace (Z.max 1 g) with g by lia. rewrite map_map.
      rewrite <- (map_id (map snd data)) at 1. apply List.map_ext_Forall.
      eapply List.Forall_impl; [|apply gcd_list_divides]. fold g.
      intros x Hx. unfold id. apply Znumtheory.Zdivide_Zdiv_eq; [lia|exact Hx].
  - rewrite reduce_mapping_values. fold g.
    destruct (Z.leb_spec g 1) as [Hle|Hgt]; [fold g; lia|].
    unfold g. rewrite gcd_list_div by (fold g; lia). lia.
  - apply reduce_mapping_idempotent.
  - apply merge_weights_reduce_eq.
Qed.

End ReduceFully.

Section Cumulative.

Lemma accumulate_nth (l : list Z) :
  forall (acc : Z) (i : nat), (i < length l)%nat ->
  nth i (Die.accumulate acc l) 0 = acc + Py.sum (firstn (S i) l).
Proof.
  induction l as [|x l IH]; intros acc i Hi; simpl in Hi; [lia|].
  destruct i as [|i].
  - cbn [Die.accumulate nth]. change (firstn 1 (x :: l)) with [x].
    rewrite sum_cons. change (Py.sum []) with 0. lia.
  - cbn [Die.accumulate nth]. rewrite IH by lia.
    change (firstn (S (S i)) (x :: l)) with (x :: firstn (S i) l).
    rewrite sum_cons. lia.
Qed.

Lemma accumulate_sub_nth (l : list Z) :
  forall (acc : Z) (i : nat), (i < length l)%nat ->
  nth i (Die.accumulate_sub acc l) 0 = acc - Py.sum (firstn (S i) l).
Proof.
  induction l as [|x l IH]; intros acc i Hi; simpl in Hi; [lia|].
  destruct i as [|i].
  - cbn [Die.accumulate_sub nth]. change (firstn 1 (x :: l)) with [x].
    rewrite sum_cons. change (Py.sum []) with 0. lia.
  - cbn [Die.accumulate_sub nth]. rewrite IH by lia.
    change (firstn (S (S i)) (x :: l)) with (x :: firstn (S i) l).
    rewrite sum_cons. lia.
Qed.

Lemma accumulate_length (l : list Z) (acc : Z) :
  length (Die.accumulate acc l) = length l.
Proof. revert acc. induction l as [|x l IH]; intros acc; simpl; [|rewrite IH]; reflexivity. Qed.

Lemma accumulate_sub_length (l : list Z) (acc : Z) :
  length (Die.accumulate_sub acc l) = length l.
Proof. revert acc. induction l as [|x l IH]; intros acc; simpl; [|rewrite IH]; reflexivity. Qed.

Lemma firstn_skipn_sum (i : nat) (l : list Z) :
  Py.sum (firstn i l) + Py.sum (skipn i l) = Py.sum l.
Proof. rewrite <- sum_app, firstn_skipn. reflexivity. Qed.

Lemma upto_m1_removelast {A : Type} (l : list A) : Py.upto (-1) l = removelast l.
Proof.
  destruct l as [|x l] using rev_ind; [reflexivity|].
  rewrite upto_m1_snoc, removelast_last. reflexivity.
Qed.

Lemma firstn_removelast (i : nat) (l : list Z) :
  (i < length l)%nat -> firstn i (removelast l) = firstn i l.
Proof.
  intros Hi. destruct l as [|x l] using rev_ind; [reflexivity|].
  rewrite removelast_last, firstn_app. rewrite length_app in Hi. simpl in Hi.
  replace (i - length l)%nat with 0%nat by lia. simpl. rewrite app_nil_r. reflexivity.
Qed.

Lemma cweights_nth (d : Die.t) (i : nat) :
  (i < length (Die.weights d))%nat ->
  nth i (Die.cweights d) 0 = Py.sum (firstn (S i) (Die.weights d)).
Proof. intros Hi. unfold Die.cweights. rewrite accumulate_nth by exact Hi. lia. Qed.

Lemma sweights_nth (d : Die.t) (i : nat) :
  (i < length (Die.weights d))%nat ->
  nth i (Die.sweights d) 0 = Py.sum (skipn i (Die.weights d)).
Proof.
  intros Hi. unfold Die.sweights, Die.total_weight.
  destruct i as [|i]; [reflexivity|]. cbn [nth].
  rewrite upto_m1_removelast.
  rewrite accumulate_sub_nth.
  - rewrite firstn_removelast by exact Hi.
    pose proof (firstn_skipn_sum (S i) (Die.weights d)). lia.
  - assert (Hl : length (removelast (Die.weights d))
                 = Nat.pred (length (Die.weights d))).
    { destruct (Die.weights d) as [|x l] using rev_ind; [reflexivity|].
      rewrite removelast_last, length_app. simpl. lia. }
    lia.
Qed.

(** The cumulative weights are the weights of the outcomes up to each
    position and the survival weights those from each position on: at
    every position the two add up to the total weight and the weight at
    the position; the tuples have one entry per outcome, and the survival
    weights of a die without outcomes are [(0,)]. *)
Theorem cumulative_and_survival_weights (d : Die.t) :
  length (Die.cweights d) = length (Die.weights d) /\
  length (Die.sweights d) = Nat.max 1 (length (Die.weights d)) /\
  forall i, (i < length (Die.weights d))%nat ->
    nth i (Die.cweights d) 0 = Py.sum (firstn (S i) (Die.weights d)) /\
    nth i (Die.sweights d) 0 = Py.sum (skipn i (Die.weights d)) /\
    nth i (Die.cweights d) 0 + nth i (Die.sweights d) 0
    = Die.total_weight d + nth i (Die.weights d) 0.
Proof.
  split; [apply accumulate_length|]. split.
  - unfold Die.sweights. cbn [length].
    rewrite accumulate_sub_length, upto_m1_removelast.
    destruct (Die.weights d) as [|x l] using rev_ind; [reflexivity|].
    rewrite removelast_last, length_app. simpl. lia.
  - intros i Hi. rewrite cweights_nth, sweights_nth by exact Hi.
    split; [reflexivity|]. split; [reflexivity|].
    rewrite firstn_snoc by exact Hi. rewrite sum_app, sum_cons.
    change (Py.sum []) with 0. unfold Die.total_weight.
    pose proof (firstn_skipn_sum i (Die.weights d)). lia.
Qed.

End Cumulative.

Section WeightComparisons.

(** A test that holds of everything below what it holds of. *)
Variable p : Z -> bool.
Hypothesis p_down : forall a b, a <= b -> p b = true -> p a = true.

Lemma filter_none {A : Type} (q : A -> bool) (l : list A) :
  Forall (fun x => q x = false) l -> List.filter q l = [].
Proof.
  induction 1 as [|x l Hx _ IH]; [reflexivity|].
  cbn [List.filter]. rewrite Hx. exact IH.
Qed.

Lemma filter_all {A : Type} (q : A -> bool) (l : list A) :
  Forall (fun x => q x = true) l -> List.filter q l = l.
Proof.
  induction 1 as [|x l Hx _ IH]; [reflexivity|].
  cbn [List.filter]. rewrite Hx, IH. reflexivity.
Qed.

Lemma filter_sorted_prefix (l : list (Z * Z)) :
  Py.increasing (map fst l) ->
  let k := length (List.filter p (map fst l)) in
  List.filter (fun ow => p (fst ow)) l = firstn k l /\
  List.filter (fun ow => negb (p (fst ow))) l = skipn k l.
Proof.
  induction l as [|a l IH]; intros Hinc; [split; reflexivity|].
  cbn [map] in Hinc. pose proof (increasing_lt_all _ _ Hinc) as Hlt.
  assert (Hinc' : Py.increasing (map fst l)) by (simpl in Hinc; tauto).
  specialize (IH Hinc'). cbv zeta in IH. destruct IH as [IH1 IH2].
  cbv zeta. cbn [map List.filter]. destruct (p (fst a)) eqn:Hp; cbn [negb length firstn skipn].
  - rewrite IH1, IH2. split; reflexivity.
  - assert (Hno : Forall (fun y => p y = false) (map fst l)).
    { eapply List.Forall_impl; [|exact Hlt]. cbv beta. intros y Hy.
      destruct (p y) eqn:Hpy; [|reflexivity].
      rewrite (p_down (fst a) y) in Hp by (lia || exact Hpy). discriminate. }
    rewrite (filter_none p _ Hno). cbn [length firstn skipn].
    rewrite filter_none, filter_all; [split; reflexivity| |].
    + rewrite List.Forall_map in Hno. eapply List.Forall_impl; [|exact Hno].
      cbv beta. intros x Hx. rewrite Hx. reflexivity.
    + rewrite List.Forall_map in Hno. exact Hno.
Qed.

Lemma weight_where_prefix (d : Die.t) :
  Die.wf d ->
  let k := length (List.filter p (Die.outcomes d)) in
  Die.weight_where p d = Py.sum (firstn k (Die.weights d)) /\
  Die.weight_where (fun x => negb (p x)) d = Py.sum (skipn k (Die.weights d)).
Proof.
  intros Hwf. destruct (filter_sorted_prefix (Die._data d) Hwf) as [H1 H2].
  cbv zeta in *. unfold Die.weight_where, Die.weights, Die.outcomes.
  rewrite H1, H2, firstn_map, skipn_map. split; reflexivity.
Qed.

Lemma existsb_filter {A : Type} (q : A -> bool) (l : list A) :
  existsb q l = match List.filter q l with [] => false | _ :: _ => true end.
Proof.
  induction l as [|x l IH]; [reflexivity|].
  cbn [existsb List.filter]. destruct (q x); [reflexivity|exact IH].
Qed.

Lemma existsb_pointwise {A : Type} (q r : A -> bool) (l : list A) :
  (forall x, q x = r x) -> existsb q l = existsb r l.
Proof.
  intros E. induction l as [|x l IH]; [reflexivity|].
  simpl. rewrite E, IH. reflexivity.
Qed.

Lemma existsb_map_fst (q : Z -> bool) (l : list (Z * Z)) :
  existsb q (map fst l) = existsb (fun ow => q (fst ow)) l.
Proof. induction l as [|x l IH]; [reflexivity|]. simpl. rewrite IH. reflexivity. Qed.

Lemma weights_length (d : Die.t) : Die.len d = Z.of_nat (length (Die.weights d)).
Proof. unfold Die.len, Py.len, Die.weights. rewrite length_map. reflexivity. Qed.

Lemma cumulative_at (d : Die.t) :
  Die.wf d ->
  let k := length (List.filter p (Die.outcomes d)) in
  (if Z.of_nat k >=? Die.len d then Die.total_weight d
   else nth k (Die.cweights d) 0)
  = Die.weight_where p d + nth k (Die.weights d) 0.
Proof.
  intros Hwf k. destruct (weight_where_prefix d Hwf) as [H1 _].
  fold k in H1. rewrite H1, weights_length.
  destruct (Z.of_nat k >=? Z.of_nat (length (Die.weights d))) eqn:E.
  - assert (Hk : (length (Die.weights d) <= k)%nat) by lia.
    rewrite firstn_all2, nth_overflow by exact Hk.
    unfold Die.total_weight. lia.
  - assert (Hk : (k < length (Die.weights d))%nat) by lia.
    rewrite cweights_nth, firstn_snoc by exact Hk.
    rewrite sum_app, sum_cons. change (Py.sum []) with 0. lia.
Qed.

Lemma survival_at (d : Die.t) :
  Die.wf d ->
  let k := length (List.filter p (Die.outcomes d)) in
  (if Z.of_nat k >=? Die.len d then Die.total_weight d
   else nth k (Die.sweights d) 0)
  = if existsb (fun x => negb (p x)) (Die.outcomes d)
    then Die.weight_where (fun x => negb (p x)) d else Die.total_weight d.
Proof.
  intros Hwf k. destruct (weight_where_prefix d Hwf) as [_ H2].
  destruct (filter_sorted_prefix (Die._data d) Hwf) as [_ H3].
  fold k in H2. cbv zeta in H3. fold (Die.outcomes d) in H3. fold k in H3.
  unfold Die.outcomes. rewrite existsb_map_fst, existsb_filter, H3.
  rewrite H2, weights_length.
  assert (Hlen : length (Die._data d) = length (Die.weights d))
    by (unfold Die.weights; rewrite length_map; reflexivity).
  destruct (Z.of_nat k >=? Z.of_nat (length (Die.weights d))) eqn:E.
  - rewrite skipn_all2 by lia. reflexivity.
  - assert (Hk : (k < length (Die.weights d))%nat) by lia.
    rewrite sweights_nth by exact Hk.
    destruct (skipn k (Die._data d)) as [|x l] eqn:Es; [|reflexivity].
    apply (f_equal (@length _)) in Es. rewrite length_skipn in Es.
    simpl in Es. lia.
Qed.

End WeightComparisons.

Section WeightComparisonsTheorem.

(** On a die with increasing outcomes, [weight_ge] and [weight_gt] return
    the weight of the outcomes at or above, resp. above, the outcome asked
    when there is one, and the total weight when there is none;
    [weight_le] and [weight_lt] return the weight of the outcomes at or
    below, resp. below, the outcome asked and that of the next outcome of
    the die on top. *)
Theorem weight_comparisons (d : Die.t) (o : Z) :
  Die.wf d ->
  Die.weight_le d o
  = Die.weight_where (fun x => x <=? o) d
    + nth (Z.to_nat (Py.bisect_right (Die.outcomes d) o)) (Die.weights d) 0 /\
  Die.weight_lt d o
  = Die.weight_where (fun x => x <? o) d
    + nth (Z.to_nat (Py.bisect_left (Die.outcomes d) o)) (Die.weights d) 0 /\
  Die.weight_ge d o
  = (if existsb (fun x => o <=? x) (Die.outcomes d)
     then Die.weight_where (fun x => o <=? x) d else Die.total_weight d) /\
  Die.weight_gt d o
  = (if existsb (fun x => o <? x) (Die.outcomes d)
     then Die.weight_where (fun x => o <? x) d else Die.total_weight d).
Proof.
  intros Hwf.
  assert (Hle : forall a b, a <= b -> (b <=? o) = true -> (a <=? o) = true)
    by (intros a b Hab Hb; apply Z.leb_le; apply Z.leb_le in Hb; lia).
  assert (Hlt : forall a b, a <= b -> (b <? o) = true -> (a <? o) = true)
    by (intros a b Hab Hb; apply Z.ltb_lt; apply Z.ltb_lt in Hb; lia).
  unfold Die.weight_le, Die.weight_lt, Die.weight_ge, Die.weight_gt,
    Py.bisect_left, Py.bisect_right, Py.len. cbv zeta.
  rewrite !Nat2Z.id.
  split; [exact (cumulative_at _ Hle d Hwf)|].
  split; [exact (cumulative_at _ Hlt d Hwf)|].
  split.
  - rewrite (survival_at _ Hlt d Hwf).
    rewrite (existsb_pointwise (fun x => negb (x <? o)) (fun x => o <=? x))
      by (intros x; symmetry; apply Z.leb_antisym).
    unfold Die.weight_where.
    rewrite (List.filter_ext (fun ow : Z * Z => negb (fst ow <? o))
               (fun ow => o <=? fst ow))
      by (intros x; symmetry; apply Z.leb_antisym).
    reflexivity.
  - rewrite (survival_at _ Hle d Hwf).
    rewrite (existsb_pointwise (fun x => negb (x <=? o)) (fun x => o <? x))
      by (intros x; symmetry; apply Z.ltb_antisym).
    unfold Die.weight_where.
    rewrite (List.filter_ext (fun ow : Z * Z => negb (fst ow <=? o))
               (fun ow => o <? fst ow))
      by (intros x; symmetry; apply Z.ltb_antisym).
    reflexivity.
Qed.

Lemma weight_comparisons_witness :
  let d := Die.mk None [(1, 1); (2, 2); (3, 4)] in
  Die.wf d /\
  (Die.weight_le d 1 = 1 + 2 /\ Die.weight_lt d 2 = 1 + 2 /\
   Die.weight_ge d 4 = 7 /\ Die.weight_gt d 1 = 6).
Proof.
  cbv zeta. split; [unfold Die.wf, Die.outcomes; simpl; lia|].
  pose proof (weight_comparisons (Die.mk None [(1, 1); (2, 2); (3, 4)]) 1
                ltac:(unfold Die.wf, Die.outcomes; simpl; lia)) as (H1 & _ & _ & H4).
  pose proof (weight_comparisons (Die.mk None [(1, 1); (2, 2); (3, 4)]) 2
                ltac:(unfold Die.wf, Die.outcomes; simpl; lia)) as (_ & H2 & _ & _).
  pose proof (weight_comparisons (Die.mk None [(1, 1); (2, 2); (3, 4)]) 4
                ltac:(unfold Die.wf, Die.outcomes; simpl; lia)) as (_ & _ & H3 & _).
  split; [rewrite H1; reflexivity|]. split; [rewrite H2; reflexivity|].
  split; [rewrite H3; reflexivity|rewrite H4; reflexivity].
Defined.

End WeightComparisonsTheorem.

Section RepeatAndSumFacts.

Variable D : Type.
Variable add : D -> D -> D.
Variable neg : D -> D.
Variable zero : D -> result D.
Hypothesis add_assoc : forall a b c, add (add a b) c = add a (add b c).

Lemma sum_of_add (self : D) (m n : nat) :
  add (BaseDie.sum_of D add self m) (BaseDie.sum_of D add self n)
  = BaseDie.sum_of D add self (S (m + n)).
Proof.
  induction n as [|n IH].
  - rewrite Nat.add_0_r. reflexivity.
  - cbn [BaseDie.sum_of]. rewrite <- add_assoc, IH.
    replace (m + S n)%nat with (S (m + n)) by lia. reflexivity.
Qed.

Lemma repeat_and_sum_pos_spec (self : D) (p : positive) :
  BaseDie.repeat_and_sum_pos D add self p
  = BaseDie.sum_of D add self (Pos.to_nat p - 1).
Proof.
  induction p as [p IH|p IH|]; cbn [BaseDie.repeat_and_sum_pos].
  - rewrite IH, sum_of_add.
    replace (Pos.to_nat p~1 - 1)%nat
      with (S (S (Pos.to_nat p - 1 + (Pos.to_nat p - 1)))) by lia.
    reflexivity.
  - rewrite IH, sum_of_add. f_equal. lia.
  - reflexivity.
Qed.

End RepeatAndSumFacts.

Section RepeatAndSumTheorem.

(** When [+] is associative, the halving scheme of [repeat_and_sum] is
    the sum of [num_dice] copies of the die, of [- num_dice] copies of
    its negation when [num_dice] is negative, and [zero()] for none. *)
Theorem repeat_and_sum_is_sum (D : Type) (add : D -> D -> D) (neg : D -> D)
    (zero : D -> result D) (self : D) (num_dice : Z) :
  (forall a b c, add (add a b) c = add a (add b c)) ->
  BaseDie.repeat_and_sum D add neg zero self num_dice
  = if num_dice =? 0 then zero self
    else Ok (BaseDie.sum_of D add (if num_dice <? 0 then neg self else self)
               (Z.to_nat (Z.abs num_dice) - 1)).
Proof.
  intros Hassoc. destruct num_dice as [|p|p]; cbn [BaseDie.repeat_and_sum].
  - reflexivity.
  - rewrite (repeat_and_sum_pos_spec D add Hassoc). reflexivity.
  - rewrite (repeat_and_sum_pos_spec D add Hassoc). reflexivity.
Qed.

Lemma repeat_and_sum_is_sum_witness :
  BaseDie.repeat_and_sum Z Z.add Z.opp (fun _ => Ok 0) 2 (-5) = Ok (-10).
Proof.
  rewrite (repeat_and_sum_is_sum Z Z.add Z.opp (fun _ => Ok 0) 2 (-5)
             ltac:(intros; lia)).
  reflexivity.
Defined.

End RepeatAndSumTheorem.

Section CheckNdim.

Lemma check_ndim_from_some (n : Z) (dice : list Die.t) :
  BaseDie._check_ndim_from (Some n) dice
  = if forallb (fun d => bool_decide (Die.ndim d = Some n)) dice
    then Ok (Some n) else Raise ValueError.
Proof.
  induction dice as [|d dice IH]; [reflexivity|].
  cbn [BaseDie._check_ndim_from forallb].
  destruct (bool_decide (Die.ndim d = Some n)); [exact IH|reflexivity].
Qed.

(** For dice that have an [ndim], [_check_ndim] returns the [ndim] they
    share and raises [ValueError], and nothing else, when two of them
    differ; without dice it returns [None]. *)
Theorem check_ndim_spec (dice : list Die.t) :
  Forall (fun d => Die.ndim d <> None) dice ->
  (BaseDie._check_ndim dice = Ok None <-> dice = []) /\
  (forall n, BaseDie._check_ndim dice = Ok (Some n)
             <-> dice <> [] /\ Forall (fun d => Die.ndim d = Some n) dice) /\
  (forall e, BaseDie._check_ndim dice = Raise e
             <-> e = ValueError /\
                 exists d1 d2, In d1 dice /\ In d2 dice /\ Die.ndim d1 <> Die.ndim d2).
Proof.
  intros Hsome. unfold BaseDie._check_ndim.
  destruct dice as [|d dice]; cbn [BaseDie._check_ndim_from].
  - split; [tauto|]. split.
    + intros n. split; [discriminate|]. intros [H _]. congruence.
    + intros e. split; [discriminate|]. intros [_ (d1 & _ & [] & _)].
  - apply List.Forall_cons_iff in Hsome as [Hd Hrest].
    destruct (Die.ndim d) as [n|] eqn:En; [clear Hd|congruence].
    rewrite check_ndim_from_some.
    destruct (forallb _ dice) eqn:Eall.
    + rewrite forallb_forall in Eall.
      assert (Hall : Forall (fun d0 => Die.ndim d0 = Some n) (d :: dice)).
      { constructor; [exact En|]. apply List.Forall_forall. intros x Hx.
        apply (bool_decide_eq_true_1 _). apply Eall. exact Hx. }
      split; [split; discriminate|]. split.
      * intros m. split.
        -- intros [= <-]. split; [discriminate|exact Hall].
        -- intros [_ Hm]. apply List.Forall_cons_iff in Hm as [Hm _]. congruence.
      * intros e. split; [discriminate|].
        intros [_ (d1 & d2 & H1 & H2 & Hne)].
        rewrite List.Forall_forall in Hall.
        rewrite (Hall _ H1), (Hall _ H2) in Hne. congruence.
    + split; [split; discriminate|]. split.
      * intros m. split; [discriminate|]. intros [_ Hm].
        apply List.Forall_cons_iff in Hm as [Hm Hm']. 
        assert (m = n) as -> by congruence.
        assert (forallb (fun d0 => bool_decide (Die.ndim d0 = Some n)) dice = true); [|congruence].
        apply forallb_forall. intros x Hx. apply bool_decide_eq_true_2.
        rewrite List.Forall_forall in Hm'. apply Hm'. exact Hx.
      * intros e. split.
        -- intros [= <-]. split; [reflexivity|].
           assert (Hex : exists x, In x dice /\ Die.ndim x <> Some n).
           { clear - Eall. induction dice as [|x dice IH]; [discriminate|].
             cbn [forallb] in Eall. apply andb_false_iff in Eall as [Hx|Hx].
             - exists x. split; [left; reflexivity|].
               apply bool_decide_eq_false in Hx. exact Hx.
             - destruct (IH Hx) as (y & Hy & Hne). exists y. split; [right; exact Hy|exact Hne]. }
           destruct Hex as (x & Hx & Hne).
           exists d, x. split; [left; reflexivity|]. split; [right; exact Hx|].
           rewrite En. congruence.
        -- intros [-> _]. reflexivity.
Qed.

Lemma check_ndim_spec_witness :
  BaseDie._check_ndim [Die.mk (Some 2) []; Die.mk (Some 3) []] = Raise ValueError.
Proof.
  apply (proj2 (proj2 (check_ndim_spec [Die.mk (Some 2) []; Die.mk (Some 3) []]
    ltac:(repeat constructor; discriminate)))).
  split; [reflexivity|].
  exists (Die.mk (Some 2) []), (Die.mk (Some 3) []).
  split; [left; reflexivity|]. split; [right; left; reflexivity|]. discriminate.
Defined.

End CheckNdim.

Section FoldDictAdd.

Context {A K : Type} `{EqDecision K}.
Variable key : A -> K.
Variable w : A -> Z.

(** What a [defaultdict(int)] holds after [data[key(a)] += w(a)] for
    every [a]. *)
Lemma fold_dict_add (l : list A) :
  forall d0 : list (K * Z),
  let d := fold_left (fun data a => Py.dict_add (key a) (w a) data) l d0 in
  (List.NoDup (map fst d0) -> List.NoDup (map fst d)) /\
  Py.sum (map snd d) = Py.sum (map snd d0) + Py.sum (map w l) /\
  forall k, Py.dict_get k 0 d
            = Py.dict_get k 0 d0
              + Py.sum (map w (List.filter (fun a => bool_decide (key a = k)) l)).
Proof.
  induction l as [|a l IH]; intros d0; cbv zeta; cbn [fold_left].
  - split; [tauto|]. split; [change (Py.sum (map w [])) with 0; lia|].
    intros k. change (Py.sum _) with 0 at 1. cbn [List.filter map].
    change (Py.sum []) with 0. lia.
  - specialize (IH (Py.dict_add (key a) (w a) d0)). cbv zeta in IH.
    destruct IH as (IH1 & IH2 & IH3). split; [|split].
    + intros Hnd. apply IH1, dict_add_NoDup_gen, Hnd.
    + rewrite IH2, dict_add_total_gen. cbn [map]. rewrite sum_cons. lia.
    + intros k. rewrite IH3, dict_add_get. cbn [List.filter].
      destruct (decide (key a = k)) as [E|E].
      * rewrite (bool_decide_eq_true_2 _ E). cbn [map]. rewrite sum_cons. lia.
      * rewrite (bool_decide_eq_false_2 _ E). lia.
Qed.

End FoldDictAdd.

Section MultiDieOps.

Lemma fold_left_pointwise {A B : Type} (f g : A -> B -> A) (l : list B) (a : A) :
  (forall x y, f x y = g x y) -> fold_left f l a = fold_left g l a.
Proof.
  intros E. revert a. induction l as [|y l IH]; intros a; [reflexivity|].
  cbn [fold_left]. rewrite E. apply IH.
Qed.

Lemma sum_list_prod {A B : Type} (f : A -> Z) (g : B -> Z)
    (l1 : list A) (l2 : list B) :
  Py.sum (map (fun p => f (fst p) * g (snd p)) (list_prod l1 l2))
  = Py.sum (map f l1) * Py.sum (map g l2).
Proof.
  induction l1 as [|x l1 IH]; [reflexivity|].
  cbn [list_prod map]. rewrite map_app, sum_app, IH, map_map, sum_cons.
  cbn [fst snd]. rewrite sum_map_scale. lia.
Qed.

(** The operators of a multivariate die lose no weight and merge what
    they send to the same outcome: each new outcome weighs what the
    outcomes sent to it weigh together, under [binary_op] the products of
    the weights of the pairs; the totals are the total weight of the die,
    resp. the product of the two total weights. *)
Theorem multi_ops_conserve_weight (self other : MultiDie.Items)
    (op1 : Z -> Z) (op2 : Z -> Z -> Z) :
  let u := MultiDie.unary_op self op1 in
  let b := MultiDie.binary_op self other op2 in
  (List.NoDup (map fst u) /\
   Py.sum (map snd u) = Py.sum (map snd self) /\
   forall t, Py.dict_get t 0 u
     = Py.sum (map snd (List.filter
                          (fun ow => bool_decide (map op1 (fst ow) = t)) self))) /\
  (List.NoDup (map fst b) /\
   Py.sum (map snd b) = Py.sum (map snd self) * Py.sum (map snd other) /\
   forall t, Py.dict_get t 0 b
     = Py.sum (map (fun p => snd (fst p) * snd (snd p))
                 (List.filter (fun p => bool_decide (paired op2 p = t))
                    (list_prod self other)))).
Proof.
  cbv zeta. split.
  - unfold MultiDie.unary_op.
    destruct (fold_dict_add (fun ow : list Z * Z => map op1 (fst ow)) snd self [])
      as (H1 & H2 & H3). cbv zeta in *.
    split; [apply H1; constructor|]. split; [rewrite H2; reflexivity|].
    intros t. rewrite H3. reflexivity.
  - unfold MultiDie.binary_op.
    rewrite (fold_left_pointwise _
               (fun data p => Py.dict_add (paired op2 p)
                                (snd (fst p) * snd (snd p)) data))
      by (intros data [[o1 w1] [o2 w2]]; reflexivity).
    destruct (fold_dict_add (paired op2)
                (fun p : (list Z * Z) * (list Z * Z) => snd (fst p) * snd (snd p))
                (list_prod self other) [])
      as (H1 & H2 & H3). cbv zeta in *.
    split; [apply H1; constructor|]. split.
    + rewrite H2, (sum_list_prod snd snd). reflexivity.
    + intros t. rewrite H3. reflexivity.
Qed.

End MultiDieOps.

Section SortedPermutation.

Lemma insert_int_Permutation (x : Z) (l : list Z) :
  Permutation (Py.insert_int x l) (x :: l).
Proof.
  induction l as [|y l IH]; simpl; [reflexivity|].
  destruct (x <=? y); [reflexivity|].
  rewrite IH. apply perm_swap.
Qed.

Lemma sorted_Permutation (l : list Z) : Permutation (Py.sorted l) l.
Proof.
  induction l as [|x l IH]; simpl; [reflexivity|].
  rewrite insert_int_Permutation, IH. reflexivity.
Qed.

Lemma nondecreasing_NoDup_increasing (l : list Z) :
  Py.nondecreasing l -> List.NoDup l -> Py.increasing l.
Proof.
  induction l as [|x l IH]; intros Hs Hnd; [exact I|].
  apply List.NoDup_cons_iff in Hnd as [Hx Hnd]. destruct Hs as [Hle Hs].
  split; [|apply IH; assumption].
  destruct l as [|y l]; [exact I|].
  assert (x <> y) by (intros ->; apply Hx; left; reflexivity). lia.
Qed.

Lemma sorted_increasing (l : list Z) : List.NoDup l -> Py.increasing (Py.sorted l).
Proof.
  intros Hnd. apply nondecreasing_NoDup_increasing; [apply sorted_nondecreasing|].
  eapply Permutation_NoDup; [symmetry; apply sorted_Permutation|exact Hnd].
Qed.

Lemma dict_get_absent {K : Type} `{EqDecision K} (k : K) (d : list (K * Z)) :
  ~ In k (map fst d) -> Py.dict_get k 0 d = 0.
Proof.
  induction d as [|[k0 v0] d IH]; simpl; intros Hn; [reflexivity|].
  destruct (decide (k0 = k)); [tauto|]. apply IH. tauto.
Qed.

Lemma mapM_raise_inv {A B : Type} (f : A -> result B) (l : list A) (e : exn) :
  mapM f l = Raise e <->
  exists l1 x l2, l = l1 ++ x :: l2 /\
    Forall (fun y => exists z, f y = Ok z) l1 /\ f x = Raise e.
Proof.
  revert e. induction l as [|a l IH]; intros e.
  - split; [discriminate|]. intros (l1 & x & l2 & E & _). destruct l1; discriminate.
  - cbn [mapM]. destruct (f a) as [b|e'] eqn:Ea; cbn.
    + destruct (mapM f l) as [ys|e''] eqn:El; cbn.
      * split; [discriminate|]. intros (l1 & x & l2 & E & Hok & Hx).
        destruct l1 as [|a' l1]; injection E as <- ->.
        -- congruence.
        -- apply List.Forall_cons_iff in Hok as [_ Hok].
           assert (Ok ys = Raise e :> result (list B)); [|discriminate].
           apply IH. exists l1, x, l2. auto.
      * split.
        -- intros [= <-]. destruct (proj1 (IH e'') eq_refl) as (l1 & x & l2 & -> & Hok & Hx).
           exists (a :: l1), x, l2. split; [reflexivity|]. split; [|exact Hx].
           constructor; [eauto|exact Hok].
        -- intros (l1 & x & l2 & E & Hok & Hx).
           destruct l1 as [|a' l1]; injection E as <- ->; [congruence|].
           apply List.Forall_cons_iff in Hok as [_ Hok].
           assert (Raise e'' = Raise e :> result (list B)); [|congruence].
           apply IH. exists l1, x, l2. auto.
    + split.
      * intros [= <-]. exists [], a, l. split; [reflexivity|]. split; [constructor|exact Ea].
      * intros (l1 & x & l2 & E & Hok & Hx).
        destruct l1 as [|a' l1]; injection E as <- ->; [congruence|].
        apply List.Forall_cons_iff in Hok as [[z Hz] _]. congruence.
Qed.

End SortedPermutation.

Section WeightsInit.

Lemma check_item_ok (x : Weights.key * Weights.value) (y : Z * Z) :
  Weights.check_item x = Ok y <-> x = given_item y /\ 0 <= snd y.
Proof.
  destruct x as [[| |k] [v|]]; unfold Weights.check_item, given_item; cbn [fst snd];
    try (split; [discriminate|intros [[=] _]]).
  destruct (Z.ltb_spec v 0).
  - split; [discriminate|]. intros [[= -> ->] Hv]. lia.
  - split.
    + intros [= <-]. split; [reflexivity|exact H].
    + intros [[= -> ->] _]. destruct y; reflexivity.
Qed.

Lemma checked_items (d : list (Weights.key * Weights.value)) (items : list (Z * Z)) :
  mapM Weights.check_item d = Ok items ->
  d = map given_item items /\ Forall (fun kv => 0 <= snd kv) items.
Proof.
  intros H. apply mapM_inv in H.
  induction H as [|x y d items Hxy _ [IH1 IH2]]; [split; [reflexivity|constructor]|].
  apply check_item_ok in Hxy as [-> Hy]. split; [cbn [map]; rewrite IH1; reflexivity|].
  constructor; assumption.
Qed.

(** [Weights(d)] on a dict [d] either holds the items of [d] under
    strictly increasing keys, none of them negative, and looks a key up
    to its weight, or to 0 when the key is missing; or it raises what the
    first item that fails its checks raises: [TypeError] for its key,
    [ValueError] for its value. *)
Theorem weights_init_spec (d : list (Weights.key * Weights.value)) :
  List.NoDup (map fst d) ->
  (forall w, Weights.__init__ d = Ok w ->
     Py.increasing (Weights.keys w) /\
     Forall (fun v => 0 <= v) (Weights.values w) /\
     Weights.__len__ w = Py.len d /\
     (forall k v, In (k, v) (Weights.items w)
                  <-> In (Weights.KeyOutcome k, Weights.ValInt v) d) /\
     (forall k v, In (k, v) (Weights.items w) -> Weights.__getitem__ w k = v) /\
     (forall k, Weights.__contains__ w k = false -> Weights.__getitem__ w k = 0) /\
     (Weights.has_zero_weights w = true <-> In 0 (Weights.values w))) /\
  (forall e, Weights.__init__ d = Raise e <->
     exists l1 x l2, d = l1 ++ x :: l2 /\
       Forall (fun y => exists z, Weights.check_item y = Ok z) l1 /\
       Weights.check_item x = Raise e) /\
  (forall e, Weights.__init__ d = Raise e -> e = TypeError \/ e = ValueError).
Proof.
  intros Hnd.
  assert (Hraise : forall e, Weights.__init__ d = Raise e <->
            mapM Weights.check_item d = Raise e).
  { intros e. unfold Weights.__init__.
    destruct (mapM Weights.check_item d); cbn; split; congruence. }
  split; [|split].
  - intros w Hw. unfold Weights.__init__ in Hw.
    apply bind_ok_inv in Hw as (items & Hitems & [= <-]).
    apply checked_items in Hitems as [-> Hnn].
    assert (Hnd' : List.NoDup (map fst items)).
    { rewrite map_map in Hnd. cbn [given_item fst] in Hnd.
      rewrite <- (map_map fst Weights.KeyOutcome) in Hnd.
      apply NoDup_map_inv in Hnd. exact Hnd. }
    unfold Weights.keys, Weights.values, Weights.items, Weights.__len__,
      Weights.__getitem__, Weights.__contains__, Weights.has_zero_weights.
    cbn [Weights._d Weights._has_zero_weights].
    set (ks := Py.sorted (map fst items)).
    set (dd := map (fun k => (k, Py.dict_get k 0 items)) ks).
    assert (Hkeys : map fst dd = ks).
    { unfold dd. rewrite map_map. cbn [fst]. apply map_id. }
    assert (Hinc : Py.increasing ks) by (apply sorted_increasing; exact Hnd').
    assert (Hin : forall k v, In (k, v) dd <-> In (k, v) items).
    { intros k v. unfold dd. rewrite in_map_iff. split.
      - intros (k' & [= -> <-] & Hk). apply (proj1 (sorted_In _ _)) in Hk.
        apply In_dict_get; [exact Hnd'|]. split; [exact Hk|reflexivity].
      - intros Hkv. apply In_dict_get in Hkv as [Hk Hv]; [|exact Hnd'].
        exists k. split; [rewrite Hv; reflexivity|]. apply sorted_In. exact Hk. }
    assert (Hnd'' : List.NoDup (map fst dd))
      by (rewrite Hkeys; apply increasing_NoDup; exact Hinc).
    rewrite Hkeys. split; [exact Hinc|]. split; [|split; [|split; [|split; [|split]]]].
    + apply List.Forall_forall. intros v Hv. apply in_map_iff in Hv as ([k v'] & <- & Hkv).
      apply Hin in Hkv. rewrite List.Forall_forall in Hnn. apply (Hnn _ Hkv).
    + unfold Py.len, dd, ks. rewrite !length_map, sorted_length, length_map. reflexivity.
    + intros k v. rewrite Hin. rewrite in_map_iff. split.
      * intros Hkv. exists (k, v). split; [reflexivity|exact Hkv].
      * intros ([k' v'] & [= -> ->] & Hkv). exact Hkv.
    + intros k v Hkv. apply In_dict_get in Hkv as [_ Hv]; [exact Hv|exact Hnd''].
    + intros k Hk. apply dict_get_absent. rewrite Hkeys. intros Hink.
      assert (existsb (Z.eqb k) ks = true); [|congruence].
      apply existsb_exists. exists k. split; [exact Hink|apply Z.eqb_refl].
    + assert (Hval : forall v, In v (map snd dd) <-> In v (map snd items)).
      { intros v. rewrite !in_map_iff. split; intros ([k v'] & <- & Hkv);
          exists (k, v'); (split; [reflexivity|apply Hin; exact Hkv]). }
      rewrite Hval, existsb_exists. split.
      * intros (x & Hx & Hb). apply Z.eqb_eq in Hb. subst x. exact Hx.
      * intros H0. exists 0. split; [exact H0|reflexivity].
  - intros e. rewrite Hraise. apply mapM_raise_inv.
  - intros e He. apply Hraise, mapM_raise_inv in He as (_ & x & _ & _ & _ & Hx).
    destruct x as [[| |k] [v|]]; unfold Weights.check_item in Hx; cbn [fst snd] in Hx;
      try (injection Hx as <-; tauto).
    destruct (v <? 0); [injection Hx as <-; tauto|discriminate].
Qed.

Lemma weights_init_spec_witness :
  Weights.__init__
    [(Weights.KeyOutcome 1, Weights.ValInt 2); (Weights.KeySpecial, Weights.ValInt (-1));
     (Weights.KeyOutcome 2, Weights.ValOther)]
  = Raise TypeError.
Proof.
  apply (proj1 (proj2 (weights_init_spec
    [(Weights.KeyOutcome 1, Weights.ValInt 2); (Weights.KeySpecial, Weights.ValInt (-1));
     (Weights.KeyOutcome 2, Weights.ValOther)]
    ltac:(repeat constructor; simpl; intuition discriminate)))).
  exists [(Weights.KeyOutcome 1, Weights.ValInt 2)],
    (Weights.KeySpecial, Weights.ValInt (-1)),
    [(Weights.KeyOutcome 2, Weights.ValOther)].
  split; [reflexivity|]. split; [|reflexivity].
  constructor; [exists (1, 2); reflexivity|constructor].
Defined.

End WeightsInit.

Section FromCumulative.

Lemma dict_set_fresh {K : Type} `{EqDecision K} (k : K) (v : Z) (d : list (K * Z)) :
  ~ In k (map fst d) -> Py.dict_set k v d = d ++ [(k, v)].
Proof.
  induction d as [|[k' v'] d IH]; simpl; intros Hn; [reflexivity|].
  destruct (decide (k' = k)) as [->|Hne]; [tauto|].
  rewrite IH by tauto. reflexivity.
Qed.

Lemma from_cumulative_loop_spec (pairs : list (Z * Z)) :
  forall (prev : Z) (d : list (Z * Z)),
  List.NoDup (map fst d ++ map fst pairs) ->
  exists d', Func.from_cumulative_loop prev pairs d = d ++ d' /\
             map fst d' = map fst pairs /\
             Die.accumulate prev (map snd d') = map snd pairs.
Proof.
  induction pairs as [|[o q] pairs IH]; intros prev d Hnd.
  - exists []. rewrite app_nil_r. repeat split; reflexivity.
  - cbn [Func.from_cumulative_loop]. cbn [map fst] in Hnd.
    rewrite dict_set_fresh.
    2:{ apply NoDup_remove_2 in Hnd. intros Hin. apply Hnd.
        apply in_or_app. left. exact Hin. }
    destruct (IH q (d ++ [(o, q - prev)])) as (d' & E & Hk & Hc).
    { rewrite map_app. cbn [map fst]. rewrite <- app_assoc. exact Hnd. }
    exists ((o, q - prev) :: d'). rewrite E, <- app_assoc. split; [reflexivity|].
    cbn [map fst snd Die.accumulate]. rewrite Hk.
    replace (prev + (q - prev)) with q by lia. rewrite Hc.
    split; reflexivity.
Qed.

(** [from_cumulative_quantities] undoes the cumulation: over outcomes
    that are distinct, the mapping it builds holds the outcomes in the
    order the loop meets them, and its quantities cumulate to the
    quantities given. *)
Theorem from_cumulative_quantities_inverts (outcomes cumulative_quantities : list Z)
    (reverse : bool) :
  List.NoDup outcomes ->
  length cumulative_quantities = length outcomes ->
  let d := Func.from_cumulative_quantities outcomes cumulative_quantities reverse in
  map fst d = (if reverse then List.rev outcomes else outcomes) /\
  Die.accumulate 0 (map snd d)
  = (if reverse then List.rev cumulative_quantities else cumulative_quantities).
Proof.
  intros Hnd Hlen. cbv zeta. unfold Func.from_cumulative_quantities.
  set (os := if reverse then List.rev outcomes else outcomes).
  set (cs := if reverse then List.rev cumulative_quantities else cumulative_quantities).
  assert (Hnd' : List.NoDup os)
    by (unfold os; destruct reverse; [apply List.NoDup_rev|]; exact Hnd).
  assert (Hlen' : length cs = length os)
    by (unfold os, cs; destruct reverse; rewrite ?length_rev; exact Hlen).
  destruct (from_cumulative_loop_spec (combine os cs) 0 []) as (d' & E & Hk & Hc).
  { cbn [map app]. rewrite combine_fst_eq by exact Hlen'. exact Hnd'. }
  rewrite E. cbn [app]. rewrite Hk, Hc.
  rewrite combine_fst_eq, combine_snd_eq by exact Hlen'. split; reflexivity.
Qed.

Lemma from_cumulative_quantities_inverts_witness :
  let d := Func.from_cumulative_quantities [1; 2; 3] [1; 3; 6] true in
  map fst d = [3; 2; 1] /\ Die.accumulate 0 (map snd d) = [6; 3; 1].
Proof.
  apply (from_cumulative_quantities_inverts [1; 2; 3] [1; 3; 6] true).
  - repeat constructor; simpl; intuition lia.
  - reflexivity.
Defined.

End FromCumulative.

Section CartesianProduct.

Lemma product_same {A : Type} (iters : list (list A)) :
  Py.product iters = EvalPool.product iters.
Proof.
  induction iters as [|l iters IH]; [reflexivity|].
  cbn [Py.product EvalPool.product]. rewrite IH. reflexivity.
Qed.

Lemma product_lengths {A : Type} (iters : list (list A)) :
  Forall (fun t => length t = length iters) (Py.product iters).
Proof.
  induction iters as [|l iters IH]; [repeat constructor|].
  cbn [Py.product]. apply List.Forall_flat_map. apply List.Forall_forall.
  intros x _. apply List.Forall_map. eapply List.Forall_impl; [|exact IH].
  cbv beta. intros t Ht. cbn [length]. rewrite Ht. reflexivity.
Qed.

Lemma apply_fold (func : list Z -> Func.returned) (joint : list (list Z * Z)) :
  forall acc : list Z * list Z,
  let r := fold_left
             (fun acc oq =>
                match func (fst oq) with
                | Func.Reroll => acc
                | Func.Outcome final_outcome =>
                    (fst acc ++ [final_outcome], snd acc ++ [snd oq])
                end) joint acc in
  (length (fst acc) = length (snd acc) -> length (fst r) = length (snd r)) /\
  Py.sum (snd r)
  = Py.sum (snd acc)
    + Py.sum (map snd (List.filter
                         (fun oq => match func (fst oq) with
                                    | Func.Reroll => false
                                    | Func.Outcome _ => true
                                    end) joint)).
Proof.
  induction joint as [|oq joint IH]; intros acc; cbv zeta; cbn [fold_left].
  - split; [tauto|]. cbn [List.filter map]. change (Py.sum []) with 0. lia.
  - cbn [List.filter]. destruct (func (fst oq)) as [x|].
    + specialize (IH (fst acc ++ [x], snd acc ++ [snd oq])). cbv zeta in IH.
      destruct IH as [IH1 IH2]. split.
      * intros Hl. apply IH1. cbn [fst snd]. rewrite !length_app, Hl. reflexivity.
      * rewrite IH2. cbn [fst snd map]. rewrite sum_app, !sum_cons.
        change (Py.sum []) with 0. lia.
    + apply IH.
Qed.

(** The joint distribution of dice and other arguments weighs the
    product of their denominators, anything but a die counting 1, in
    tuples of one outcome per argument; without arguments
    [iter_cartesian_product] raises [ValueError].  [apply] hands on one
    quantity per outcome, the quantities of the tuples that [func] does
    not reroll: all of the product when it rerolls none. *)
Theorem joint_distribution_weight (args : list Func.arg)
    (func : list Z -> Func.returned) :
  Func.iter_cartesian_product [] = Raise ValueError /\
  (args <> [] ->
   exists joint outs qs,
     Func.iter_cartesian_product args = Ok joint /\
     Py.sum (map snd joint) = Py.prod (map Func.arg_denominator args) /\
     Forall (fun oq => length (fst oq) = length args) joint /\
     Func.apply_lists func args = Ok (outs, qs) /\
     length outs = length qs /\
     Py.sum qs
     = Py.sum (map snd (List.filter
                          (fun oq => match func (fst oq) with
                                     | Func.Reroll => false
                                     | Func.Outcome _ => true
                                     end) joint)) /\
     ((forall t, func t <> Func.Reroll) ->
      Py.sum qs = Py.prod (map Func.arg_denominator args))).
Proof.
  split; [reflexivity|]. intros Hne.
  set (iters := map (fun arg => match arg with
                                | Func.ArgDie items => items
                                | Func.ArgOther x => [(x, 1)]
                                end) args).
  set (joint := map (fun t : list (Z * Z) => (map fst t, Py.prod (map snd t)))
                  (Py.product iters)).
  assert (Hj : Func.iter_cartesian_product args = Ok joint)
    by (destruct args; [congruence|reflexivity]).
  assert (Hsum : Py.sum (map snd joint) = Py.prod (map Func.arg_denominator args)).
  { unfold joint. rewrite map_map. cbn [snd]. rewrite product_same, product_sum.
    unfold iters. rewrite map_map. f_equal. apply map_ext.
    intros [items|x]; cbn [Func.arg_denominator]; [reflexivity|].
    unfold Py.sum. simpl. lia. }
  destruct (apply_fold func joint ([], [])) as [Hlen Hq]. cbv zeta in Hlen, Hq.
  eexists joint, _, _. split; [exact Hj|]. split; [exact Hsum|]. split.
  { unfold joint. apply List.Forall_map. 
    eapply List.Forall_impl; [|apply product_lengths].
    cbv beta. intros t Ht. cbn [fst]. rewrite length_map, Ht. unfold iters.
    apply length_map. }
  split.
  { unfold Func.apply_lists. rewrite Hj. cbn. apply f_equal. apply surjective_pairing. }
  split; [apply Hlen; reflexivity|]. split.
  { rewrite Hq. cbn [snd]. change (Py.sum []) with 0. lia. }
  intros Hnr. rewrite Hq, <- Hsum. cbn [snd]. change (Py.sum []) with 0.
  rewrite filter_all; [lia|]. apply List.Forall_forall. intros oq _.
  destruct (func (fst oq)) eqn:E; [reflexivity|]. destruct (Hnr _ E).
Qed.

End CartesianProduct.

Section AlignmentFacts.

Lemma nondecreasing_app_inv (l1 l2 : list Z) :
  Py.nondecreasing (l1 ++ l2) -> Py.nondecreasing l1 /\ Py.nondecreasing l2.
Proof.
  induction l1 as [|x l1 IH]; simpl; [tauto|].
  intros [Hx H]. destruct (IH H) as [H1 H2]. repeat split; try assumption.
  destruct l1 as [|y l1]; simpl in *; [exact I|exact Hx].
Qed.

Lemma nondecreasing_removelast (l : list Z) :
  Py.nondecreasing l -> Py.nondecreasing (removelast l).
Proof.
  destruct l as [|x l] using rev_ind; [tauto|].
  rewrite removelast_last. intros H. apply nondecreasing_app_inv in H. tauto.
Qed.

Lemma last_item_rev {A : Type} (l : list A) :
  Py.last_item l = match List.rev l with [] => Raise IndexError | x :: _ => Ok x end.
Proof.
  reflexivity.
Qed.

(** An [Alignment] holds its outcomes in sorted order and yields one
    branch of weight 1: asked for its min, resp. max, outcome it leaves
    the other outcomes, in the order they were in, with no count; asked
    for anything else, or when empty, it leaves itself with the one
    count 0. *)
Theorem alignment_generate (l : list Z) (o : Z) :
  let a := Alignment.__init__ l in
  Py.nondecreasing (Alignment.outcomes a) /\
  (forall x, In x (Alignment.outcomes a) <-> In x l) /\
  (Alignment.min_outcome a = Ok o ->
   Alignment._generate_min a o
   = [(Alignment.mk (Py.from 1 (Alignment.outcomes a)), [], 1)]) /\
  (Alignment.min_outcome a <> Ok o ->
   Alignment._generate_min a o = [(a, [0], 1)]) /\
  (Alignment.max_outcome a = Ok o ->
   Alignment._generate_max a o
   = [(Alignment.mk (Py.upto (-1) (Alignment.outcomes a)), [], 1)]) /\
  (Alignment.max_outcome a <> Ok o ->
   Alignment._generate_max a o = [(a, [0], 1)]) /\
  Forall (fun b : Alignment.branch =>
            snd b = 1 /\ Py.nondecreasing (Alignment.outcomes (fst (fst b))))
    (Alignment._generate_min a o ++ Alignment._generate_max a o).
Proof.
  cbv zeta. unfold Alignment.__init__, Alignment.outcomes.
  cbn [Alignment._outcomes].
  pose proof (sorted_nondecreasing l) as Hs.
  unfold Alignment._generate_min, Alignment._generate_max,
    Alignment.min_outcome, Alignment.max_outcome, Alignment.outcomes,
    Alignment.__init__, Py.first_item.
  cbn [Alignment._outcomes]. rewrite last_item_rev.
  assert (Hfrom : Py.nondecreasing (Py.from 1 (Py.sorted l))).
  { destruct (Py.sorted l) as [|x s]; [exact I|]. rewrite from_1_cons. apply Hs. }
  assert (Hupto : Py.nondecreasing (Py.upto (-1) (Py.sorted l)))
    by (rewrite upto_m1_removelast; apply nondecreasing_removelast, Hs).
  rewrite (sorted_id _ Hfrom), (sorted_id _ Hupto).
  split; [exact Hs|]. split; [intros x; apply sorted_In|].
  split; [|split; [|split; [|split]]].
  - destruct (Py.sorted l) as [|x s]; [discriminate|]. intros [= ->].
    rewrite Z.eqb_refl. reflexivity.
  - destruct (Py.sorted l) as [|x s]; [reflexivity|]. intros Hne.
    destruct (Z.eqb_spec o x) as [->|_]; [congruence|reflexivity].
  - destruct (List.rev (Py.sorted l)) as [|x s]; [discriminate|]. intros [= ->].
    rewrite Z.eqb_refl. reflexivity.
  - destruct (List.rev (Py.sorted l)) as [|x s]; [reflexivity|]. intros Hne.
    destruct (Z.eqb_spec o x) as [->|_]; [congruence|reflexivity].
  - apply List.Forall_app. split.
    + destruct (Py.sorted l) as [|x s] eqn:Es;
        [|destruct (negb (o =? x))];
        (constructor; [split; [reflexivity|]|constructor]);
        cbn [fst snd Alignment.outcomes Alignment._outcomes];
        first [exact Hs | exact Hfrom].
    + destruct (List.rev (Py.sorted l)) as [|x s] eqn:Es;
        [|destruct (negb (o =? x))];
        (constructor; [split; [reflexivity|]|constructor]);
        cbn [fst snd Alignment.outcomes Alignment._outcomes];
        first [exact Hs | exact Hupto].
Qed.

End AlignmentFacts.

Section KeepOnes.

Lemma upto_repeat {A : Type} (x : A) (i j : Z) :
  0 <= j -> Py.upto i (Py.repeat x j) = Py.repeat x (Py.clamp j i).
Proof.
  intros Hj. unfold Py.upto. rewrite len_repeat, Z.max_r by exact Hj.
  unfold Py.repeat. rewrite firstn_repeat. f_equal.
  pose proof (clamp_bounds j i Hj). lia.
Qed.

Lemma from_repeat {A : Type} (x : A) (i j : Z) :
  0 <= j -> Py.from i (Py.repeat x j) = Py.repeat x (j - Py.clamp j i).
Proof.
  intros Hj. unfold Py.from. rewrite len_repeat, Z.max_r by exact Hj.
  unfold Py.repeat. rewrite skipn_repeat. f_equal.
  pose proof (clamp_bounds j i Hj). lia.
Qed.

Lemma keep_count_ones (order : Keep.Order) (j c : Z) :
  0 <= j -> 0 <= c ->
  Keep.keep_count order (Py.repeat 1 j) c
  = Ok (Py.repeat 1 (j - Z.min c j), Z.min c j).
Proof.
  intros Hj Hc. unfold Keep.keep_count.
  destruct (Z.ltb_spec c 0) as [|_]; [lia|].
  destruct (Z.gtb_spec c 0) as [Hpos|Hz].
  - destruct order; cbv zeta.
    + rewrite upto_repeat, sum_repeat_max, from_repeat by exact Hj.
      assert (E : Py.clamp j c = Z.min c j)
        by (unfold Py.clamp; destruct (Z.ltb_spec c 0); lia).
      rewrite E. replace (Z.max 0 (Z.min c j) * 1) with (Z.min c j) by lia.
      assert (E' : Py.clamp j (Z.min c j) = Z.min c j)
        by (unfold Py.clamp; destruct (Z.ltb_spec (Z.min c j) 0); lia).
      rewrite E'. reflexivity.
    + rewrite from_repeat, sum_repeat_max by exact Hj.
      assert (E : Py.clamp j (- c) = Z.max 0 (j - c))
        by (unfold Py.clamp; destruct (Z.ltb_spec (- c) 0); [f_equal|]; lia).
      rewrite E.
      replace (Z.max 0 (j - Z.max 0 (j - c)) * 1) with (Z.min c j) by lia.
      rewrite upto_repeat by exact Hj.
      assert (E' : Py.clamp j (- Z.min c j) = j - Z.min c j)
        by (unfold Py.clamp; destruct (Z.ltb_spec (- Z.min c j) 0); lia).
      rewrite E'. reflexivity.
  - assert (c = 0) as -> by lia. rewrite Z.min_l, Z.sub_0_r by lia. reflexivity.
Qed.

Context {Leaf LeafState : Type}.
Variable leaf_next_state :
  Leaf -> Keep.state LeafState -> Z -> list Z -> list Z ->
  result (Keep.state LeafState * Z).

(** Keeping the [k] lowest, [[:k]], or the [k] highest, [[-k:]], is a
    budget of [k] ones, and such a budget is kept exactly: of a count
    [c] that the inner expression delivers, the keep emits what the
    budget left still allows, [min(c, j)], and the budget shrinks by
    what was emitted. *)
Theorem keep_ones_budget_exact (inner : Keep.MultisetExpression Leaf)
    (order : Keep.Order) (src : list Z) (st : Keep.state LeafState) (o : Z)
    (bc cs : list Z) (j c : Z) (inner_state s' : Keep.state LeafState) :
  Keep.unpack_state _ src st = Ok (Py.repeat 1 j, inner_state) ->
  Keep.next_state leaf_next_state inner inner_state o bc cs = Ok (s', c) ->
  0 <= j -> 0 <= c ->
  Keep.next_state leaf_next_state (Keep.KeepExpression inner order src) st o bc cs
  = Ok (Keep.SKeep (Py.repeat 1 (j - Z.min c j)) s', Z.min c j) /\
  (forall k, 0 <= k ->
     Keep.__new__ inner (Keep.ArgSlice None (Some k) None)
     = Ok (Keep.KeepExpression inner Keep.Ascending (Py.repeat 1 k))) /\
  (forall k, 0 < k ->
     Keep.__new__ inner (Keep.ArgSlice (Some (- k)) None None)
     = Ok (Keep.KeepExpression inner Keep.Descending (Py.repeat 1 k))).
Proof.
  intros Hst Hin Hj Hc. split; [|split].
  - rewrite (next_state_keep leaf_next_state inner order src st o bc cs _ _ _ _ Hst Hin).
    rewrite keep_count_ones by assumption. reflexivity.
  - intros k Hk. cbn [Keep.__new__]. destruct (Z.ltb_spec k 0); [lia|reflexivity].
  - intros k Hk. cbn [Keep.__new__]. destruct (Z.geb_spec (- k) 0); [lia|].
    rewrite Z.opp_involutive. reflexivity.
Qed.

End KeepOnes.

Lemma keep_ones_budget_exact_witness :
  Keep.next_state first_count
    (Keep.KeepExpression (Keep.Other tt) Keep.Descending [1; 1]) Keep.SNone 6 [] [3]
  = Ok (Keep.SKeep [] Keep.SNone, 2).
Proof.
  exact (proj1 (keep_ones_budget_exact first_count (Keep.Other tt) Keep.Descending
                  [1; 1] Keep.SNone 6 [] [3] 2 3 Keep.SNone Keep.SNone
                  eq_refl eq_refl ltac:(lia) ltac:(lia))).
Defined.

Section KeepSequences.

Lemma ints_ok (l : list Keep.item) (ns : list Z) :
  Keep.ints l = Ok ns <-> l = map Keep.Int ns.
Proof.
  revert ns. induction l as [|[n|] l IH]; intros ns; cbn [Keep.ints].
  - split; [intros [= <-]; reflexivity|]. destruct ns; [reflexivity|discriminate].
  - destruct (Keep.ints l) as [ms|e] eqn:E; cbn.
    + split.
      * intros [= <-]. cbn [map]. f_equal. apply IH. reflexivity.
      * destruct ns as [|m ns]; [discriminate|]. intros [= -> ->].
        f_equal. f_equal. assert (Ok ms = Ok ns :> result (list Z)) as [= ->]
          by (apply IH; reflexivity). reflexivity.
    + split; [discriminate|]. destruct ns as [|m ns]; [discriminate|].
      intros [= -> ->]. assert (Raise e = Ok ns :> result (list Z)); [|discriminate].
      apply IH. reflexivity.
  - split; [discriminate|]. destruct ns; discriminate.
Qed.

Lemma ints_raise (l : list Keep.item) (e : exn) :
  Keep.ints l = Raise e -> e = ValueError.
Proof.
  induction l as [|[n|] l IH]; cbn [Keep.ints]; [discriminate| |congruence].
  destruct (Keep.ints l); cbn; [discriminate|]. intros [= <-]. apply IH. reflexivity.
Qed.

Context {Leaf : Type}.

(** A sequence is accepted when it holds one [...], at one of its ends:
    first, the ints after it are kept from the highest down; last, the
    ints before it from the lowest up.  An empty sequence is an
    [IndexError], every other one a [ValueError]. *)
Theorem keep_sequence_forms (inner : Keep.MultisetExpression Leaf)
    (l : list Keep.item) :
  (forall e, Keep.__new__ inner (Keep.ArgSeq l) = Ok e <->
     exists ns,
       (l = Keep.Ellipsis :: map Keep.Int ns /\
        e = Keep.KeepExpression inner Keep.Descending ns) \/
       (ns <> [] /\ l = map Keep.Int ns ++ [Keep.Ellipsis] /\
        e = Keep.KeepExpression inner Keep.Ascending ns)) /\
  (forall x, Keep.__new__ inner (Keep.ArgSeq l) = Raise x ->
     x = if bool_decide (l = []) then IndexError else ValueError).
Proof.
  cbn [Keep.__new__]. destruct l as [|first l]; cbn [Py.first_item mbind].
  - split.
    + intros e. split; [discriminate|].
      intros (ns & [[E _]|(_ & E & _)]); [discriminate|].
      destruct ns; discriminate.
    + intros x [= <-]. reflexivity.
  - cbn. rewrite from_1_cons. destruct first as [n|]; cbn [Keep.is_ellipsis].
    + destruct (Py.last_item (Keep.Int n :: l)) as [last|e0] eqn:Elast; cbn.
      * apply last_item_snoc in Elast as [l' El]. rewrite El, upto_m1_snoc.
        destruct last as [m|]; cbn [Keep.is_ellipsis].
        -- split; [|intros x [= <-]; reflexivity].
           intros e. split; [discriminate|].
           intros (ns & [[E _]|(_ & E & _)]); [rewrite <- El in E; discriminate|].
           apply app_inj_tail in E as [_ [=]].
        -- destruct (Keep.ints l') as [ns|e1] eqn:Eints; cbn.
           ++ apply ints_ok in Eints. subst l'. split; [|discriminate].
              intros e. split.
              ** intros [= <-]. exists ns. right. split; [|split; reflexivity].
                 intros ->. destruct l; discriminate.
              ** intros (ms & [[E _]|(_ & E & ->)]); [rewrite <- El in E; discriminate|].
                 apply app_inj_tail in E as [E _].
                 assert (ns = ms) as ->; [|reflexivity].
                 revert ms E. clear. induction ns as [|a ns IH]; intros [|b ms] E;
                   try discriminate; [reflexivity|].
                 injection E as -> E. f_equal. apply IH, E.
           ++ split.
              ** intros e. split; [discriminate|].
                 intros (ms & [[E _]|(_ & E & _)]); [rewrite <- El in E; discriminate|].
                 apply app_inj_tail in E as [E _].
                 assert (Keep.ints l' = Ok ms) by (apply ints_ok; exact E). congruence.
              ** intros x [= <-]. apply ints_raise in Eints. exact Eints.
      * unfold Py.last_item in Elast. destruct (List.rev (Keep.Int n :: l)) eqn:Er;
          [|discriminate].
        apply (f_equal (@length _)) in Er. rewrite length_rev in Er. discriminate.
    + destruct (Keep.ints l) as [ns|e1] eqn:Eints; cbn.
      * apply ints_ok in Eints. subst l. split; [|discriminate].
        intros e. split.
        -- intros [= <-]. exists ns. left. split; reflexivity.
        -- intros (ms & [[E ->]|(Hne & E & _)]).
           ++ injection E as E. assert (ns = ms) as ->; [|reflexivity].
              revert ms E. clear. induction ns as [|a ns IH]; intros [|b ms] E;
                try discriminate; [reflexivity|].
              injection E as -> E. f_equal. apply IH, E.
           ++ destruct ms; [congruence|discriminate].
      * split.
        -- intros e. split; [discriminate|].
           intros (ms & [[E _]|(Hne & E & _)]).
           ++ injection E as E. assert (Keep.ints l = Ok ms) by (apply ints_ok; exact E).
              congruence.
           ++ destruct ms; [congruence|discriminate].
        -- intros x [= <-]. apply ints_raise in Eints. exact Eints.
Qed.

End KeepSequences.
